(** * Sample-instance generation (composer-common, lib/serializer/instancegenerator.js)

    A shallow embedding of the [InstanceGenerator] visitor and of the
    collaborators it talks to (type schema, instance factory, value
    generator, random source), followed by the properties of the generator
    that the design document states.

    The JavaScript code mutates objects in place and threads a stack of
    "objects being filled" through the [parameters] argument.  The embedding
    keeps that shape: instances live in a store and are named by locations,
    the stack holds locations, and every visitor method is a state
    transformer that either returns, throws, or runs out of recursion
    budget. *)

From Stdlib Require Import ZArith QArith Qround Lqa String Ascii List Lia SpecFloat.
From stdpp Require Import base option list gmap strings fin_maps.

Open Scope Z_scope.
Open Scope string_scope.
Open Scope list_scope.

(** ** The type schema *)

(** Modelled from the spec: the Field class is not part of the sources at
    hand.  A field has a name, a declared type name and an array flag; the
    generator asks for them through [getName()],
    [getFullyQualifiedTypeName()] and [isArray()]. *)
Module Field.
Record t := mk {
  getName : string;
  getFullyQualifiedTypeName : string;
  isArray : bool
}.
End Field.

(** Modelled from the spec: the RelationshipDeclaration class is not part of
    the sources at hand.  It has a name, a target type name and an array
    flag, and never embeds the target's data. *)
Module RelationshipDeclaration.
Record t := mk {
  getName : string;
  getFullyQualifiedTypeName : string;
  isArray : bool
}.
End RelationshipDeclaration.

(** The properties a class declaration exposes through [getProperties()]. *)
Inductive Property :=
| PropField (f : Field.t)
| PropRelationship (r : RelationshipDeclaration.t).

Definition Property_getName (p : Property) : string :=
  match p with
  | PropField f => Field.getName f
  | PropRelationship r => RelationshipDeclaration.getName r
  end.

(** Modelled from the spec: the EnumValueDeclaration class is not part of
    the sources at hand.  An enum literal has a name; the generator only
    calls [getName()] on it. *)
Module EnumValueDeclaration.
Record t := mk { getName : string }.
End EnumValueDeclaration.

(** Modelled from the spec: the ClassDeclaration class is not part of the
    sources at hand.  The record carries what the data model lists:
    namespace, name, optional supertype (a fully-qualified name), abstract
    flag, concept flag, identifier field name (absent for concepts) and the
    ordered properties, own and inherited.  [getNamespace] stands for
    [getModelFile().getNamespace()]. *)
Module ClassDeclaration.
Record t := mk {
  getNamespace : string;
  getName : string;
  getSuperType : option string;
  isAbstract : bool;
  isConcept : bool;
  getIdentifierFieldName : option string;
  getProperties : list Property
}.

Definition getFullyQualifiedName (c : t) : string :=
  getNamespace c +:+ "." +:+ getName c.
End ClassDeclaration.

(** Modelled from the spec: the EnumDeclaration class is not part of the
    sources at hand; it is an ordered set of literals under a qualified name. *)
Module EnumDeclaration.
Record t := mk {
  getNamespace : string;
  getName : string;
  getOwnProperties : list EnumValueDeclaration.t
}.

Definition getFullyQualifiedName (e : t) : string :=
  getNamespace e +:+ "." +:+ getName e.
End EnumDeclaration.

Inductive Declaration :=
| DeclClass (c : ClassDeclaration.t)
| DeclEnum (e : EnumDeclaration.t).

Definition Declaration_getFullyQualifiedName (d : Declaration) : string :=
  match d with
  | DeclClass c => ClassDeclaration.getFullyQualifiedName c
  | DeclEnum e => EnumDeclaration.getFullyQualifiedName e
  end.

(** Modelled from the spec: the ModelManager and the Introspector are not
    part of the sources at hand.  The schema is the ordered sequence of its
    declarations; [getType] answers a lookup by fully-qualified name (the
    first declaration carrying that name) or fails, and
    [getClassDeclarations] enumerates the class declarations in schema
    order. *)
Module ModelManager.
Definition t := list Declaration.

Definition getType (mm : t) (fqn : string) : option Declaration :=
  List.find (fun d => String.eqb (Declaration_getFullyQualifiedName d) fqn) mm.

Fixpoint getClassDeclarations (mm : t) : list ClassDeclaration.t :=
  match mm with
  | [] => []
  | DeclClass c :: rest => c :: getClassDeclarations rest
  | DeclEnum _ :: rest => getClassDeclarations rest
  end.
End ModelManager.

(** Modelled from the spec: ModelUtil.isPrimitiveType is not part of the
    sources at hand; the primitive kinds are string, integer, long, double,
    boolean and date-time. *)
Definition primitiveTypes : list string :=
  ["Boolean"; "String"; "DateTime"; "Double"; "Integer"; "Long"].

Definition isPrimitiveType (type : string) : bool :=
  existsb (String.eqb type) primitiveTypes.

(** ** JavaScript values and the object store *)

(** A location of the object store. *)
Abbreviation loc := nat (only parsing).

(** Values that flow through the generator.  Objects built by the factory
    are named by their location in the store; arrays are built locally by
    the generator and never updated after they are returned; a method that
    is read but not called is a function value. *)
#[warnings="-register-all"]
Inductive value :=
| VUndefined
| VNull
| VBoolean (b : bool)
| VNumber (q : Q)
| VString (s : string)
| VDateTime (millis : Z)
| VArray (elements : list value)
| VObject (l : loc)
| VFunction (name : string).

(** Modelled from the spec: Util.isNull is not part of the sources at hand;
    a value is absent when it is null or unset. *)
Definition isNull (v : value) : bool :=
  match v with
  | VUndefined | VNull => true
  | _ => false
  end.

(** The truth value a condition takes from a value. *)
Definition truthy (v : value) : bool :=
  match v with
  | VUndefined | VNull => false
  | VBoolean b => b
  | VNumber q => negb (Qeq_bool q 0)
  | VString s => negb (String.eqb s "")
  | VDateTime _ | VArray _ | VObject _ | VFunction _ => true
  end.

Inductive InstanceKind := Resource | Concept | Relationship.

(** Modelled from the spec: the Resource, Concept and Relationship classes
    are not part of the sources at hand.  A Resource has a namespace, a
    type, an identifier and property values; a Concept the same without
    the identifier; a Relationship a namespace, a type and an identifier
    only. *)
Record Instance := mkInstance {
  inst_kind : InstanceKind;
  inst_namespace : string;
  inst_type : string;
  inst_identifier : option string;
  inst_properties : gmap string value
}.

(** [obj[name]]: an unset property reads as [undefined]. *)
Definition Instance_get (o : Instance) (name : string) : value :=
  default VUndefined (inst_properties o !! name).

(** [obj[name] = v] *)
Definition Instance_set (o : Instance) (name : string) (v : value) : Instance :=
  mkInstance (inst_kind o) (inst_namespace o) (inst_type o) (inst_identifier o)
             (<[name := v]> (inst_properties o)).

(** ** Numbers, their formatting, and identifiers *)

(** A Number is an IEEE 754 binary64 value: 53 bits of precision, binary
    exponents below 1024.  The Standard Library's specification of
    floating-point arithmetic gives its operations. *)
Definition binary64 : Type := spec_float.

Definition prec : Z := 53.

Definition emax : Z := 1024.

(** [x * y]: the product, rounded to the nearest binary64, ties to even. *)
Definition Number_multiply (x y : binary64) : binary64 := SFmul prec emax x y.

(** The Number that an integer literal denotes. *)
Definition Number_of_Z (n : Z) : binary64 := binary_normalize prec emax n 0 false.

(** The rational number that a finite Number is. *)
Definition Number_value (x : binary64) : Q :=
  match x with
  | S754_finite s m e =>
      match e with
      | Zneg k => cond_Zopp s (Zpos m) # (2 ^ k)
      | _ => inject_Z (cond_Zopp s (Zpos m) * 2 ^ e)
      end
  | _ => 0
  end.

(** What [Math.random()] may answer: a binary64 value that is zero or
    positive, and below 1. *)
Definition isSample (r : binary64) : bool :=
  match r with
  | S754_zero false => true
  | S754_finite false m e => bounded prec emax m e && (Zpos m <? 2 ^ (- e))%Z
  | _ => false
  end.

(** The Numbers without a fractional part, as [Math.round] answers them. *)
Inductive Integral :=
| IsInteger (n : Z)
| IsNaN
| IsInfinity (negative : bool).

(** The nearest integer to a rational number, halves going up. *)
Definition roundHalfUp (x : Q) : Z := Qfloor (x + (1 # 2))%Q.

(** [Math.round]: the nearest integer to a finite Number, halves going up;
    NaN and the infinities are answered as they are. *)
Definition Math_round (x : binary64) : Integral :=
  match x with
  | S754_nan => IsNaN
  | S754_infinity s => IsInfinity s
  | S754_zero _ => IsInteger 0
  | S754_finite _ _ _ => IsInteger (roundHalfUp (Number_value x))
  end.

(** The decimal digit [d] as a character. *)
Definition digit (d : Z) : ascii := ascii_of_nat (48 + Z.to_nat d).

(** The decimal numeral of [n], no leading zero, most significant digit
    first; [fuel] bounds the number of digits. *)
Fixpoint decimal (fuel : nat) (n : Z) : string :=
  match fuel with
  | O => ""
  | S k =>
      (if (n / 10 =? 0)%Z then "" else decimal k (n / 10))
      +:+ String (digit (n mod 10)) ""
  end.

(** [Number.prototype.toString] on an integer: its decimal numeral.  A
    number has no more decimal digits than binary ones. *)
Definition Number_toString (n : Z) : string :=
  if (n <? 0)%Z then "-" +:+ decimal (S (Z.to_nat (Z.log2 (- n)))) (- n)
  else decimal (S (Z.to_nat (Z.log2 n))) n.

(** [toString] on what [Math.round] answers.  The decimal numeral is what
    an integer below 10^21 prints as, and a sample times 9999 is far
    below. *)
Definition Integral_toString (x : Integral) : string :=
  match x with
  | IsInteger n => Number_toString n
  | IsNaN => "NaN"
  | IsInfinity false => "Infinity"
  | IsInfinity true => "-Infinity"
  end.

Fixpoint String_repeat (ch : string) (n : nat) : string :=
  match n with
  | O => ""
  | S k => ch +:+ String_repeat ch k
  end.

(** The left-pad package: [ch] is put in front until [len] characters are
    reached; a string that is long enough already is returned as it is. *)
Definition leftPad (str : string) (len : nat) (ch : string) : string :=
  String_repeat ch (len - String.length str) +:+ str.

(** A template literal prints an absent identifier field name as [null]. *)
Definition template_string (s : option string) : string :=
  match s with
  | Some x => x
  | None => "null"
  end.

(** The four decimal digits of [n], thousands first: the shape NNNN that
    the format of identifiers is stated with. *)
Definition fourDigits (n : Z) : string :=
  String (digit (n / 1000))
    (String (digit (n / 100 mod 10))
       (String (digit (n / 10 mod 10))
          (String (digit (n mod 10)) ""))).

(** Lines 141-143 (and again 205-207, 213-215), with the random sample [r]
    already drawn:
      let idx = Math.round(r * 9999).toString();
      idx = leftPad(idx, 4, '0');
      let id = `${identifierFieldName}:${idx}`;
    The sample and 9999 are binary64 values and so is their product: the
    exact product rounded once. *)
Definition identifier_of_sample (identifierFieldName : option string) (r : binary64) : string :=
  let idx := Integral_toString (Math_round (Number_multiply r (Number_of_Z 9999))) in
  let idx := leftPad idx 4 "0" in
  template_string identifierFieldName +:+ ":" +:+ idx.

(** ** Errors *)

(** What a call can throw: [new Error(message)], the [TypeError] of a
    property access on [undefined], and the schema's failed lookup. *)
Inductive exn :=
| Error (message : string)
| TypeError
| TypeNotFound (fqn : string).

(** A computation that touches no state: a value or a thrown exception. *)
Inductive result (A : Type) :=
| Ok (a : A)
| Raise (e : exn).
Arguments Ok {A} a.
Arguments Raise {A} e.

(** ** Leaf resolution *)

(** [Globalize.messageFormatter(key)] applied to [{type: ...}]; the message
    catalogue is not part of the sources at hand, so the formatter is an
    interface of the development. *)
Class Globalize := {
  messageFormatter : string -> string -> string
}.

Section LeafResolution.

Context `{Globalize}.

(** The callback of [allClassDeclarations.forEach], lines 165-172. *)
Definition isContender (inputType classDecl : ClassDeclaration.t) : bool :=
  match ClassDeclaration.getSuperType classDecl with
  | Some superType =>
      negb (ClassDeclaration.isAbstract classDecl)
      && String.eqb superType (ClassDeclaration.getFullyQualifiedName inputType)
  | None => false
  end.

(** [findExtendingLeafType], lines 158-187.  [modelManager] is
    [inputType.getModelFile().getModelManager()]; the result is the
    declaration, [null] never being produced on any path. *)
Definition findExtendingLeafType (modelManager : ModelManager.t)
    (inputType : ClassDeclaration.t) : result (option ClassDeclaration.t) :=
  if ClassDeclaration.isAbstract inputType then
    let allClassDeclarations := ModelManager.getClassDeclarations modelManager in
    let contenders := List.filter (isContender inputType) allClassDeclarations in
    match contenders with
    | first :: _ => Ok (Some first)
    | [] =>
        let formatter := messageFormatter "instancegenerator-newinstance-noconcreteclass" in
        Raise (Error (formatter (ClassDeclaration.getFullyQualifiedName inputType)))
    end
  else
    Ok (Some inputType).

End LeafResolution.

(** ** The generator as a state transformer *)

Section StateMonad.

(** Whatever lies outside the generator and changes as it runs: the state of
    the random source and of the value generator. *)
Context {World : Type}.

(** The mutable state: [parameters.stack] (top of the stack first), the
    store of instances, and the outside world. *)
Record State := mkState {
  stack : list loc;
  heap : list Instance;
  world : World
}.

Inductive outcome (A : Type) :=
| Returned (a : A) (s : State)
| Thrown (e : exn) (s : State)
| OutOfFuel.

Definition M (A : Type) := State -> outcome A.

Definition ret {A} (a : A) : M A := fun s => Returned A a s.

Definition throw {A} (e : exn) : M A := fun s => Thrown A e s.

Definition bind {A B} (c : M A) (k : A -> M B) : M B :=
  fun s =>
    match c s with
    | Returned _ a s' => k a s'
    | Thrown _ e s' => Thrown B e s'
    | OutOfFuel _ => OutOfFuel B
    end.

End StateMonad.

Arguments State World : clear implicits.
Arguments M World A : clear implicits.
Arguments outcome World A : clear implicits.
Arguments Returned {World A} a s.
Arguments Thrown {World A} e s.
Arguments OutOfFuel {World A}.

Notation "x <- c ;; k" := (bind c (fun x => k))
  (at level 100, c at next level, right associativity).
Notation "c ;;; k" := (bind c (fun _ => k))
  (at level 100, right associativity).

(** Modelled from the spec: the value generators are not part of the
    sources at hand.  Each method returns one value of its kind, with no
    determinism promised, so each draws from the outside world; [getEnum]
    picks among the literals it is given ([None] stands for an answer on
    which [getName()] cannot be called). *)
Record ValueGenerator (World : Type) := mkValueGenerator {
  getDateTime : World -> value * World;
  getInteger : World -> value * World;
  getLong : World -> value * World;
  getDouble : World -> value * World;
  getBoolean : World -> value * World;
  getString : World -> value * World;
  getEnum : list EnumValueDeclaration.t -> World -> option EnumValueDeclaration.t * World
}.
Arguments getDateTime {World} _ _.
Arguments getInteger {World} _ _.
Arguments getLong {World} _ _.
Arguments getDouble {World} _ _.
Arguments getBoolean {World} _ _.
Arguments getString {World} _ _.
Arguments getEnum {World} _ _ _.

(** The globals the generator calls: [Math.random()] and
    [ValueGeneratorFactory.sample()] (the factory of value generators is not
    part of the sources at hand). *)
Class Runtime (World : Type) := {
  Math_random : World -> binary64 * World;
  ValueGeneratorFactory_sample : ValueGenerator World
}.

(** Modelled from the spec: the common Factory class is not part of the
    sources at hand.  Its constructors check that (namespace, type) names a
    class declared in the factory's schema before they build anything, and
    a resource is built with its identifier under the identifier field of
    its class, as in [{vin: "vin:0731", ...}]. *)
Record Factory := mkFactory {
  factory_modelManager : ModelManager.t
}.

Definition Factory_declares (f : Factory) (ns type : string) : bool :=
  match ModelManager.getType (factory_modelManager f) (ns +:+ "." +:+ type) with
  | Some (DeclClass _) => true
  | _ => false
  end.

(** The identifier field of the class that the factory's schema declares
    under (namespace, type). *)
Definition Factory_identifierFieldName (f : Factory) (ns type : string) : option string :=
  match ModelManager.getType (factory_modelManager f) (ns +:+ "." +:+ type) with
  | Some (DeclClass c) => ClassDeclaration.getIdentifierFieldName c
  | _ => None
  end.

(** The resource the factory builds: its identifier field holds [id], and
    nothing else is set. *)
Definition Factory_resource (f : Factory) (ns type id : string) : Instance :=
  mkInstance Resource ns type (Some id)
    match Factory_identifierFieldName f ns type with
    | Some idField => <[idField := VString id]> ∅
    | None => ∅
    end.

(** The [parameters] object, without its [stack], which is mutable state. *)
Record Parameters (World : Type) := mkParameters {
  modelManager : ModelManager.t;
  factory : Factory;
  valueGenerator : option (ValueGenerator World)
}.
Arguments modelManager {World} _.
Arguments factory {World} _.
Arguments valueGenerator {World} _.

Section Engine.

Context {World : Type} `{Globalize} `{Runtime World}.

Local Abbreviation M := (M World).
Local Abbreviation Parameters := (Parameters World).
Local Abbreviation ValueGenerator := (ValueGenerator World).

Definition lift_result {A} (r : result A) : M A :=
  match r with
  | Ok a => ret a
  | Raise e => throw e
  end.

(** A call into the outside world (random source, value generator). *)
Definition lift_world {A} (f : World -> A * World) : M A :=
  fun s => let (a, w) := f (world s) in Returned a (mkState (stack s) (heap s) w).

(** [parameters.stack.pop()]: [undefined] on an empty stack. *)
Definition stack_pop : M (option loc) :=
  fun s =>
    match stack s with
    | [] => Returned None s
    | top :: rest => Returned (Some top) (mkState rest (heap s) (world s))
    end.

(** [parameters.stack.push(obj)] *)
Definition stack_push (l : loc) : M unit :=
  fun s => Returned tt (mkState (l :: stack s) (heap s) (world s)).

(** A new object enters the store at the next free location. *)
Definition alloc (o : Instance) : M loc :=
  fun s => Returned (length (heap s)) (mkState (stack s) (heap s ++ [o]) (world s)).

(** [obj[name]]; reading a property of [undefined] throws. *)
Definition getProperty (obj : option loc) (name : string) : M value :=
  match obj with
  | None => throw TypeError
  | Some l =>
      fun s =>
        Returned (match heap s !! l with
                  | Some o => Instance_get o name
                  | None => VUndefined
                  end) s
  end.

(** [obj[name] = v] *)
Definition setProperty (obj : option loc) (name : string) (v : value) : M unit :=
  match obj with
  | None => throw TypeError
  | Some l =>
      fun s =>
        Returned tt (mkState (stack s)
                             (alter (fun o => Instance_set o name v) l (heap s))
                             (world s))
  end.

(** [modelManager.getType(fqn)], which fails on an unknown name. *)
Definition getType (mm : ModelManager.t) (fqn : string) : M Declaration :=
  match ModelManager.getType mm fqn with
  | Some d => ret d
  | None => throw (TypeNotFound fqn)
  end.

Definition Factory_validate (f : Factory) (ns type : string) : M unit :=
  if Factory_declares f ns type then ret tt
  else throw (TypeNotFound (ns +:+ "." +:+ type)).

Definition newConcept (f : Factory) (ns type : string) : M loc :=
  Factory_validate f ns type ;;;
  alloc (mkInstance Concept ns type None ∅).

Definition newResource (f : Factory) (ns type id : string) : M loc :=
  Factory_validate f ns type ;;;
  alloc (Factory_resource f ns type id).

Definition newRelationship (f : Factory) (ns type id : string) : M loc :=
  Factory_validate f ns type ;;;
  alloc (mkInstance Relationship ns type (Some id) ∅).

(** Lines 141-143, 205-207 and 213-215: draw a sample, build the identifier. *)
Definition newIdentifier (identifierFieldName : option string) : M string :=
  r <- lift_world Math_random ;;
  ret (identifier_of_sample identifierFieldName r).

(** [for (let i = 0; i < n; i++) { result.push(c) }] from [result = []]. *)
Fixpoint repeatM {A} (n : nat) (c : M A) : M (list A) :=
  match n with
  | O => ret []
  | S k => x <- c ;; rest <- repeatM k c ;; ret (x :: rest)
  end.

(** [visitRelationshipDeclaration], lines 198-219.  An enum declaration
    answers none of the class-declaration queries made here. *)
Definition visitRelationshipDeclaration (relationshipDeclaration : RelationshipDeclaration.t)
    (parameters : Parameters) : M value :=
  d <- getType (modelManager parameters)
         (RelationshipDeclaration.getFullyQualifiedTypeName relationshipDeclaration) ;;
  match d with
  | DeclEnum _ => throw TypeError
  | DeclClass classDeclaration =>
      let identifierFieldName := ClassDeclaration.getIdentifierFieldName classDeclaration in
      let factory := factory parameters in
      let one :=
        id <- newIdentifier identifierFieldName ;;
        relationship <- newRelationship factory
                          (ClassDeclaration.getNamespace classDeclaration)
                          (ClassDeclaration.getName classDeclaration) id ;;
        ret (VObject relationship) in
      if RelationshipDeclaration.isArray relationshipDeclaration then
        result <- repeatM 3 one ;;
        ret (VArray result)
      else
        one
  end.

(** The primitive branch of [getFieldValue], lines 106-121. *)
Definition primitiveValue (valueGenerator : ValueGenerator) (type : string) : M value :=
  if String.eqb type "DateTime" then lift_world (getDateTime valueGenerator)
  else if String.eqb type "Integer" then lift_world (getInteger valueGenerator)
  else if String.eqb type "Long" then lift_world (getLong valueGenerator)
  else if String.eqb type "Double" then lift_world (getDouble valueGenerator)
  else if String.eqb type "Boolean" then lift_world (getBoolean valueGenerator)
  else lift_world (getString valueGenerator).

(** The member [isAbstract] of a class declaration, read and not called: it
    is the method that lines 161 and 167 call. *)
Definition ClassDeclaration_isAbstract_member (c : ClassDeclaration.t) : value :=
  VFunction "isAbstract".

(** Lines 127-133 of [getFieldValue]: the declaration the new instance is
    built from. *)
Definition resolveClassDeclaration (parameters : Parameters)
    (classDeclaration : ClassDeclaration.t) : M ClassDeclaration.t :=
  if truthy (ClassDeclaration_isAbstract_member classDeclaration) then
    newClassDecl <- lift_result
      (findExtendingLeafType (modelManager parameters) classDeclaration) ;;
    match newClassDecl with
    | Some c => ret c
    | None => ret classDeclaration
    end
  else
    ret classDeclaration.

(** Lines 135-147 of [getFieldValue]: build the concept or the resource,
    push it, and visit its class declaration. *)
Definition newInstance
    (visitClass : ClassDeclaration.t -> Parameters -> M value)
    (classDeclaration : ClassDeclaration.t) (parameters : Parameters) : M value :=
  if ClassDeclaration.isConcept classDeclaration then
    concept <- newConcept (factory parameters)
                 (ClassDeclaration.getNamespace classDeclaration)
                 (ClassDeclaration.getName classDeclaration) ;;
    stack_push concept ;;;
    visitClass classDeclaration parameters
  else
    let identifierFieldName := ClassDeclaration.getIdentifierFieldName classDeclaration in
    id <- newIdentifier identifierFieldName ;;
    resource <- newResource (factory parameters)
                  (ClassDeclaration.getNamespace classDeclaration)
                  (ClassDeclaration.getName classDeclaration) id ;;
    stack_push resource ;;;
    visitClass classDeclaration parameters.

(** [getFieldValue], lines 103-148.  [visitClass] is what
    [classDeclaration.accept(this, parameters)] runs: the visitor's
    [visitClassDeclaration]. *)
Definition getFieldValue_
    (visitClass : ClassDeclaration.t -> Parameters -> M value)
    (field : Field.t) (parameters : Parameters) : M value :=
  let type := Field.getFullyQualifiedTypeName field in
  let valueGenerator := default ValueGeneratorFactory_sample (valueGenerator parameters) in
  if isPrimitiveType type then
    primitiveValue valueGenerator type
  else
    d <- getType (modelManager parameters) type ;;
    match d with
    | DeclEnum e =>
        let enumValues := EnumDeclaration.getOwnProperties e in
        chosen <- lift_world (getEnum valueGenerator enumValues) ;;
        match chosen with
        | Some enumValue => ret (VString (EnumValueDeclaration.getName enumValue))
        | None => throw TypeError
        end
    | DeclClass classDeclaration =>
        classDeclaration <- resolveClassDeclaration parameters classDeclaration ;;
        newInstance visitClass classDeclaration parameters
    end.

(** [visitField], lines 84-95. *)
Definition visitField_
    (visitClass : ClassDeclaration.t -> Parameters -> M value)
    (field : Field.t) (parameters : Parameters) : M value :=
  if Field.isArray field then
    result <- repeatM 3 (getFieldValue_ visitClass field parameters) ;;
    ret (VArray result)
  else
    getFieldValue_ visitClass field parameters.

(** What [visit] can be handed. *)
Inductive Thing :=
| ThingClassDeclaration (c : ClassDeclaration.t)
| ThingRelationshipDeclaration (r : RelationshipDeclaration.t)
| ThingField (f : Field.t)
| ThingOther (json : string).

(** [visit], lines 45-55. *)
Definition visit_
    (visitClass : ClassDeclaration.t -> Parameters -> M value)
    (thing : Thing) (parameters : Parameters) : M value :=
  match thing with
  | ThingClassDeclaration c => visitClass c parameters
  | ThingRelationshipDeclaration r => visitRelationshipDeclaration r parameters
  | ThingField f => visitField_ visitClass f parameters
  | ThingOther json => throw (Error ("Unrecognised " +:+ json))
  end.

(** [property.accept(visitor, parameters)] is [visitor.visit(property, parameters)]. *)
Definition Property_accept
    (visitClass : ClassDeclaration.t -> Parameters -> M value)
    (property : Property) (parameters : Parameters) : M value :=
  match property with
  | PropField f => visit_ visitClass (ThingField f) parameters
  | PropRelationship r => visit_ visitClass (ThingRelationshipDeclaration r) parameters
  end.

(** The loop of [visitClassDeclaration], lines 67-73. *)
Fixpoint forProperties
    (visitClass : ClassDeclaration.t -> Parameters -> M value)
    (obj : option loc) (properties : list Property) (parameters : Parameters) : M unit :=
  match properties with
  | [] => ret tt
  | property :: rest =>
      value <- getProperty obj (Property_getName property) ;;
      (if isNull value then
         generated <- Property_accept visitClass property parameters ;;
         setProperty obj (Property_getName property) generated
       else ret tt) ;;;
      forProperties visitClass obj rest parameters
  end.

(** [visitClassDeclaration], lines 64-75. *)
Definition visitClassDeclaration_
    (visitClass : ClassDeclaration.t -> Parameters -> M value)
    (classDeclaration : ClassDeclaration.t) (parameters : Parameters) : M value :=
  obj <- stack_pop ;;
  let properties := ClassDeclaration.getProperties classDeclaration in
  forProperties visitClass obj properties parameters ;;;
  ret (match obj with Some l => VObject l | None => VUndefined end).

(** The recursion through by-value nesting: [fuel] bounds how many class
    declarations may be entered one inside the other. *)
Fixpoint visitClassDeclaration (fuel : nat)
    (classDeclaration : ClassDeclaration.t) (parameters : Parameters) : M value :=
  match fuel with
  | O => fun _ => OutOfFuel
  | S n => visitClassDeclaration_ (visitClassDeclaration n) classDeclaration parameters
  end.

Definition getFieldValue (fuel : nat) := getFieldValue_ (visitClassDeclaration fuel).

Definition visitField (fuel : nat) := visitField_ (visitClassDeclaration fuel).

Definition visit (fuel : nat) := visit_ (visitClassDeclaration fuel).

(** Modelled from the spec: the caller of the visitor is not part of the
    sources at hand.  [generate(targetType, instance, context)] enters the
    visitor with the instance to populate on top of the stack. *)
Definition generate (fuel : nat) (targetType : ClassDeclaration.t) (instance : loc)
    (parameters : Parameters) : M value :=
  stack_push instance ;;;
  visit fuel (ThingClassDeclaration targetType) parameters.

End Engine.

(** ** A sample schema *)

Module Sample.

Definition ns : string := "org.acme".

Definition stringField (name : string) : Property :=
  PropField (Field.mk name "String" false).

(** asset Vehicle identified by vin, owned by a Person. *)
Definition Vehicle : ClassDeclaration.t :=
  ClassDeclaration.mk ns "Vehicle" None false false (Some "vin")
    [ stringField "vin"; stringField "colour"; stringField "manufacturer";
      PropRelationship (RelationshipDeclaration.mk "owner" "org.acme.Person" false) ].

(** participant Person identified by ssn, pointing back at Vehicles. *)
Definition Person : ClassDeclaration.t :=
  ClassDeclaration.mk ns "Person" None false false (Some "ssn")
    [ stringField "ssn";
      PropRelationship (RelationshipDeclaration.mk "vehicles" "org.acme.Vehicle" true) ].

Definition Colour : EnumDeclaration.t :=
  EnumDeclaration.mk ns "Colour"
    [ EnumValueDeclaration.mk "RED"; EnumValueDeclaration.mk "GREEN";
      EnumValueDeclaration.mk "BLUE" ].

(** abstract Animal, with a deeper descendant listed before its direct child. *)
Definition Animal : ClassDeclaration.t :=
  ClassDeclaration.mk ns "Animal" None true false (Some "tag") [ stringField "tag" ].

Definition Mammal : ClassDeclaration.t :=
  ClassDeclaration.mk ns "Mammal" (Some "org.acme.Animal") true false (Some "tag")
    [ stringField "tag" ].

Definition Dog : ClassDeclaration.t :=
  ClassDeclaration.mk ns "Dog" (Some "org.acme.Mammal") false false (Some "tag")
    [ stringField "tag" ].

Definition Fish : ClassDeclaration.t :=
  ClassDeclaration.mk ns "Fish" (Some "org.acme.Animal") false false (Some "tag")
    [ stringField "tag"; PropField (Field.mk "scales" "Integer" false) ].

Definition Bird : ClassDeclaration.t :=
  ClassDeclaration.mk ns "Bird" (Some "org.acme.Animal") false false (Some "tag")
    [ stringField "tag" ].

(** abstract Shape, which nothing extends. *)
Definition Shape : ClassDeclaration.t :=
  ClassDeclaration.mk ns "Shape" None true false (Some "sid") [ stringField "sid" ].

(** concept Address, nested by value. *)
Definition Address : ClassDeclaration.t :=
  ClassDeclaration.mk ns "Address" None false true None
    [ stringField "street"; PropField (Field.mk "postcode" "Integer" false) ].

(** asset Farm, with one field of every kind. *)
Definition Farm : ClassDeclaration.t :=
  ClassDeclaration.mk ns "Farm" None false false (Some "farmId")
    [ stringField "farmId";
      PropField (Field.mk "address" "org.acme.Address" false);
      PropField (Field.mk "paint" "org.acme.Colour" false);
      PropField (Field.mk "pets" "org.acme.Animal" true);
      PropField (Field.mk "founded" "DateTime" false);
      PropRelationship (RelationshipDeclaration.mk "farmer" "org.acme.Person" false) ].

(** asset Studio, with a field of the abstract type that nothing extends. *)
Definition Studio : ClassDeclaration.t :=
  ClassDeclaration.mk ns "Studio" None false false (Some "studioId")
    [ stringField "studioId";
      PropField (Field.mk "logo" "org.acme.Shape" false);
      stringField "motto" ].

Definition schema : ModelManager.t :=
  [ DeclClass Vehicle; DeclClass Person; DeclEnum Colour; DeclClass Animal;
    DeclClass Mammal; DeclClass Dog; DeclClass Fish; DeclClass Bird;
    DeclClass Shape; DeclClass Address; DeclClass Farm; DeclClass Studio ].

(** The outside world is a counter; the random source and the value
    generator read it and step it.  The samples are the multiples of 7919,
    reduced below 10000, in ten-thousandths, to the nearest 2^-53 below. *)
Definition random (w : Z) : binary64 * Z :=
  (binary_normalize prec emax ((w * 7919) mod 10000 * 900719925474) (-53) false, w + 1).

Definition sampleGenerator : ValueGenerator Z :=
  mkValueGenerator Z
    (fun w => (VDateTime w, w + 1))
    (fun w => (VNumber (inject_Z w), w + 1))
    (fun w => (VNumber (inject_Z w), w + 1))
    (fun w => (VNumber (w # 2), w + 1))
    (fun w => (VBoolean (Z.even w), w + 1))
    (fun w => (VString (Number_toString w), w + 1))
    (fun values w =>
       (nth_error values (Z.to_nat (w mod Z.of_nat (List.length values))), w + 1)).

(** The "empty" variant: zero values, first literal. *)
Definition emptyGenerator : ValueGenerator Z :=
  mkValueGenerator Z
    (fun w => (VDateTime 0, w))
    (fun w => (VNumber 0, w))
    (fun w => (VNumber 0, w))
    (fun w => (VNumber 0, w))
    (fun w => (VBoolean false, w))
    (fun w => (VString "", w))
    (fun values w => (head values, w)).

#[export] Instance globalize : Globalize :=
  {| messageFormatter := fun key type =>
       if String.eqb key "instancegenerator-newinstance-noconcreteclass"
       then "No concrete extending type for " +:+ type
       else key |}.

#[export] Instance runtime : Runtime Z :=
  {| Math_random := random; ValueGeneratorFactory_sample := sampleGenerator |}.

Definition parameters : Parameters Z :=
  mkParameters Z schema (mkFactory schema) None.

(** The same, with the "empty" generator chosen by the caller. *)
Definition emptyParameters : Parameters Z :=
  mkParameters Z schema (mkFactory schema) (Some emptyGenerator).

(** The schema without the classes that cannot be generated. *)
Definition farmSchema : ModelManager.t :=
  [ DeclClass Vehicle; DeclClass Person; DeclEnum Colour; DeclClass Animal;
    DeclClass Mammal; DeclClass Dog; DeclClass Fish; DeclClass Bird;
    DeclClass Address; DeclClass Farm ].

Definition farmParameters : Parameters Z :=
  mkParameters Z farmSchema (mkFactory farmSchema) (Some emptyGenerator).

(** Farm nests an Address and Animals by value; nothing else nests. *)
Definition nesting (c : ClassDeclaration.t) : nat :=
  if String.eqb (ClassDeclaration.getName c) "Farm" then 1 else 0.

Definition emptyResource (type id : string) : Instance :=
  mkInstance Resource ns type (Some id) ∅.

(** A Vehicle whose colour the caller has chosen. *)
Definition blueVehicle : Instance :=
  mkInstance Resource ns "Vehicle" (Some "V1") (<["colour" := VString "BLUE"]> ∅).

(** A Vehicle with a value in each declared property. *)
Definition fullVehicle : Instance :=
  mkInstance Resource ns "Vehicle" (Some "V2")
    (<["vin" := VString "V2"]>
       (<["colour" := VString "RED"]>
          (<["manufacturer" := VString "Acme"]>
             (<["owner" := VObject 7%nat]> ∅)))).

(** Properties and states the examples run on. *)
Definition founded : Field.t := Field.mk "founded" "DateTime" false.

Definition paint : Field.t := Field.mk "paint" "org.acme.Colour" false.

Definition address : Field.t := Field.mk "address" "org.acme.Address" false.

Definition logo : Field.t := Field.mk "logo" "org.acme.Shape" false.

Definition pet : Field.t := Field.mk "pet" "org.acme.Fish" false.

Definition owner : RelationshipDeclaration.t :=
  RelationshipDeclaration.mk "owner" "org.acme.Person" false.

Definition vehicles : RelationshipDeclaration.t :=
  RelationshipDeclaration.mk "vehicles" "org.acme.Vehicle" true.

Definition emptyStore : State Z := mkState [] [] 3.

Definition personStore : State Z := mkState [] [emptyResource "Person" "P1"] 3.

Definition studioStore : State Z := mkState [] [emptyResource "Studio" "S1"] 3.

Definition farmStore : State Z := mkState [0%nat] [emptyResource "Farm" "F1"] 3.

Definition vehicleStore : State Z := mkState [] [blueVehicle; fullVehicle] 3.

(** The Studio once its first property has been generated. *)
Definition studioStoreNamed : State Z :=
  mkState []
    [mkInstance Resource ns "Studio" (Some "S1") (<["studioId" := VString "3"]> ∅)] 4.

End Sample.

(** ** The issue-identity dialogue (composer-playground, issue-identity.component.ts) *)

Module IssueIdentity.

(** The platform's regular expressions.  [RegExp_new pattern flags] is
    [None] when the constructor throws a SyntaxError; [RegExp_test] is
    [test] on an expression that has just been built, whose [lastIndex] is
    therefore 0. *)
Class RegExpEngine := {
  RegExp : Type;
  RegExp_new : string -> string -> option RegExp;
  RegExp_test : RegExp -> string -> bool
}.

Section Search.

Context `{RegExpEngine}.

(** [participantFQIs.filter(v => new RegExp(term, 'gi').test(v))], line 76:
    the expression is built again for every element, and the filter ends
    with the SyntaxError ([None]) of the first one that cannot be built. *)
Fixpoint filterMatching (term : string) (participantFQIs : list string)
    : option (list string) :=
  match participantFQIs with
  | [] => Some []
  | v :: rest =>
      match RegExp_new term "gi" with
      | None => None
      | Some re =>
          match filterMatching term rest with
          | None => None
          | Some kept => Some (if RegExp_test re v then v :: kept else kept)
          end
      end
  end.

(** [Array.prototype.slice(from, to)] with indices inside the array or
    beyond its end. *)
Definition slice {A} (from to : nat) (l : list A) : list A :=
  firstn (to - from) (skipn from l).

(** The function that [search] maps over the terms typed, lines 75-76;
    [None] is a thrown SyntaxError. *)
Definition search (participantFQIs : list string) (term : string) : option (list string) :=
  if String.eqb term "" then Some []
  else
    match filterMatching term participantFQIs with
    | Some matching => Some (slice 0 10 matching)
    | None => None
    end.

End Search.

(** [prefix] is the beginning of [s]. *)
Fixpoint startsWith (prefix s : string) : bool :=
  match prefix, s with
  | EmptyString, _ => true
  | String a prefix', String b s' => Ascii.eqb a b && startsWith prefix' s'
  | String _ _, EmptyString => false
  end.

(** [needle] occurs somewhere in [hay]. *)
Fixpoint includes (needle hay : string) : bool :=
  startsWith needle hay
  || match hay with
     | EmptyString => false
     | String _ rest => includes needle rest
     end.

(** [str.match(/\.blockchain\.ibm\.com/)] as a condition: the dots are
    escaped, so every character of the pattern stands for itself and the
    match succeeds when the text occurs in [str]. *)
Definition matchesBluemix (str : string) : bool := includes ".blockchain.ibm.com" str.

(** The [options] passed to [issueIdentity]; [affiliation] starts out
    [undefined]. *)
Record Options := mkOptions {
  issuer : bool;
  affiliation : option string
}.

(** The callback of the [forEach] of lines 86-91, on a connection profile
    given as its properties.  A value that is truthy and is not a string
    has no [match] method, and calling it throws a TypeError. *)
Definition checkUrl (connectionProfile : gmap string value) (options : Options)
    (url : string) : result Options :=
  let v := default VUndefined (connectionProfile !! url) in
  if truthy v then
    match v with
    | VString str =>
        if matchesBluemix str then Ok (mkOptions (issuer options) (Some "group1"))
        else Ok options
    | _ => Raise TypeError
    end
  else Ok options.

(** [urls.forEach(callback)], the options being updated in place. *)
Fixpoint forEachUrl (connectionProfile : gmap string value) (urls : list string)
    (options : Options) : result Options :=
  match urls with
  | [] => Ok options
  | url :: rest =>
      match checkUrl connectionProfile options url with
      | Ok options' => forEachUrl connectionProfile rest options'
      | Raise e => Raise e
      end
  end.

Definition urlKeys : list string := ["membershipServicesURL"; "peerURL"; "eventHubURL"].

(** Lines 85-91 of [issueIdentity]: the options built from the connection
    profile. *)
Definition issueOptions (issuerFlag : bool) (connectionProfile : gmap string value)
    : result Options :=
  forEachUrl connectionProfile urlKeys (mkOptions issuerFlag None).

End IssueIdentity.

(** ** More sample data *)

Module MoreSamples.

(** A class with a relationship to a type that the schema does not declare. *)
Definition Haunted : ClassDeclaration.t :=
  ClassDeclaration.mk Sample.ns "Haunted" None false false (Some "hid")
    [ Sample.stringField "hid";
      PropRelationship (RelationshipDeclaration.mk "ghost" "org.acme.Ghost" false);
      Sample.stringField "motto" ].

Definition hauntedStore : State Z :=
  mkState [] [Sample.emptyResource "Haunted" "H1"] 3.

(** The Haunted once its first property has been generated. *)
Definition hauntedStoreNamed : State Z :=
  mkState []
    [mkInstance Resource Sample.ns "Haunted" (Some "H1") (<["hid" := VString "3"]> ∅)] 4.

Definition farmOnly : State Z := mkState [] [Sample.emptyResource "Farm" "F1"] 3.

Definition pets : Field.t := Field.mk "pets" "org.acme.Animal" true.

(** A toy engine: an expression is a text to look for, and a lone opening
    parenthesis is not an expression. *)
#[export] Instance literalEngine : IssueIdentity.RegExpEngine :=
  {| IssueIdentity.RegExp := string;
     IssueIdentity.RegExp_new := fun pattern flags =>
       if String.eqb pattern "(" then None else Some pattern;
     IssueIdentity.RegExp_test := fun re v => IssueIdentity.includes re v |}.

Definition participants : list string :=
  [ "org.acme.Person#alice"; "org.acme.Person#bob"; "org.acme.Grower#carol" ].

(** A profile on the hosted service, and one with a port number where a
    URL is expected. *)
Definition hostedProfile : gmap string value :=
  <["peerURL" := VString "grpc://vp0.us.blockchain.ibm.com:30303"]>
    (<["membershipServicesURL" := VString "grpc://localhost:7054"]>
       (<["type" := VString "hlf"]> ∅)).

Definition brokenProfile : gmap string value :=
  <["peerURL" := VNumber 7051]> ∅.

(** Alpha and Beta point at each other, and a Beta nests a Beta by value. *)
Definition Alpha : ClassDeclaration.t :=
  ClassDeclaration.mk Sample.ns "Alpha" None false false (Some "alphaId")
    [ Sample.stringField "alphaId";
      PropRelationship (RelationshipDeclaration.mk "beta" "org.acme.Beta" false) ].

Definition Beta : ClassDeclaration.t :=
  ClassDeclaration.mk Sample.ns "Beta" None false false (Some "betaId")
    [ Sample.stringField "betaId";
      PropRelationship (RelationshipDeclaration.mk "alpha" "org.acme.Alpha" true);
      PropField (Field.mk "child" "org.acme.Beta" false) ].

Definition toBeta : RelationshipDeclaration.t :=
  RelationshipDeclaration.mk "beta" "org.acme.Beta" false.

Definition mutualSchema : ModelManager.t := [ DeclClass Alpha; DeclClass Beta ].

Definition mutualParameters : Parameters Z :=
  mkParameters Z mutualSchema (mkFactory mutualSchema) None.

Definition alphaStore : State Z := mkState [] [Sample.emptyResource "Alpha" "A1"] 3.

(** The rank for a class that nests nothing by value. *)
Definition flat (c : ClassDeclaration.t) : nat := 0.

(** Two different samples.  The exact product of the first and 9999 is
    just below 4098.5, and its binary64 product is 4098.5. *)
Definition halfway : binary64 :=
  binary_normalize prec emax 3691969811536749 (-53) false.

Definition aboveHalfway : binary64 :=
  binary_normalize prec emax 7385002668962139 (-54) false.

(** A random source that answers [halfway]. *)
Definition halfwayRuntime : Runtime Z :=
  {| Math_random := fun w => (halfway, w + 1);
     ValueGeneratorFactory_sample := Sample.sampleGenerator |}.

End MoreSamples.

(** ** Properties of the generator *)

Section Properties.

Context {World : Type} `{Globalize} `{Runtime World}.

Local Abbreviation M := (M World).
Local Abbreviation Parameters := (Parameters World).
Local Abbreviation State := (State World).

(** The outcome of one call [method()] into the outside world from state
    [s]: its result as it is, the stack and the store as they were. *)
Definition called {A} (method : World -> A * World) (s : State) : outcome World A :=
  Returned (fst (method (world s)))
           (mkState (stack s) (heap s) (snd (method (world s)))).

Lemma lift_world_called {A} (method : World -> A * World) (s : State) :
  lift_world method s = called method s.
Proof. unfold lift_world, called. destruct (method (world s)); reflexivity. Qed.

(** *** Primitive fields *)

(** C7. A single-valued field of primitive type is generated by exactly one
    call of the value generator method that matches its type tag (DateTime,
    Integer, Long, Double, Boolean; getString for any other primitive), and
    the result of that call is returned as it is. *)
Theorem primitive_field_dispatch (fuel : nat) (field : Field.t)
    (parameters : Parameters) (s : State) :
  let type := Field.getFullyQualifiedTypeName field in
  let generator := default ValueGeneratorFactory_sample (valueGenerator parameters) in
  Field.isArray field = false ->
  isPrimitiveType type = true ->
  (type = "DateTime" ->
     visitField fuel field parameters s = called (getDateTime generator) s) /\
  (type = "Integer" ->
     visitField fuel field parameters s = called (getInteger generator) s) /\
  (type = "Long" ->
     visitField fuel field parameters s = called (getLong generator) s) /\
  (type = "Double" ->
     visitField fuel field parameters s = called (getDouble generator) s) /\
  (type = "Boolean" ->
     visitField fuel field parameters s = called (getBoolean generator) s) /\
  (~ In type ["DateTime"; "Integer"; "Long"; "Double"; "Boolean"] ->
     visitField fuel field parameters s = called (getString generator) s).
Proof.
  intros type generator Harr Hprim.
  assert (Hgo : visitField fuel field parameters s = primitiveValue generator type s).
  { unfold visitField, visitField_, getFieldValue_. rewrite Harr.
    fold type. rewrite Hprim. reflexivity. }
  rewrite Hgo. unfold primitiveValue.
  repeat split; intros Htag.
  1-5: rewrite Htag; simpl; apply lift_world_called.
  repeat match goal with
         | |- context [String.eqb type ?t] =>
             destruct (String.eqb_spec type t) as [Heq | _];
             [ exfalso; apply Htag; rewrite Heq; simpl; tauto | ]
         end.
  apply lift_world_called.
Qed.

(** *** Leaf resolution *)

(** [c] is the first of [declarations] that is not abstract and whose direct
    supertype is [fqn]. *)
Definition firstDirectConcrete (declarations : list ClassDeclaration.t) (fqn : string)
    (c : ClassDeclaration.t) : Prop :=
  exists before after,
    declarations = before ++ c :: after /\
    ClassDeclaration.getSuperType c = Some fqn /\
    ClassDeclaration.isAbstract c = false /\
    forall d, In d before ->
      ~ (ClassDeclaration.getSuperType d = Some fqn /\ ClassDeclaration.isAbstract d = false).

Lemma isContender_spec (inputType classDecl : ClassDeclaration.t) :
  isContender inputType classDecl = true <->
  ClassDeclaration.getSuperType classDecl
    = Some (ClassDeclaration.getFullyQualifiedName inputType) /\
  ClassDeclaration.isAbstract classDecl = false.
Proof.
  unfold isContender.
  destruct (ClassDeclaration.getSuperType classDecl) as [superType |].
  - rewrite andb_true_iff, negb_true_iff, String.eqb_eq. split.
    + intros [Ha ->]. split; [reflexivity | exact Ha].
    + intros [Hs Ha]. inversion Hs. split; [exact Ha | reflexivity].
  - split; [discriminate | intros [Hs _]; discriminate].
Qed.

Lemma filter_head {A} (f : A -> bool) (l : list A) (x : A) (rest : list A) :
  List.filter f l = x :: rest ->
  exists before after,
    l = before ++ x :: after /\ f x = true /\ forall d, In d before -> f d = false.
Proof.
  induction l as [| a l IH]; simpl; [discriminate |].
  destruct (f a) eqn:Hfa.
  - intros Heq. inversion Heq; subst. exists [], l. repeat split; [exact Hfa | intros d []].
  - intros Heq. destruct (IH Heq) as (before & after & -> & Hx & Hbefore).
    exists (a :: before), after. repeat split; [exact Hx |].
    intros d [<- | Hin]; [exact Hfa | apply Hbefore, Hin].
Qed.

Lemma filter_first {A} (f : A -> bool) (before after : list A) (x : A) :
  f x = true -> (forall d, In d before -> f d = false) ->
  List.filter f (before ++ x :: after) = x :: List.filter f after.
Proof.
  intros Hx. induction before as [| a before IH]; simpl; intros Hbefore.
  - rewrite Hx. reflexivity.
  - rewrite (Hbefore a (or_introl eq_refl)). apply IH.
    intros d Hin. apply Hbefore. right. exact Hin.
Qed.

Lemma findExtendingLeafType_abstract (modelManager : ModelManager.t)
    (inputType c : ClassDeclaration.t) :
  ClassDeclaration.isAbstract inputType = true ->
  findExtendingLeafType modelManager inputType = Ok (Some c) <->
  firstDirectConcrete (ModelManager.getClassDeclarations modelManager)
    (ClassDeclaration.getFullyQualifiedName inputType) c.
Proof.
  intros Habs. unfold findExtendingLeafType, firstDirectConcrete. rewrite Habs. split.
  - destruct (List.filter _ _) as [| first rest] eqn:Hfilter; [discriminate |].
    intros Heq. inversion Heq; subst first.
    destruct (filter_head _ _ _ _ Hfilter) as (before & after & Hsplit & Hc & Hbefore).
    exists before, after. apply isContender_spec in Hc. destruct Hc as [Hs Ha].
    repeat split; try assumption.
    intros d Hin Hd. apply isContender_spec in Hd.
    rewrite (Hbefore d Hin) in Hd. discriminate.
  - intros (before & after & -> & Hs & Ha & Hbefore).
    rewrite filter_first; [reflexivity | apply isContender_spec; split; assumption |].
    intros d Hin. destruct (isContender inputType d) eqn:Hd; [| reflexivity].
    exfalso. apply (Hbefore d Hin). apply isContender_spec. exact Hd.
Qed.

Lemma findExtendingLeafType_none (modelManager : ModelManager.t)
    (inputType : ClassDeclaration.t) :
  ClassDeclaration.isAbstract inputType = true ->
  (forall c, In c (ModelManager.getClassDeclarations modelManager) ->
     ClassDeclaration.getSuperType c
       = Some (ClassDeclaration.getFullyQualifiedName inputType) ->
     ClassDeclaration.isAbstract c = true) ->
  findExtendingLeafType modelManager inputType
    = Raise (Error (messageFormatter "instancegenerator-newinstance-noconcreteclass"
                      (ClassDeclaration.getFullyQualifiedName inputType))).
Proof.
  intros Habs Hnone. unfold findExtendingLeafType. rewrite Habs.
  destruct (List.filter _ _) as [| first rest] eqn:Hfilter; [reflexivity |].
  destruct (filter_head _ _ _ _ Hfilter) as (before & after & Hsplit & Hc & _).
  apply isContender_spec in Hc. destruct Hc as [Hs Ha].
  rewrite (Hnone first) in Ha; [discriminate | | exact Hs].
  rewrite Hsplit. apply in_or_app. right. left. reflexivity.
Qed.

Lemma findExtendingLeafType_concrete (modelManager : ModelManager.t)
    (inputType : ClassDeclaration.t) :
  ClassDeclaration.isAbstract inputType = false ->
  findExtendingLeafType modelManager inputType = Ok (Some inputType).
Proof. intros Hconcrete. unfold findExtendingLeafType. rewrite Hconcrete. reflexivity. Qed.

(** The check of line 127 holds for every class declaration, so leaf
    resolution always runs. *)
Lemma resolveClassDeclaration_runs (parameters : Parameters)
    (classDeclaration : ClassDeclaration.t) (s : State) :
  resolveClassDeclaration parameters classDeclaration s =
  match findExtendingLeafType (modelManager parameters) classDeclaration with
  | Ok (Some c) => Returned c s
  | Ok None => Returned classDeclaration s
  | Raise e => Thrown e s
  end.
Proof.
  unfold resolveClassDeclaration. simpl. unfold bind, lift_result.
  destruct (findExtendingLeafType _ _) as [[c |] | e]; reflexivity.
Qed.

Lemma getFieldValue_class (fuel : nat) (field : Field.t) (parameters : Parameters)
    (classDeclaration : ClassDeclaration.t) (s : State) :
  isPrimitiveType (Field.getFullyQualifiedTypeName field) = false ->
  ModelManager.getType (modelManager parameters) (Field.getFullyQualifiedTypeName field)
    = Some (DeclClass classDeclaration) ->
  getFieldValue fuel field parameters s =
  match findExtendingLeafType (modelManager parameters) classDeclaration with
  | Ok (Some c) => newInstance (visitClassDeclaration fuel) c parameters s
  | Ok None => newInstance (visitClassDeclaration fuel) classDeclaration parameters s
  | Raise e => Thrown e s
  end.
Proof.
  intros Hprim Htype. unfold getFieldValue, getFieldValue_. rewrite Hprim.
  unfold getType. rewrite Htype. unfold bind at 1. unfold ret at 1.
  unfold bind at 1. rewrite resolveClassDeclaration_runs.
  destruct (findExtendingLeafType _ _) as [[c |] | e]; reflexivity.
Qed.

(** C4. For an abstract type, leaf resolution answers with the first class
    declaration, in the order the schema enumerates them, that is not
    abstract and whose direct supertype is the abstract type's
    fully-qualified name; a declaration that reaches the abstract type only
    through an intermediate supertype is never the answer.  The field's
    value is then built from that declaration. *)
Theorem leaf_resolution_first_direct_concrete (parameters : Parameters)
    (inputType c : ClassDeclaration.t) :
  ClassDeclaration.isAbstract inputType = true ->
  let declarations := ModelManager.getClassDeclarations (modelManager parameters) in
  let fqn := ClassDeclaration.getFullyQualifiedName inputType in
  (findExtendingLeafType (modelManager parameters) inputType = Ok (Some c) <->
   firstDirectConcrete declarations fqn c) /\
  (findExtendingLeafType (modelManager parameters) inputType = Ok (Some c) ->
   ClassDeclaration.getSuperType c = Some fqn) /\
  (forall s, resolveClassDeclaration parameters inputType s = Returned c s <->
             firstDirectConcrete declarations fqn c).
Proof.
  intros Habs declarations fqn. subst declarations fqn.
  pose proof (findExtendingLeafType_abstract (modelManager parameters) inputType c Habs)
    as Hleaf.
  split; [exact Hleaf |]. split.
  - intros Hfound. apply Hleaf in Hfound.
    destruct Hfound as (_ & _ & _ & Hs & _). exact Hs.
  - intros s. rewrite resolveClassDeclaration_runs. rewrite <- Hleaf.
    destruct (findExtendingLeafType _ _) as [[c' |] | e] eqn:Hfind; split; intros Heq;
      try discriminate; try congruence.
    exfalso. unfold findExtendingLeafType in Hfind. rewrite Habs in Hfind.
    destruct (List.filter _ _); discriminate.
Qed.

(** C10. The test of line 127 holds for every class declaration, so leaf
    resolution runs for every class-typed field; on a declaration that is
    not abstract it answers with that same declaration, and the field's
    value is built from it as if the test were not there. *)
Theorem leaf_resolution_identity_on_concrete (fuel : nat) (field : Field.t)
    (parameters : Parameters) (classDeclaration : ClassDeclaration.t) (s : State) :
  ClassDeclaration.isAbstract classDeclaration = false ->
  truthy (ClassDeclaration_isAbstract_member classDeclaration) = true /\
  resolveClassDeclaration parameters classDeclaration s =
    lift_result
      (match findExtendingLeafType (modelManager parameters) classDeclaration with
       | Ok (Some c) => Ok c
       | Ok None => Ok classDeclaration
       | Raise e => Raise e
       end) s /\
  findExtendingLeafType (modelManager parameters) classDeclaration
    = Ok (Some classDeclaration) /\
  (isPrimitiveType (Field.getFullyQualifiedTypeName field) = false ->
   ModelManager.getType (modelManager parameters) (Field.getFullyQualifiedTypeName field)
     = Some (DeclClass classDeclaration) ->
   getFieldValue fuel field parameters s
     = newInstance (visitClassDeclaration fuel) classDeclaration parameters s).
Proof.
  intros Hconcrete. split; [reflexivity |]. split.
  - rewrite resolveClassDeclaration_runs.
    destruct (findExtendingLeafType _ _) as [[c |] | e]; reflexivity.
  - split; [apply findExtendingLeafType_concrete, Hconcrete |].
    intros Hprim Htype.
    rewrite (getFieldValue_class fuel field parameters classDeclaration s Hprim Htype).
    rewrite (findExtendingLeafType_concrete _ _ Hconcrete). reflexivity.
Qed.

(** *** Identifiers *)

Lemma roundHalfUp_range (x : Q) :
  (0 <= x)%Q -> (x <= 9999)%Q -> 0 <= roundHalfUp x <= 9999.
Proof.
  intros Hlo Hhi. unfold roundHalfUp. split.
  - change 0 with (Qfloor 0). apply Qfloor_resp_le. lra.
  - change 9999 with (Qfloor (9999 + (1 # 2))). apply Qfloor_resp_le. lra.
Qed.

(** The binary64 product: what rounding does to the exact product. *)

Lemma digits2_pos_size (p : positive) : digits2_pos p = Pos.size p.
Proof. induction p as [p IH | p IH |]; simpl; rewrite ?IH; reflexivity. Qed.

Lemma digits2_pos_bound (p : positive) (k : Z) :
  0 <= k -> Zpos p < 2 ^ k -> Zpos (digits2_pos p) <= k.
Proof.
  intros Hk Hp. rewrite digits2_pos_size.
  pose proof (Pos.size_le p) as Hsize.
  assert (Hz : 2 ^ Zpos (Pos.size p) <= 2 * Zpos p).
  { change (2 * Zpos p) with (Zpos p~0). rewrite <- Pos2Z.inj_pow.
    apply Pos2Z.pos_le_pos. exact Hsize. }
  assert (Hlt : 2 ^ Zpos (Pos.size p) < 2 ^ (k + 1)).
  { rewrite Z.pow_add_r by lia. lia. }
  apply Z.pow_lt_mono_r_iff in Hlt; lia.
Qed.

Lemma shr_1_m (mrs : shr_record) :
  0 <= shr_m mrs -> shr_m (shr_1 mrs) = shr_m mrs / 2.
Proof.
  destruct mrs as [m r s]. cbn [shr_m]. intros Hm.
  destruct m as [| [p | p |] |]; unfold shr_1; cbn [shr_m]; try lia.
  - reflexivity.
  - rewrite Pos2Z.inj_xI. apply (Z.div_unique _ 2 _ 1); lia.
  - rewrite Pos2Z.inj_xO. apply (Z.div_unique _ 2 _ 0); lia.
  - reflexivity.
Qed.

Lemma iter_shr_1_m (p : positive) :
  forall mrs, 0 <= shr_m mrs ->
    shr_m (SpecFloat.iter_pos shr_1 p mrs) = shr_m mrs / 2 ^ Zpos p.
Proof.
  assert (Hhalf : forall mrs, 0 <= shr_m mrs -> 0 <= shr_m (shr_1 mrs)).
  { intros mrs Hm. rewrite shr_1_m by exact Hm. apply Z.div_pos; lia. }
  induction p as [p IH | p IH |]; intros mrs Hm; simpl SpecFloat.iter_pos.
  - assert (Hpow : 0 < 2 ^ Zpos p) by (apply Z.pow_pos_nonneg; lia).
    rewrite IH, IH, shr_1_m; try assumption.
    + rewrite Pos2Z.inj_xI.
      replace (2 * Zpos p + 1) with (1 + Zpos p + Zpos p) by lia.
      rewrite !Z.pow_add_r by lia. rewrite !Z.div_div by lia.
      f_equal. change (2 ^ 1) with 2. ring.
    + apply Hhalf, Hm.
    + rewrite IH by (apply Hhalf, Hm). apply Z.div_pos; [apply Hhalf, Hm | exact Hpow].
  - assert (Hpow : 0 < 2 ^ Zpos p) by (apply Z.pow_pos_nonneg; lia).
    rewrite IH, IH; try assumption.
    + rewrite Z.div_div by lia. rewrite <- Z.pow_add_r by lia.
      replace (Zpos p + Zpos p) with (Zpos p~0) by lia. reflexivity.
    + rewrite IH by exact Hm. apply Z.div_pos; [exact Hm | exact Hpow].
  - rewrite shr_1_m by exact Hm. reflexivity.
Qed.

(** A shift of an exact mantissa: the exponent moves up by the number of
    places, the mantissa is divided, and no shift leaves it exact. *)
Lemma shr_exact (m e n : Z) :
  0 <= m ->
  snd (shr (shr_record_of_loc m loc_Exact) e n) = e + Z.max 0 n /\
  shr_m (fst (shr (shr_record_of_loc m loc_Exact) e n)) = m / 2 ^ Z.max 0 n /\
  (n <= 0 ->
   fst (shr (shr_record_of_loc m loc_Exact) e n) = shr_record_of_loc m loc_Exact).
Proof.
  intros Hm. destruct n as [| p | p]; simpl.
  - rewrite Z.div_1_r. repeat split; lia.
  - rewrite iter_shr_1_m by exact Hm. simpl shr_m.
    repeat split; lia.
  - rewrite Z.div_1_r. repeat split; lia.
Qed.

Lemma round_nearest_even_bounds (m : Z) (l : location) :
  m <= round_nearest_even m l <= m + 1.
Proof.
  destruct l as [| []]; simpl; try lia. destruct (Z.even m); lia.
Qed.

Lemma Zdigits2_bound (m k : Z) : 0 <= k -> 0 <= m < 2 ^ k -> Zdigits2 m <= k.
Proof.
  intros Hk [Hlo Hhi]. destruct m as [| p | p]; simpl; [lia | | lia].
  apply digits2_pos_bound; assumption.
Qed.

(** The finite Numbers between 0 and [bound], as the rounding leaves them. *)
Definition upTo (bound : Z) (x : binary64) : Prop :=
  match x with
  | S754_zero false => True
  | S754_finite false m e => e < 0 /\ Zpos m <= bound * 2 ^ (- e)
  | _ => False
  end.

(** Rounding to binary64 does not go past an integer below 2^14 that the
    exact value is below. *)
Lemma binary_round_aux_upTo (M : positive) (E bound : Z) :
  E < 0 -> 0 < bound < 2 ^ 14 -> Zpos M < bound * 2 ^ (- E) ->
  upTo bound (binary_round_aux prec emax false (Zpos M) E loc_Exact).
Proof.
  intros HE Hbound HM. unfold binary_round_aux, shr_fexp.
  set (n1 := fexp prec emax (Zdigits2 (Zpos M) + E) - E).
  destruct (shr_exact (Zpos M) E n1 ltac:(lia)) as (He1 & Hq1 & Hexact1).
  destruct (shr (shr_record_of_loc (Zpos M) loc_Exact) E n1) as [mrs1 e1].
  simpl in He1, Hq1, Hexact1.
  set (m1 := round_nearest_even (shr_m mrs1) (loc_of_shr_record mrs1)).
  assert (Hpow : forall k, 0 <= k -> 0 < 2 ^ k) by (intros; apply Z.pow_pos_nonneg; lia).
  assert (Hdigits : Zdigits2 (Zpos M) + E <= 14).
  { assert (Zdigits2 (Zpos M) <= 14 - E); [| lia].
    apply Zdigits2_bound; [lia |]. split; [lia |].
    replace (14 - E) with (14 + - E) by lia. rewrite Z.pow_add_r by lia.
    pose proof (Hpow (- E) ltac:(lia)). nia. }
  assert (Hn1 : E + Z.max 0 n1 < 0).
  { subst n1. unfold fexp, emin, prec, emax in *. lia. }
  assert (Hm1 : 0 <= m1 <= bound * 2 ^ (- e1)).
  { subst m1. destruct (Z.max_spec 0 n1) as [[Hpos Hmax] | [Hneg Hmax]].
    - rewrite Hmax in *.
      pose proof (round_nearest_even_bounds (shr_m mrs1) (loc_of_shr_record mrs1)) as Hr.
      assert (Hq : 0 <= shr_m mrs1 < bound * 2 ^ (- e1)).
      { rewrite Hq1. split; [apply Z.div_pos; [lia | apply Hpow; lia] |].
        apply Z.div_lt_upper_bound; [apply Hpow; lia |].
        replace (- E) with (n1 + - e1) in HM by lia.
        rewrite Z.pow_add_r in HM by lia. lia. }
      lia.
    - rewrite Hmax in *. rewrite (Hexact1 ltac:(lia)). simpl.
      replace e1 with E by lia. lia. }
  assert (He1neg : e1 < 0) by lia.
  set (n2 := fexp prec emax (Zdigits2 m1 + e1) - e1).
  destruct (shr_exact m1 e1 n2 ltac:(lia)) as (He2 & Hq2 & _).
  destruct (shr (shr_record_of_loc m1 loc_Exact) e1 n2) as [mrs2 e2].
  simpl in He2, Hq2.
  assert (Hdigits2 : Zdigits2 m1 + e1 <= 14).
  { assert (Zdigits2 m1 <= 14 - e1); [| lia].
    apply Zdigits2_bound; [lia |]. split; [lia |].
    replace (14 - e1) with (14 + - e1) by lia. rewrite Z.pow_add_r by lia.
    pose proof (Hpow (- e1) ltac:(lia)). nia. }
  assert (He2neg : e2 < 0).
  { subst n2. unfold fexp, emin, prec, emax in *. lia. }
  assert (Hm2 : 0 <= shr_m mrs2 <= bound * 2 ^ (- e2)).
  { rewrite Hq2. split; [apply Z.div_pos; [lia | apply Hpow; lia] |].
    apply Z.div_le_upper_bound; [apply Hpow; lia |].
    replace (- e1) with (Z.max 0 n2 + - e2) in Hm1 by lia.
    rewrite Z.pow_add_r in Hm1 by lia. lia. }
  destruct (shr_m mrs2) as [| m2 | m2]; simpl; [exact I | | lia].
  change (emax - prec) with 971.
  destruct (Z.leb_spec e2 971) as [_ | Hbig]; [| lia].
  unfold upTo. split; [exact He2neg | lia].
Qed.

Lemma isSample_below_one (m : positive) (e : Z) :
  isSample (S754_finite false m e) = true -> e < 0 /\ Zpos m < 2 ^ (- e).
Proof.
  simpl. intros Hs. apply andb_true_iff in Hs as [_ Hlt]. apply Z.ltb_lt in Hlt.
  destruct (Z.ltb_spec e 0) as [Hneg | Hpos]; [split; assumption |].
  exfalso. assert (Hone : 2 ^ (- e) <= 1).
  { destruct (Z.eq_dec e 0) as [-> | Hne]; [reflexivity |].
    rewrite Z.pow_neg_r by lia. lia. }
  lia.
Qed.

Lemma Number_of_Z_9999 : Number_of_Z 9999 = S754_finite false (9999 * 2 ^ 39) (-39).
Proof. reflexivity. Qed.

(** The product of a sample and 9999, as binary64 rounds it, is between 0
    and 9999. *)
Lemma Number_multiply_9999 (r : binary64) :
  isSample r = true -> upTo 9999 (Number_multiply r (Number_of_Z 9999)).
Proof.
  intros Hr. rewrite Number_of_Z_9999.
  destruct r as [[] | | | [] m e]; try discriminate; [exact I |].
  apply isSample_below_one in Hr as [He Hm].
  unfold Number_multiply, SFmul. simpl xorb.
  apply binary_round_aux_upTo; [lia | lia |].
  rewrite Pos2Z.inj_mul.
  replace (- (e + -39)) with (39 + - e) by lia. rewrite Z.pow_add_r by lia.
  change (Zpos (9999 * 2 ^ 39)) with (9999 * 2 ^ 39).
  assert (0 < 2 ^ 39) by reflexivity. nia.
Qed.

Lemma Math_round_upTo (x : binary64) :
  upTo 9999 x -> exists n, 0 <= n <= 9999 /\ Math_round x = IsInteger n.
Proof.
  destruct x as [[] | | | [] m e]; unfold upTo; try contradiction.
  - intros _. exists 0. split; [lia | reflexivity].
  - intros [He Hm]. unfold Math_round. eexists. split; [| reflexivity].
    destruct e as [| p | p]; try lia. change (- Z.neg p) with (Z.pos p) in Hm.
    unfold Number_value. cbn [cond_Zopp].
    apply roundHalfUp_range; unfold Qle; cbn [Qnum Qden].
    + lia.
    + rewrite Pos2Z.inj_pow. lia.
Qed.

Lemma decimal_S (k : nat) (n : Z) :
  decimal (S k) n
  = (if (n / 10 =? 0)%Z then "" else decimal k (n / 10)) +:+ String (digit (n mod 10)) "".
Proof. reflexivity. Qed.

Lemma decimal_small (k : nat) (n : Z) :
  0 <= n < 10 -> decimal (S k) n = String (digit (n mod 10)) "".
Proof.
  intros Hn. rewrite decimal_S. rewrite (Z.div_small n 10) by lia. reflexivity.
Qed.

Lemma decimal_large (k : nat) (n : Z) :
  10 <= n -> decimal (S k) n = decimal k (n / 10) +:+ String (digit (n mod 10)) "".
Proof.
  intros Hn. rewrite decimal_S.
  destruct (Z.eqb_spec (n / 10) 0) as [Hzero | _]; [| reflexivity].
  exfalso. assert (1 <= n / 10) by (apply Z.div_le_lower_bound; lia). lia.
Qed.

Lemma log2_fuel (n b : Z) (k : nat) :
  b <= n -> 0 < b -> (k <= Z.to_nat (Z.log2 b))%nat ->
  exists j, Z.to_nat (Z.log2 n) = (k + j)%nat.
Proof.
  intros Hb Hpos Hk. pose proof (Z.log2_le_mono b n Hb) as Hmono.
  exists (Z.to_nat (Z.log2 n) - k)%nat. lia.
Qed.

Lemma leftPad_fourDigits (n : Z) :
  0 <= n <= 9999 -> leftPad (Number_toString n) 4 "0" = fourDigits n.
Proof.
  intros Hn. unfold Number_toString. destruct (Z.ltb_spec n 0) as [Hneg | _]; [lia |].
  unfold fourDigits.
  assert (Hcases : n < 10 \/ 10 <= n < 100 \/ 100 <= n < 1000 \/ 1000 <= n) by lia.
  destruct Hcases as [H1 | [H2 | [H3 | H4]]].
  - rewrite decimal_small by lia.
    rewrite (Z.div_small n 1000), (Z.div_small n 100), (Z.div_small n 10) by lia.
    reflexivity.
  - destruct (log2_fuel n 10 1 ltac:(lia) ltac:(lia) ltac:(vm_compute; lia)) as [j ->].
    simpl Nat.add.
    rewrite decimal_large by lia.
    rewrite decimal_small by (split; [apply Z.div_pos | apply Z.div_lt_upper_bound]; lia).
    rewrite (Z.div_small n 1000), (Z.div_small n 100) by lia.
    reflexivity.
  - destruct (log2_fuel n 100 2 ltac:(lia) ltac:(lia) ltac:(vm_compute; lia)) as [j ->].
    simpl Nat.add.
    rewrite decimal_large by lia.
    rewrite decimal_large by (apply Z.div_le_lower_bound; lia).
    rewrite decimal_small
      by (split; [apply Z.div_pos; [apply Z.div_pos |] | apply Z.div_lt_upper_bound;
          [| apply Z.div_lt_upper_bound]]; lia).
    rewrite (Z.div_small n 1000) by lia.
    rewrite (Z.div_div n 10 10) by lia.
    reflexivity.
  - destruct (log2_fuel n 1000 3 ltac:(lia) ltac:(lia) ltac:(vm_compute; lia)) as [j ->].
    simpl Nat.add.
    rewrite decimal_large by lia.
    rewrite decimal_large by (apply Z.div_le_lower_bound; lia).
    rewrite decimal_large
      by (apply Z.div_le_lower_bound; [lia |]; apply Z.div_le_lower_bound; lia).
    assert (Hq : 0 <= n / 10 / 10 / 10 < 10).
    { rewrite !Z.div_div by lia. simpl Z.mul.
      split; [apply Z.div_pos | apply Z.div_lt_upper_bound]; lia. }
    rewrite decimal_small by exact Hq.
    rewrite (Z.mod_small _ 10 Hq).
    rewrite !Z.div_div by lia. reflexivity.
Qed.

(** What [Math.round] makes of the product of a sample and 9999. *)
Lemma Math_round_sample (r : binary64) :
  isSample r = true ->
  exists n, 0 <= n <= 9999 /\
    Math_round (Number_multiply r (Number_of_Z 9999)) = IsInteger n.
Proof. intros Hr. apply Math_round_upTo, Number_multiply_9999, Hr. Qed.

Lemma identifier_of_sample_format (identifierFieldName : option string) (r : binary64) :
  isSample r = true ->
  exists n, 0 <= n <= 9999 /\
    Math_round (Number_multiply r (Number_of_Z 9999)) = IsInteger n /\
    identifier_of_sample identifierFieldName r
      = template_string identifierFieldName +:+ ":" +:+ fourDigits n.
Proof.
  intros Hr. destruct (Math_round_sample r Hr) as (n & Hrange & Hround).
  exists n. split; [exact Hrange |]. split; [exact Hround |].
  unfold identifier_of_sample. rewrite Hround. simpl Integral_toString.
  rewrite (leftPad_fourDigits _ Hrange). reflexivity.
Qed.

Lemma newIdentifier_run (identifierFieldName : option string) (s : State) :
  newIdentifier identifierFieldName s =
  Returned (identifier_of_sample identifierFieldName (fst (Math_random (world s))))
           (mkState (stack s) (heap s) (snd (Math_random (world s)))).
Proof.
  unfold newIdentifier, bind. rewrite lift_world_called. reflexivity.
Qed.

Lemma Factory_validate_ok (f : Factory) (ns type : string) (s : State) :
  Factory_declares f ns type = true -> Factory_validate f ns type s = Returned tt s.
Proof. unfold Factory_validate. intros ->. reflexivity. Qed.

(** The state after [o] has entered the store. *)
Definition allocated (o : Instance) (s : State) : State :=
  mkState (stack s) (heap s ++ [o]) (world s).

Lemma newRelationship_run (f : Factory) (ns type id : string) (s : State) :
  Factory_declares f ns type = true ->
  newRelationship f ns type id s =
  Returned (length (heap s)) (allocated (mkInstance Relationship ns type (Some id) ∅) s).
Proof.
  intros Hknown. unfold newRelationship, bind.
  rewrite (Factory_validate_ok _ _ _ _ Hknown). reflexivity.
Qed.

Lemma newResource_run (f : Factory) (ns type id : string) (s : State) :
  Factory_declares f ns type = true ->
  newResource f ns type id s =
  Returned (length (heap s)) (allocated (Factory_resource f ns type id) s).
Proof.
  intros Hknown. unfold newResource, bind.
  rewrite (Factory_validate_ok _ _ _ _ Hknown). reflexivity.
Qed.

Lemma newConcept_run (f : Factory) (ns type : string) (s : State) :
  Factory_declares f ns type = true ->
  newConcept f ns type s =
  Returned (length (heap s)) (allocated (mkInstance Concept ns type None ∅) s).
Proof.
  intros Hknown. unfold newConcept, bind.
  rewrite (Factory_validate_ok _ _ _ _ Hknown). reflexivity.
Qed.

(** One pass of lines 213-217 (or of the loop body, lines 205-209): a
    sample is drawn and a Relationship with no property enters the store. *)
Definition relationshipTo (classDeclaration : ClassDeclaration.t) (r : binary64) : Instance :=
  mkInstance Relationship
    (ClassDeclaration.getNamespace classDeclaration)
    (ClassDeclaration.getName classDeclaration)
    (Some (identifier_of_sample
             (ClassDeclaration.getIdentifierFieldName classDeclaration) r))
    ∅.

Definition afterRelationship (classDeclaration : ClassDeclaration.t) (s : State) : State :=
  mkState (stack s)
          (heap s ++ [relationshipTo classDeclaration (fst (Math_random (world s)))])
          (snd (Math_random (world s))).

Lemma oneRelationship_run (f : Factory) (target : ClassDeclaration.t) (s : State) :
  Factory_declares f
    (ClassDeclaration.getNamespace target) (ClassDeclaration.getName target) = true ->
  (id <- newIdentifier (ClassDeclaration.getIdentifierFieldName target) ;;
   relationship <- newRelationship f (ClassDeclaration.getNamespace target)
                     (ClassDeclaration.getName target) id ;;
   ret (VObject relationship)) s
  = Returned (VObject (length (heap s))) (afterRelationship target s).
Proof.
  intros Hknown. unfold bind at 1. rewrite newIdentifier_run.
  unfold bind. rewrite (newRelationship_run _ _ _ _ _ Hknown). reflexivity.
Qed.

Lemma visitRelationshipDeclaration_single (relationshipDeclaration : RelationshipDeclaration.t)
    (parameters : Parameters) (target : ClassDeclaration.t) (s : State) :
  RelationshipDeclaration.isArray relationshipDeclaration = false ->
  ModelManager.getType (modelManager parameters)
    (RelationshipDeclaration.getFullyQualifiedTypeName relationshipDeclaration)
    = Some (DeclClass target) ->
  Factory_declares (factory parameters)
    (ClassDeclaration.getNamespace target) (ClassDeclaration.getName target) = true ->
  visitRelationshipDeclaration relationshipDeclaration parameters s
    = Returned (VObject (length (heap s))) (afterRelationship target s).
Proof.
  intros Harr Htype Hknown. unfold visitRelationshipDeclaration, getType.
  rewrite Htype, Harr. unfold bind at 1. unfold ret at 1.
  apply oneRelationship_run, Hknown.
Qed.

Lemma afterRelationship_length (target : ClassDeclaration.t) (s : State) :
  length (heap (afterRelationship target s)) = S (length (heap s)).
Proof. unfold afterRelationship; simpl. rewrite length_app; simpl. lia. Qed.

Lemma visitRelationshipDeclaration_array (relationshipDeclaration : RelationshipDeclaration.t)
    (parameters : Parameters) (target : ClassDeclaration.t) (s : State) :
  RelationshipDeclaration.isArray relationshipDeclaration = true ->
  ModelManager.getType (modelManager parameters)
    (RelationshipDeclaration.getFullyQualifiedTypeName relationshipDeclaration)
    = Some (DeclClass target) ->
  Factory_declares (factory parameters)
    (ClassDeclaration.getNamespace target) (ClassDeclaration.getName target) = true ->
  let n := length (heap s) in
  visitRelationshipDeclaration relationshipDeclaration parameters s
    = Returned (VArray [VObject n; VObject (S n); VObject (S (S n))])
        (afterRelationship target (afterRelationship target (afterRelationship target s))).
Proof.
  intros Harr Htype Hknown n. unfold visitRelationshipDeclaration, getType.
  rewrite Htype, Harr. unfold bind at 1. unfold ret at 1. simpl repeatM.
  unfold bind at 1. unfold bind at 1.
  rewrite (oneRelationship_run _ target s Hknown).
  unfold bind at 1. unfold bind at 1.
  rewrite (oneRelationship_run _ target _ Hknown).
  unfold bind at 1. unfold bind at 1.
  rewrite (oneRelationship_run _ target _ Hknown).
  rewrite !afterRelationship_length. reflexivity.
Qed.

(** C8. An identifier synthesized from a sample of the random source, any
    binary64 value in [0, 1), reads <identifierFieldName>:NNNN, where NNNN
    are the four decimal digits of an integer between 0 and 9999: the one
    that [Math.round] makes of the binary64 product of the sample and 9999.
    It is the identifier the new Relationship and the new Resource are
    built with, and the one the Resource holds in its identifier field. *)
Theorem identifier_format (identifierFieldName : option string) (s : State) :
  let r := fst (Math_random (world s)) in
  isSample r = true ->
  exists n : Z,
    0 <= n <= 9999 /\
    Math_round (Number_multiply r (Number_of_Z 9999)) = IsInteger n /\
    String.length (fourDigits n) = 4%nat /\
    let id := template_string identifierFieldName +:+ ":" +:+ fourDigits n in
    newIdentifier identifierFieldName s
      = Returned id (mkState (stack s) (heap s) (snd (Math_random (world s)))) /\
    (forall relationshipDeclaration parameters target,
       RelationshipDeclaration.isArray relationshipDeclaration = false ->
       ModelManager.getType (modelManager parameters)
         (RelationshipDeclaration.getFullyQualifiedTypeName relationshipDeclaration)
         = Some (DeclClass target) ->
       Factory_declares (factory parameters)
         (ClassDeclaration.getNamespace target) (ClassDeclaration.getName target) = true ->
       ClassDeclaration.getIdentifierFieldName target = identifierFieldName ->
       exists s',
         visitRelationshipDeclaration relationshipDeclaration parameters s
           = Returned (VObject (length (heap s))) s' /\
         inst_identifier <$> (heap s' !! length (heap s)) = Some (Some id)) /\
    (forall visitClass classDeclaration parameters,
       ClassDeclaration.isConcept classDeclaration = false ->
       Factory_declares (factory parameters)
         (ClassDeclaration.getNamespace classDeclaration)
         (ClassDeclaration.getName classDeclaration) = true ->
       ClassDeclaration.getIdentifierFieldName classDeclaration = identifierFieldName ->
       exists created,
         newInstance visitClass classDeclaration parameters s
           = visitClass classDeclaration parameters
               (mkState (length (heap s) :: stack s) (heap s ++ [created])
                  (snd (Math_random (world s)))) /\
         inst_kind created = Resource /\
         inst_identifier created = Some id /\
         forall idField,
           Factory_identifierFieldName (factory parameters)
             (ClassDeclaration.getNamespace classDeclaration)
             (ClassDeclaration.getName classDeclaration) = Some idField ->
           forall name,
             Instance_get created name
               = if String.eqb name idField then VString id else VUndefined).
Proof.
  intros r Hr.
  destruct (identifier_of_sample_format identifierFieldName r Hr) as (n & Hn & Hround & Hid).
  exists n. split; [exact Hn |]. split; [exact Hround |]. split; [reflexivity |].
  intros id. subst id. rewrite <- Hid. split; [apply newIdentifier_run |]. split.
  - intros rd parameters target Harr Htype Hknown Hidf.
    eexists. split.
    + apply (visitRelationshipDeclaration_single rd parameters target s Harr Htype Hknown).
    + unfold afterRelationship, relationshipTo; simpl.
      rewrite lookup_app_r by lia. rewrite Nat.sub_diag. simpl. rewrite Hidf. reflexivity.
  - intros visitClass cd parameters Hconcept Hknown Hidf.
    eexists. split; [| split; [| split]].
    + unfold newInstance. rewrite Hconcept, Hidf.
      unfold bind at 1. rewrite newIdentifier_run.
      unfold bind at 1. fold r. rewrite (newResource_run _ _ _ _ _ Hknown).
      reflexivity.
    + reflexivity.
    + reflexivity.
    + intros idField Hfield name. unfold Factory_resource, Instance_get; simpl.
      rewrite Hfield. destruct (String.eqb_spec name idField) as [-> | Hne].
      * rewrite lookup_insert_eq. reflexivity.
      * rewrite lookup_insert_ne by congruence. rewrite lookup_empty. reflexivity.
Qed.

(** *** Enum-typed fields *)

Lemma getFieldValue_enum (fuel : nat) (field : Field.t) (parameters : Parameters)
    (e : EnumDeclaration.t) (s : State) :
  let generator := default ValueGeneratorFactory_sample (valueGenerator parameters) in
  let pick := getEnum generator (EnumDeclaration.getOwnProperties e) in
  isPrimitiveType (Field.getFullyQualifiedTypeName field) = false ->
  ModelManager.getType (modelManager parameters) (Field.getFullyQualifiedTypeName field)
    = Some (DeclEnum e) ->
  getFieldValue fuel field parameters s =
  match fst (pick (world s)) with
  | Some literal =>
      Returned (VString (EnumValueDeclaration.getName literal))
               (mkState (stack s) (heap s) (snd (pick (world s))))
  | None => Thrown TypeError (mkState (stack s) (heap s) (snd (pick (world s))))
  end.
Proof.
  intros generator pick Hprim Htype. unfold getFieldValue, getFieldValue_.
  rewrite Hprim. unfold getType. rewrite Htype.
  unfold bind at 1. unfold ret at 1. unfold bind. rewrite lift_world_called.
  unfold called. fold generator. fold pick.
  destruct (fst (pick (world s))); reflexivity.
Qed.

(** C6. A field whose type is an enum is generated as the name, a string, of
    a literal of that enum's declared set, provided that [getEnum] answers
    with a member of the set it is given; an array-typed field holds three
    such names. *)
Theorem enum_field_value (fuel : nat) (field : Field.t) (parameters : Parameters)
    (e : EnumDeclaration.t) (s : State) :
  let generator := default ValueGeneratorFactory_sample (valueGenerator parameters) in
  let enumValues := EnumDeclaration.getOwnProperties e in
  isPrimitiveType (Field.getFullyQualifiedTypeName field) = false ->
  ModelManager.getType (modelManager parameters) (Field.getFullyQualifiedTypeName field)
    = Some (DeclEnum e) ->
  (forall w, exists literal,
      fst (getEnum generator enumValues w) = Some literal /\ In literal enumValues) ->
  (exists literal s',
      In literal enumValues /\
      getFieldValue fuel field parameters s
        = Returned (VString (EnumValueDeclaration.getName literal)) s' /\
      (Field.isArray field = false ->
       visitField fuel field parameters s
         = Returned (VString (EnumValueDeclaration.getName literal)) s')) /\
  (Field.isArray field = true ->
   exists l1 l2 l3 s',
      In l1 enumValues /\ In l2 enumValues /\ In l3 enumValues /\
      visitField fuel field parameters s
        = Returned (VArray [VString (EnumValueDeclaration.getName l1);
                            VString (EnumValueDeclaration.getName l2);
                            VString (EnumValueDeclaration.getName l3)]) s').
Proof.
  intros generator enumValues Hprim Htype Hmember.
  assert (Hone : forall s0, exists literal s',
             In literal enumValues /\
             getFieldValue fuel field parameters s0
               = Returned (VString (EnumValueDeclaration.getName literal)) s').
  { intros s0. destruct (Hmember (world s0)) as (literal & Hpick & Hin).
    exists literal. eexists. split; [exact Hin |].
    rewrite (getFieldValue_enum fuel field parameters e s0 Hprim Htype).
    fold generator. fold enumValues. rewrite Hpick. reflexivity. }
  split.
  - destruct (Hone s) as (literal & s' & Hin & Hrun).
    exists literal, s'. split; [exact Hin |]. split; [exact Hrun |].
    intros Harr. unfold visitField, visitField_. rewrite Harr. exact Hrun.
  - intros Harr.
    destruct (Hone s) as (l1 & s1 & Hin1 & Hrun1).
    destruct (Hone s1) as (l2 & s2 & Hin2 & Hrun2).
    destruct (Hone s2) as (l3 & s3 & Hin3 & Hrun3).
    exists l1, l2, l3, s3. repeat split; try assumption.
    unfold visitField, visitField_. rewrite Harr. simpl repeatM.
    unfold getFieldValue in Hrun1, Hrun2, Hrun3.
    unfold bind at 1. unfold bind at 1. rewrite Hrun1.
    unfold bind at 1. unfold bind at 1. rewrite Hrun2.
    unfold bind at 1. unfold bind at 1. rewrite Hrun3.
    reflexivity.
Qed.

(** *** Array-typed properties *)

Lemma repeatM_three_Returned {A} (c : M A) (s s' : State) (result : list A) :
  repeatM 3 c s = Returned result s' <->
  exists v1 v2 v3 s1 s2,
    c s = Returned v1 s1 /\ c s1 = Returned v2 s2 /\ c s2 = Returned v3 s' /\
    result = [v1; v2; v3].
Proof.
  simpl repeatM. unfold bind, ret. split.
  - destruct (c s) as [v1 s1 | |] eqn:H1; try discriminate.
    destruct (c s1) as [v2 s2 | |] eqn:H2; try discriminate.
    destruct (c s2) as [v3 s3 | |] eqn:H3; try discriminate.
    intros Heq. inversion Heq; subst. exists v1, v2, v3, s1, s2. auto.
  - intros (v1 & v2 & v3 & s1 & s2 & H1 & H2 & H3 & ->).
    rewrite H1, H2, H3. reflexivity.
Qed.

(** C3. An array-typed property is generated as a sequence of exactly three
    elements, each produced by a run of its own of the element generator,
    one after the other: three [getFieldValue] results for a Field, three
    new Relationships, each with its own sample, for a
    RelationshipDeclaration. *)
Theorem array_property_three_elements (fuel : nat) (parameters : Parameters) (s : State) :
  (forall field v s',
     Field.isArray field = true ->
     (visitField fuel field parameters s = Returned v s' <->
      exists v1 v2 v3 s1 s2,
        getFieldValue fuel field parameters s = Returned v1 s1 /\
        getFieldValue fuel field parameters s1 = Returned v2 s2 /\
        getFieldValue fuel field parameters s2 = Returned v3 s' /\
        v = VArray [v1; v2; v3])) /\
  (forall relationshipDeclaration target,
     RelationshipDeclaration.isArray relationshipDeclaration = true ->
     ModelManager.getType (modelManager parameters)
       (RelationshipDeclaration.getFullyQualifiedTypeName relationshipDeclaration)
       = Some (DeclClass target) ->
     Factory_declares (factory parameters)
       (ClassDeclaration.getNamespace target) (ClassDeclaration.getName target) = true ->
     let n := length (heap s) in
     let s1 := afterRelationship target s in
     let s2 := afterRelationship target s1 in
     let s3 := afterRelationship target s2 in
     visitRelationshipDeclaration relationshipDeclaration parameters s
       = Returned (VArray [VObject n; VObject (S n); VObject (S (S n))]) s3 /\
     heap s3 = heap s ++ [relationshipTo target (fst (Math_random (world s)));
                          relationshipTo target (fst (Math_random (world s1)));
                          relationshipTo target (fst (Math_random (world s2)))]).
Proof.
  split.
  - intros field v s' Harr. unfold visitField, visitField_, getFieldValue.
    rewrite Harr. unfold bind at 1.
    split.
    + destruct (repeatM 3 _ s) as [result s0 | |] eqn:Hrun; try discriminate.
      unfold ret. intros Heq. inversion Heq; subst.
      apply repeatM_three_Returned in Hrun.
      destruct Hrun as (v1 & v2 & v3 & s1 & s2 & H1 & H2 & H3 & ->).
      exists v1, v2, v3, s1, s2. auto.
    + intros (v1 & v2 & v3 & s1 & s2 & H1 & H2 & H3 & ->).
      assert (Hrun : repeatM 3 (getFieldValue_ (visitClassDeclaration fuel) field parameters) s
                     = Returned [v1; v2; v3] s').
      { apply repeatM_three_Returned. exists v1, v2, v3, s1, s2. auto. }
      rewrite Hrun. reflexivity.
  - intros rd target Harr Htype Hknown n s1 s2 s3. split.
    + apply (visitRelationshipDeclaration_array rd parameters target s Harr Htype Hknown).
    + subst s3 s2 s1. unfold afterRelationship; simpl.
      rewrite <- !app_assoc. reflexivity.
Qed.

(** *** The stack *)

(** Whenever [c] returns or throws, it leaves the stack [f] of what it found. *)
Definition stackEffect {A} (f : list loc -> list loc) (c : M A) : Prop :=
  forall s,
    match c s with
    | Returned _ s' | Thrown _ s' => stack s' = f (stack s)
    | OutOfFuel => True
    end.

Definition keepsStack {A} (c : M A) : Prop := stackEffect (fun st => st) c.

Definition popsStack (visitClass : ClassDeclaration.t -> Parameters -> M value) : Prop :=
  forall classDeclaration parameters,
    stackEffect (@tail loc) (visitClass classDeclaration parameters).

Lemma keepsStack_bind {A B} (c : M A) (k : A -> M B) :
  keepsStack c -> (forall a, keepsStack (k a)) -> keepsStack (bind c k).
Proof.
  intros Hc Hk s. unfold bind. specialize (Hc s).
  destruct (c s) as [a s1 | e s1 |]; [| exact Hc | exact I].
  specialize (Hk a s1). simpl in Hc. rewrite <- Hc.
  destruct (k a s1); exact Hk.
Qed.

Lemma keepsStack_ret {A} (a : A) : keepsStack (ret a : M A).
Proof. intros s. reflexivity. Qed.

Lemma keepsStack_throw {A} (e : exn) : keepsStack (throw e : M A).
Proof. intros s. reflexivity. Qed.

Lemma keepsStack_lift_result {A} (r : result A) : keepsStack (lift_result r).
Proof. destruct r; [apply keepsStack_ret | apply keepsStack_throw]. Qed.

Lemma keepsStack_lift_world {A} (f : World -> A * World) : keepsStack (lift_world f).
Proof. intros s. rewrite lift_world_called. reflexivity. Qed.

Lemma keepsStack_alloc (o : Instance) : keepsStack (alloc o).
Proof. intros s. reflexivity. Qed.

Lemma keepsStack_getProperty (obj : option loc) (name : string) :
  keepsStack (getProperty obj name).
Proof. destruct obj; intros s; reflexivity. Qed.

Lemma keepsStack_setProperty (obj : option loc) (name : string) (v : value) :
  keepsStack (setProperty obj name v).
Proof. destruct obj; intros s; reflexivity. Qed.

Lemma keepsStack_getType (mm : ModelManager.t) (fqn : string) :
  keepsStack (getType mm fqn).
Proof.
  unfold getType. destruct (ModelManager.getType mm fqn);
    [apply keepsStack_ret | apply keepsStack_throw].
Qed.

Lemma keepsStack_Factory_validate (f : Factory) (ns type : string) :
  keepsStack (Factory_validate f ns type).
Proof.
  unfold Factory_validate. destruct (Factory_declares f ns type);
    [apply keepsStack_ret | apply keepsStack_throw].
Qed.

Lemma keepsStack_repeatM {A} (n : nat) (c : M A) :
  keepsStack c -> keepsStack (repeatM n c).
Proof.
  intros Hc. induction n as [| n IH]; simpl.
  - apply keepsStack_ret.
  - apply keepsStack_bind; [exact Hc |]. intros x.
    apply keepsStack_bind; [exact IH |]. intros rest. apply keepsStack_ret.
Qed.

Create HintDb stack discriminated.

#[local] Hint Resolve keepsStack_ret keepsStack_throw keepsStack_lift_result
  keepsStack_lift_world keepsStack_alloc keepsStack_getProperty keepsStack_setProperty
  keepsStack_getType keepsStack_Factory_validate : stack.

(** Chains of binds are walked through with the hints above. *)
Ltac keeps_stack :=
  repeat first
    [ apply keepsStack_bind; [| intros ? ]
    | apply keepsStack_repeatM
    | solve [ auto with stack ] ].

Lemma keepsStack_newIdentifier (identifierFieldName : option string) :
  keepsStack (newIdentifier identifierFieldName).
Proof. unfold newIdentifier. keeps_stack. Qed.

Lemma keepsStack_newConcept (f : Factory) (ns type : string) :
  keepsStack (newConcept f ns type).
Proof. unfold newConcept. keeps_stack. Qed.

Lemma keepsStack_newResource (f : Factory) (ns type id : string) :
  keepsStack (newResource f ns type id).
Proof. unfold newResource. keeps_stack. Qed.

Lemma keepsStack_newRelationship (f : Factory) (ns type id : string) :
  keepsStack (newRelationship f ns type id).
Proof. unfold newRelationship. keeps_stack. Qed.

#[local] Hint Resolve keepsStack_newIdentifier keepsStack_newConcept
  keepsStack_newResource keepsStack_newRelationship : stack.

Lemma keepsStack_visitRelationshipDeclaration
    (relationshipDeclaration : RelationshipDeclaration.t) (parameters : Parameters) :
  keepsStack (visitRelationshipDeclaration relationshipDeclaration parameters).
Proof.
  unfold visitRelationshipDeclaration.
  apply keepsStack_bind; [auto with stack |]. intros [target | e]; [| auto with stack].
  destruct (RelationshipDeclaration.isArray relationshipDeclaration); keeps_stack.
Qed.

Lemma keepsStack_primitiveValue (generator : ValueGenerator World) (type : string) :
  keepsStack (primitiveValue generator type).
Proof.
  unfold primitiveValue.
  repeat match goal with |- context [if ?b then _ else _] => destruct b end;
    auto with stack.
Qed.

Lemma keepsStack_resolveClassDeclaration (parameters : Parameters)
    (classDeclaration : ClassDeclaration.t) :
  keepsStack (resolveClassDeclaration parameters classDeclaration).
Proof.
  unfold resolveClassDeclaration. simpl.
  apply keepsStack_bind; [auto with stack |]. intros [c |]; auto with stack.
Qed.

(** The push of lines 137 and 145 is undone by the pop of line 65. *)
Lemma keepsStack_newInstance (visitClass : ClassDeclaration.t -> Parameters -> M value)
    (classDeclaration : ClassDeclaration.t) (parameters : Parameters) :
  popsStack visitClass -> keepsStack (newInstance visitClass classDeclaration parameters).
Proof.
  intros Hpop. unfold newInstance.
  assert (Hdescend : forall l, keepsStack
            (stack_push l ;;; visitClass classDeclaration parameters)).
  { intros l s. unfold bind, stack_push.
    exact (Hpop classDeclaration parameters (mkState (l :: stack s) (heap s) (world s))). }
  destruct (ClassDeclaration.isConcept classDeclaration).
  - apply keepsStack_bind; [auto with stack |]. intros concept. apply Hdescend.
  - apply keepsStack_bind; [auto with stack |]. intros id.
    apply keepsStack_bind; [auto with stack |]. intros resource. apply Hdescend.
Qed.

Lemma keepsStack_getFieldValue_ (visitClass : ClassDeclaration.t -> Parameters -> M value)
    (field : Field.t) (parameters : Parameters) :
  popsStack visitClass -> keepsStack (getFieldValue_ visitClass field parameters).
Proof.
  intros Hpop. unfold getFieldValue_.
  destruct (isPrimitiveType _); [apply keepsStack_primitiveValue |].
  apply keepsStack_bind; [auto with stack |]. intros [classDeclaration | e].
  - apply keepsStack_bind; [apply keepsStack_resolveClassDeclaration |].
    intros c. apply keepsStack_newInstance, Hpop.
  - apply keepsStack_bind; [auto with stack |]. intros [literal |]; auto with stack.
Qed.

Lemma keepsStack_visitField_ (visitClass : ClassDeclaration.t -> Parameters -> M value)
    (field : Field.t) (parameters : Parameters) :
  popsStack visitClass -> keepsStack (visitField_ visitClass field parameters).
Proof.
  intros Hpop. unfold visitField_.
  pose proof (keepsStack_getFieldValue_ visitClass field parameters Hpop) as Hone.
  destruct (Field.isArray field); [| exact Hone].
  apply keepsStack_bind; [apply keepsStack_repeatM, Hone |].
  intros result. auto with stack.
Qed.

Lemma keepsStack_Property_accept (visitClass : ClassDeclaration.t -> Parameters -> M value)
    (property : Property) (parameters : Parameters) :
  popsStack visitClass -> keepsStack (Property_accept visitClass property parameters).
Proof.
  intros Hpop. destruct property as [f | r]; simpl.
  - apply keepsStack_visitField_, Hpop.
  - apply keepsStack_visitRelationshipDeclaration.
Qed.

Lemma keepsStack_forProperties (visitClass : ClassDeclaration.t -> Parameters -> M value)
    (obj : option loc) (properties : list Property) (parameters : Parameters) :
  popsStack visitClass -> keepsStack (forProperties visitClass obj properties parameters).
Proof.
  intros Hpop. induction properties as [| property rest IH]; simpl.
  - auto with stack.
  - apply keepsStack_bind; [auto with stack |]. intros v.
    apply keepsStack_bind; [| intros _; exact IH].
    destruct (isNull v); [| auto with stack].
    apply keepsStack_bind; [apply keepsStack_Property_accept, Hpop |].
    intros generated. auto with stack.
Qed.

Lemma popsStack_visitClassDeclaration_
    (visitClass : ClassDeclaration.t -> Parameters -> M value) :
  popsStack visitClass -> popsStack (visitClassDeclaration_ visitClass).
Proof.
  intros Hpop classDeclaration parameters s. unfold visitClassDeclaration_.
  assert (Hloop : forall obj, keepsStack
            (forProperties visitClass obj
               (ClassDeclaration.getProperties classDeclaration) parameters ;;;
             ret (match obj with Some l => VObject l | None => VUndefined end))).
  { intros obj. apply keepsStack_bind; [apply keepsStack_forProperties, Hpop |].
    intros _. auto with stack. }
  unfold bind at 1. unfold stack_pop. destruct (stack s) as [| top rest] eqn:Hstack.
  - specialize (Hloop None s). rewrite Hstack in Hloop. exact Hloop.
  - exact (Hloop (Some top) (mkState rest (heap s) (world s))).
Qed.

Lemma popsStack_visitClassDeclaration (fuel : nat) :
  popsStack (visitClassDeclaration fuel).
Proof.
  induction fuel as [| fuel IH].
  - intros classDeclaration parameters s. exact I.
  - simpl. apply popsStack_visitClassDeclaration_, IH.
Qed.

Lemma visitClassDeclaration_entered (fuel : nat) (classDeclaration : ClassDeclaration.t)
    (parameters : Parameters) (instance : loc) (rest : list loc) (s : State) :
  stack s = instance :: rest ->
  visitClassDeclaration (S fuel) classDeclaration parameters s =
  (forProperties (visitClassDeclaration fuel) (Some instance)
     (ClassDeclaration.getProperties classDeclaration) parameters ;;;
   ret (VObject instance)) (mkState rest (heap s) (world s)).
Proof.
  intros Hstack. simpl. unfold visitClassDeclaration_.
  unfold bind at 1. unfold stack_pop. rewrite Hstack. reflexivity.
Qed.

Lemma newInstance_descends (visitClass : ClassDeclaration.t -> Parameters -> M value)
    (classDeclaration : ClassDeclaration.t) (parameters : Parameters) (s : State) :
  Factory_declares (factory parameters)
    (ClassDeclaration.getNamespace classDeclaration)
    (ClassDeclaration.getName classDeclaration) = true ->
  exists created w,
    inst_namespace created = ClassDeclaration.getNamespace classDeclaration /\
    inst_type created = ClassDeclaration.getName classDeclaration /\
    inst_kind created
      = (if ClassDeclaration.isConcept classDeclaration then Concept else Resource) /\
    newInstance visitClass classDeclaration parameters s
      = visitClass classDeclaration parameters
          (mkState (length (heap s) :: stack s) (heap s ++ [created]) w).
Proof.
  intros Hknown. unfold newInstance.
  destruct (ClassDeclaration.isConcept classDeclaration).
  - eexists. exists (world s). repeat split; cycle 3.
    + unfold bind at 1. rewrite (newConcept_run _ _ _ _ Hknown). reflexivity.
    + reflexivity.
    + reflexivity.
    + reflexivity.
  - eexists. exists (snd (Math_random (world s))). repeat split; cycle 3.
    + unfold bind at 1. rewrite newIdentifier_run.
      unfold bind at 1. rewrite (newResource_run _ _ _ _ _ Hknown). reflexivity.
    + reflexivity.
    + reflexivity.
    + reflexivity.
Qed.

(** C9. The stack is balanced.  Entered with the instance to populate on
    top of the stack, [visitClassDeclaration] pops it first and works on it
    from then on; a descent into a concept- or resource-typed field pushes
    the one instance the factory has just built and enters
    [visitClassDeclaration] at once; and when [getFieldValue] or
    [visitField] is over, by a return or by a throw, the stack is what it
    was before the call. *)
Theorem stack_balance (fuel : nat) (parameters : Parameters) (s : State) :
  (forall field,
     match getFieldValue fuel field parameters s with
     | Returned _ s' | Thrown _ s' => stack s' = stack s
     | OutOfFuel => True
     end) /\
  (forall field,
     match visitField fuel field parameters s with
     | Returned _ s' | Thrown _ s' => stack s' = stack s
     | OutOfFuel => True
     end) /\
  (forall classDeclaration instance rest,
     stack s = instance :: rest ->
     visitClassDeclaration (S fuel) classDeclaration parameters s
       = (forProperties (visitClassDeclaration fuel) (Some instance)
            (ClassDeclaration.getProperties classDeclaration) parameters ;;;
          ret (VObject instance)) (mkState rest (heap s) (world s)) /\
     match visitClassDeclaration (S fuel) classDeclaration parameters s with
     | Returned v s' => v = VObject instance /\ stack s' = rest
     | Thrown _ s' => stack s' = rest
     | OutOfFuel => True
     end) /\
  (forall classDeclaration,
     Factory_declares (factory parameters)
       (ClassDeclaration.getNamespace classDeclaration)
       (ClassDeclaration.getName classDeclaration) = true ->
     exists created w,
       heap s !! length (heap s) = None /\
       newInstance (visitClassDeclaration fuel) classDeclaration parameters s
         = visitClassDeclaration fuel classDeclaration parameters
             (mkState (length (heap s) :: stack s) (heap s ++ [created]) w)).
Proof.
  pose proof (popsStack_visitClassDeclaration fuel) as Hpop.
  split; [| split; [| split]].
  - intros field.
    exact (keepsStack_getFieldValue_ _ field parameters Hpop s).
  - intros field.
    exact (keepsStack_visitField_ _ field parameters Hpop s).
  - intros classDeclaration instance rest Hstack.
    pose proof (visitClassDeclaration_entered fuel classDeclaration parameters
                  instance rest s Hstack) as Hentered.
    split; [exact Hentered |].
    pose proof (popsStack_visitClassDeclaration (S fuel) classDeclaration parameters s)
      as Hpopped.
    rewrite Hstack in Hpopped. simpl tail in Hpopped.
    rewrite Hentered in Hpopped |- *. unfold bind in Hpopped |- *.
    destruct (forProperties _ _ _ _ _) as [[] s1 | e s1 |]; simpl in *; auto.
  - intros classDeclaration Hknown.
    destruct (newInstance_descends (visitClassDeclaration fuel) classDeclaration
                parameters s Hknown) as (created & w & _ & _ & _ & Hrun).
    exists created, w. split; [| exact Hrun].
    apply lookup_ge_None. lia.
Qed.

(** *** The store *)

(** [o'] is [o] with some absent properties filled in: everything else,
    and every property that had a value, is as it was. *)
Definition Instance_filled (o o' : Instance) : Prop :=
  inst_kind o' = inst_kind o /\
  inst_namespace o' = inst_namespace o /\
  inst_type o' = inst_type o /\
  inst_identifier o' = inst_identifier o /\
  forall name v,
    inst_properties o !! name = Some v -> isNull v = false ->
    inst_properties o' !! name = Some v.

(** From [s] to [s'] the objects of the store other than [l] are untouched,
    and [l] has at most had absent properties filled in. *)
Definition fills (l : loc) (s s' : State) : Prop :=
  forall l' o,
    heap s !! l' = Some o ->
    exists o', heap s' !! l' = Some o' /\
               (l' <> l -> o' = o) /\ (l' = l -> Instance_filled o o').

(** From [s] to [s'] no object of the store is touched. *)
Definition framed (s s' : State) : Prop :=
  forall (l : loc) o, heap s !! l = Some o -> heap s' !! l = Some o.

Definition effect {A} (R : State -> State -> Prop) (c : M A) : Prop :=
  forall s,
    match c s with
    | Returned _ s' | Thrown _ s' => R s s'
    | OutOfFuel => True
    end.

Lemma Instance_filled_refl (o : Instance) : Instance_filled o o.
Proof. unfold Instance_filled. auto. Qed.

Lemma Instance_filled_trans (o1 o2 o3 : Instance) :
  Instance_filled o1 o2 -> Instance_filled o2 o3 -> Instance_filled o1 o3.
Proof.
  intros (Hk & Hn & Ht & Hi & Hp) (Hk' & Hn' & Ht' & Hi' & Hp').
  unfold Instance_filled. repeat split; try congruence.
  intros name v Hv Hnull. apply Hp'; [apply Hp |]; assumption.
Qed.

Lemma framed_refl (s : State) : framed s s.
Proof. intros l o Hl. exact Hl. Qed.

Lemma framed_same_heap (s s' : State) : heap s' = heap s -> framed s s'.
Proof. intros Heq l o Hl. rewrite Heq. exact Hl. Qed.

Lemma framed_trans (s1 s2 s3 : State) : framed s1 s2 -> framed s2 s3 -> framed s1 s3.
Proof. intros H12 H23 l o Hl. apply H23, H12, Hl. Qed.

Lemma framed_fills (l : loc) (s s' : State) : framed s s' -> fills l s s'.
Proof.
  intros Hframed l' o Hl. exists o. split; [apply Hframed, Hl |].
  split; [reflexivity | intros _; apply Instance_filled_refl].
Qed.

Lemma fills_refl (l : loc) (s : State) : fills l s s.
Proof. apply framed_fills, framed_refl. Qed.

Lemma fills_trans (l : loc) (s1 s2 s3 : State) :
  fills l s1 s2 -> fills l s2 s3 -> fills l s1 s3.
Proof.
  intros H12 H23 l' o Hl.
  destruct (H12 l' o Hl) as (o2 & Hl2 & Hother2 & Hsame2).
  destruct (H23 l' o2 Hl2) as (o3 & Hl3 & Hother3 & Hsame3).
  exists o3. split; [exact Hl3 |]. split.
  - intros Hne. rewrite (Hother3 Hne). apply Hother2, Hne.
  - intros Heq. eapply Instance_filled_trans; [apply Hsame2 | apply Hsame3]; exact Heq.
Qed.

Lemma framed_valid (l : loc) (s s' : State) :
  framed s s' -> is_Some (heap s !! l) -> is_Some (heap s' !! l).
Proof. intros Hframed [o Hl]. exists o. apply Hframed, Hl. Qed.

Lemma fills_valid (l l' : loc) (s s' : State) :
  fills l s s' -> is_Some (heap s !! l') -> is_Some (heap s' !! l').
Proof. intros Hfills [o Hl]. destruct (Hfills l' o Hl) as (o' & Hl' & _). eauto. Qed.

Lemma effect_bind {A B} (R : State -> State -> Prop) (c : M A) (k : A -> M B) :
  (forall s1 s2 s3, R s1 s2 -> R s2 s3 -> R s1 s3) ->
  effect R c -> (forall a, effect R (k a)) -> effect R (bind c k).
Proof.
  intros Htrans Hc Hk s. unfold bind. specialize (Hc s).
  destruct (c s) as [a s1 | e s1 |]; [| exact Hc | exact I].
  specialize (Hk a s1).
  destruct (k a s1) as [b s2 | e s2 |]; [| | exact I]; eapply Htrans; eassumption.
Qed.

Lemma framed_bind {A B} (c : M A) (k : A -> M B) :
  effect framed c -> (forall a, effect framed (k a)) -> effect framed (bind c k).
Proof. apply effect_bind. exact framed_trans. Qed.

Lemma framed_ret {A} (a : A) : effect framed (ret a : M A).
Proof. intros s. apply framed_refl. Qed.

Lemma framed_throw {A} (e : exn) : effect framed (throw e : M A).
Proof. intros s. apply framed_refl. Qed.

Lemma framed_lift_result {A} (r : result A) : effect framed (lift_result r).
Proof. destruct r; [apply framed_ret | apply framed_throw]. Qed.

Lemma framed_lift_world {A} (f : World -> A * World) : effect framed (lift_world f).
Proof. intros s. rewrite lift_world_called. apply framed_same_heap. reflexivity. Qed.

Lemma framed_alloc (o : Instance) : effect framed (alloc o).
Proof. intros s l o' Hl. simpl. apply lookup_app_l_Some, Hl. Qed.

Lemma framed_stack_push (l : loc) : effect framed (stack_push l).
Proof. intros s. apply framed_same_heap. reflexivity. Qed.

Lemma framed_getProperty (obj : option loc) (name : string) :
  effect framed (getProperty obj name).
Proof. destruct obj; intros s; apply framed_refl. Qed.

Lemma framed_getType (mm : ModelManager.t) (fqn : string) : effect framed (getType mm fqn).
Proof.
  unfold getType. destruct (ModelManager.getType mm fqn);
    [apply framed_ret | apply framed_throw].
Qed.

Lemma framed_Factory_validate (f : Factory) (ns type : string) :
  effect framed (Factory_validate f ns type).
Proof.
  unfold Factory_validate. destruct (Factory_declares f ns type);
    [apply framed_ret | apply framed_throw].
Qed.

Lemma framed_repeatM {A} (n : nat) (c : M A) :
  effect framed c -> effect framed (repeatM n c).
Proof.
  intros Hc. induction n as [| n IH]; simpl.
  - apply framed_ret.
  - apply framed_bind; [exact Hc |]. intros x.
    apply framed_bind; [exact IH |]. intros rest. apply framed_ret.
Qed.

Create HintDb store discriminated.

#[local] Hint Resolve framed_ret framed_throw framed_lift_result framed_lift_world
  framed_alloc framed_stack_push framed_getProperty framed_getType
  framed_Factory_validate : store.

Ltac frames :=
  repeat first
    [ apply framed_bind; [| intros ? ]
    | apply framed_repeatM
    | solve [ auto with store ] ].

Lemma framed_newIdentifier (identifierFieldName : option string) :
  effect framed (newIdentifier identifierFieldName).
Proof. unfold newIdentifier. frames. Qed.

Lemma framed_newConcept (f : Factory) (ns type : string) :
  effect framed (newConcept f ns type).
Proof. unfold newConcept. frames. Qed.

Lemma framed_newResource (f : Factory) (ns type id : string) :
  effect framed (newResource f ns type id).
Proof. unfold newResource. frames. Qed.

Lemma framed_newRelationship (f : Factory) (ns type id : string) :
  effect framed (newRelationship f ns type id).
Proof. unfold newRelationship. frames. Qed.

#[local] Hint Resolve framed_newIdentifier framed_newConcept framed_newResource
  framed_newRelationship : store.

Lemma framed_visitRelationshipDeclaration
    (relationshipDeclaration : RelationshipDeclaration.t) (parameters : Parameters) :
  effect framed (visitRelationshipDeclaration relationshipDeclaration parameters).
Proof.
  unfold visitRelationshipDeclaration.
  apply framed_bind; [auto with store |]. intros [target | e]; [| auto with store].
  destruct (RelationshipDeclaration.isArray relationshipDeclaration); frames.
Qed.

Lemma framed_primitiveValue (generator : ValueGenerator World) (type : string) :
  effect framed (primitiveValue generator type).
Proof.
  unfold primitiveValue.
  repeat match goal with |- context [if ?b then _ else _] => destruct b end;
    auto with store.
Qed.

Lemma framed_resolveClassDeclaration (parameters : Parameters)
    (classDeclaration : ClassDeclaration.t) :
  effect framed (resolveClassDeclaration parameters classDeclaration).
Proof.
  unfold resolveClassDeclaration. simpl.
  apply framed_bind; [auto with store |]. intros [c |]; auto with store.
Qed.

(** What [visitClassDeclaration] owes its callers: entered with a live
    object on top of the stack, it touches no other object of the store and
    only fills in absent properties of that one. *)
Definition fillsTop (visitClass : ClassDeclaration.t -> Parameters -> M value) : Prop :=
  forall classDeclaration parameters s top rest,
    stack s = top :: rest ->
    is_Some (heap s !! top) ->
    match visitClass classDeclaration parameters s with
    | Returned _ s' | Thrown _ s' => fills top s s'
    | OutOfFuel => True
    end.

(** The instance built for a nested field is new, so filling it leaves the
    store the caller knew untouched. *)
Lemma framed_newInstance (visitClass : ClassDeclaration.t -> Parameters -> M value)
    (classDeclaration : ClassDeclaration.t) (parameters : Parameters) :
  fillsTop visitClass -> effect framed (newInstance visitClass classDeclaration parameters).
Proof.
  intros Hfills.
  assert (Hdescend : forall created s,
            match (stack_push (length (heap s)) ;;;
                   visitClass classDeclaration parameters) (allocated created s) with
            | Returned _ s' | Thrown _ s' => framed s s'
            | OutOfFuel => True
            end).
  { intros created s. unfold bind, stack_push.
    set (s1 := mkState _ _ _).
    assert (Htop : is_Some (heap s1 !! length (heap s))).
    { subst s1; simpl. apply lookup_lt_is_Some. rewrite length_app; simpl. lia. }
    pose proof (Hfills classDeclaration parameters s1 (length (heap s)) (stack s)
                  eq_refl Htop) as Hrun.
    assert (Hold : forall s', fills (length (heap s)) s1 s' -> framed s s').
    { intros s' Hs' l o Hl.
      assert (Hlt : (l < length (heap s))%nat) by (apply lookup_lt_Some in Hl; exact Hl).
      assert (Hl1 : heap s1 !! l = Some o)
        by (subst s1; simpl; apply lookup_app_l_Some, Hl).
      destruct (Hs' l o Hl1) as (o' & Hl' & Hother & _).
      rewrite Hl'. f_equal. apply Hother. lia. }
    destruct (visitClass classDeclaration parameters s1); auto. }
  unfold newInstance. intros s.
  destruct (ClassDeclaration.isConcept classDeclaration).
  - unfold bind at 1. unfold newConcept. unfold bind at 1.
    unfold Factory_validate.
    destruct (Factory_declares _ _ _); [| apply framed_refl].
    exact (Hdescend _ s).
  - unfold bind at 1. rewrite newIdentifier_run. unfold bind at 1.
    unfold newResource. unfold bind at 1. unfold Factory_validate.
    set (s0 := mkState (stack s) (heap s) (snd (Math_random (world s)))).
    assert (Hs0 : framed s s0) by (apply framed_same_heap; reflexivity).
    destruct (Factory_declares _ _ _); [| exact Hs0].
    pose proof (Hdescend (Factory_resource (factory parameters)
                  (ClassDeclaration.getNamespace classDeclaration)
                  (ClassDeclaration.getName classDeclaration)
                  (identifier_of_sample
                     (ClassDeclaration.getIdentifierFieldName classDeclaration)
                     (fst (Math_random (world s))))) s0) as Hrun.
    unfold ret, alloc. unfold allocated in Hrun.
    match goal with
    | |- match ?run with _ => _ end =>
        match type of Hrun with
        | match ?run' with _ => _ end => change run with run'; destruct run'
        end
    end; auto; eapply framed_trans; eassumption.
Qed.

Lemma framed_getFieldValue_ (visitClass : ClassDeclaration.t -> Parameters -> M value)
    (field : Field.t) (parameters : Parameters) :
  fillsTop visitClass -> effect framed (getFieldValue_ visitClass field parameters).
Proof.
  intros Hfills. unfold getFieldValue_.
  destruct (isPrimitiveType _); [apply framed_primitiveValue |].
  apply framed_bind; [auto with store |]. intros [classDeclaration | e].
  - apply framed_bind; [apply framed_resolveClassDeclaration |].
    intros c. apply framed_newInstance, Hfills.
  - apply framed_bind; [auto with store |]. intros [literal |]; auto with store.
Qed.

Lemma framed_visitField_ (visitClass : ClassDeclaration.t -> Parameters -> M value)
    (field : Field.t) (parameters : Parameters) :
  fillsTop visitClass -> effect framed (visitField_ visitClass field parameters).
Proof.
  intros Hfills. unfold visitField_.
  pose proof (framed_getFieldValue_ visitClass field parameters Hfills) as Hone.
  destruct (Field.isArray field); [| exact Hone].
  apply framed_bind; [apply framed_repeatM, Hone |].
  intros result. auto with store.
Qed.

Lemma framed_Property_accept (visitClass : ClassDeclaration.t -> Parameters -> M value)
    (property : Property) (parameters : Parameters) :
  fillsTop visitClass -> effect framed (Property_accept visitClass property parameters).
Proof.
  intros Hfills. destruct property as [f | r]; simpl.
  - apply framed_visitField_, Hfills.
  - apply framed_visitRelationshipDeclaration.
Qed.

(** [obj[name]] read from the store. *)
Definition readProperty (s : State) (l : loc) (name : string) : value :=
  match heap s !! l with
  | Some o => Instance_get o name
  | None => VUndefined
  end.

(** The state after [obj[name] = v]. *)
Definition written (l : loc) (name : string) (v : value) (s : State) : State :=
  mkState (stack s) (alter (fun o => Instance_set o name v) l (heap s)) (world s).

(** One turn of the loop of [visitClassDeclaration]. *)
Lemma forProperties_cons (visitClass : ClassDeclaration.t -> Parameters -> M value)
    (l : loc) (property : Property) (rest : list Property) (parameters : Parameters)
    (s : State) :
  forProperties visitClass (Some l) (property :: rest) parameters s =
  if isNull (readProperty s l (Property_getName property)) then
    match Property_accept visitClass property parameters s with
    | Returned generated s1 =>
        forProperties visitClass (Some l) rest parameters
          (written l (Property_getName property) generated s1)
    | Thrown e s1 => Thrown e s1
    | OutOfFuel => OutOfFuel
    end
  else forProperties visitClass (Some l) rest parameters s.
Proof.
  simpl. unfold bind at 1. unfold getProperty. fold (readProperty s l (Property_getName property)).
  destruct (isNull _).
  - unfold bind at 1. unfold bind at 1.
    destruct (Property_accept visitClass property parameters s); reflexivity.
  - reflexivity.
Qed.

Lemma forProperties_app (visitClass : ClassDeclaration.t -> Parameters -> M value)
    (obj : option loc) (before after : list Property) (parameters : Parameters)
    (s : State) :
  forProperties visitClass obj (before ++ after) parameters s =
  (forProperties visitClass obj before parameters ;;;
   forProperties visitClass obj after parameters) s.
Proof.
  revert s. induction before as [| property before IH]; intros s.
  - reflexivity.
  - simpl. unfold bind.
    destruct (getProperty obj (Property_getName property) s) as [v s1 | |];
      try reflexivity.
    destruct (isNull v).
    + destruct (Property_accept visitClass property parameters s1) as [g s2 | |];
        try reflexivity.
      destruct (setProperty obj (Property_getName property) g s2) as [[] s3 | |];
        try reflexivity.
      rewrite IH. reflexivity.
    + unfold ret. rewrite IH. reflexivity.
Qed.

Lemma written_fills (l : loc) (name : string) (v : value) (s : State) :
  isNull (readProperty s l name) = true -> fills l s (written l name v s).
Proof.
  intros Hnull l' o Hl. unfold written; simpl.
  destruct (decide (l' = l)) as [-> | Hne].
  - exists (Instance_set o name v). split.
    + rewrite list_lookup_alter_eq. rewrite Hl. reflexivity.
    + split; [intros Hne; contradiction |]. intros _.
      unfold Instance_filled, Instance_set; simpl. repeat split; try reflexivity.
      intros name' v' Hv' Hnonnull.
      destruct (decide (name = name')) as [<- | Hname].
      * unfold readProperty in Hnull. rewrite Hl in Hnull.
        unfold Instance_get in Hnull. rewrite Hv' in Hnull. simpl in Hnull. congruence.
      * rewrite lookup_insert_ne by exact Hname. exact Hv'.
  - exists o. split.
    + rewrite list_lookup_alter_ne by congruence. exact Hl.
    + split; [reflexivity | intros Heq; contradiction].
Qed.

Lemma framed_readProperty (s s' : State) (l : loc) (name : string) :
  framed s s' -> is_Some (heap s !! l) -> readProperty s' l name = readProperty s l name.
Proof.
  intros Hframed [o Hl]. unfold readProperty. rewrite (Hframed l o Hl), Hl. reflexivity.
Qed.

Lemma forProperties_fills (visitClass : ClassDeclaration.t -> Parameters -> M value)
    (l : loc) (properties : list Property) (parameters : Parameters) :
  fillsTop visitClass ->
  forall s, is_Some (heap s !! l) ->
    match forProperties visitClass (Some l) properties parameters s with
    | Returned _ s' | Thrown _ s' => fills l s s'
    | OutOfFuel => True
    end.
Proof.
  intros Hfills. induction properties as [| property rest IH]; intros s Hvalid.
  - simpl. apply fills_refl.
  - rewrite forProperties_cons.
    destruct (isNull (readProperty s l (Property_getName property))) eqn:Hnull;
      [| apply IH, Hvalid].
    pose proof (framed_Property_accept visitClass property parameters Hfills s) as Hacc.
    destruct (Property_accept visitClass property parameters s) as [generated s1 | e s1 |];
      [| apply framed_fills, Hacc | exact I].
    set (s2 := written l (Property_getName property) generated s1).
    assert (H12 : fills l s1 s2).
    { apply written_fills. rewrite (framed_readProperty s s1); assumption. }
    assert (H02 : fills l s s2).
    { eapply fills_trans; [apply framed_fills, Hacc | exact H12]. }
    assert (Hvalid2 : is_Some (heap s2 !! l)) by (eapply fills_valid; eassumption).
    specialize (IH s2 Hvalid2).
    destruct (forProperties visitClass (Some l) rest parameters s2); auto;
      eapply fills_trans; eassumption.
Qed.

Lemma fillsTop_visitClassDeclaration_
    (visitClass : ClassDeclaration.t -> Parameters -> M value) :
  fillsTop visitClass -> fillsTop (visitClassDeclaration_ visitClass).
Proof.
  intros Hfills classDeclaration parameters s top rest Hstack Hvalid.
  unfold visitClassDeclaration_. unfold bind at 1. unfold stack_pop. rewrite Hstack.
  set (s0 := mkState rest (heap s) (world s)).
  assert (Hpopped : fills top s s0)
    by (apply framed_fills, framed_same_heap; reflexivity).
  pose proof (forProperties_fills visitClass top
                (ClassDeclaration.getProperties classDeclaration) parameters Hfills
                s0 Hvalid) as Hloop.
  unfold bind, ret.
  destruct (forProperties visitClass (Some top) _ parameters s0); auto;
    eapply fills_trans; eassumption.
Qed.

Lemma fillsTop_visitClassDeclaration (fuel : nat) : fillsTop (visitClassDeclaration fuel).
Proof.
  induction fuel as [| fuel IH].
  - intros classDeclaration parameters s top rest _ _. exact I.
  - simpl. apply fillsTop_visitClassDeclaration_, IH.
Qed.

(** When every declared property has a value the loop does nothing. *)
Lemma forProperties_populated (visitClass : ClassDeclaration.t -> Parameters -> M value)
    (l : loc) (properties : list Property) (parameters : Parameters) (s : State) :
  (forall property, In property properties ->
     isNull (readProperty s l (Property_getName property)) = false) ->
  forProperties visitClass (Some l) properties parameters s = Returned tt s.
Proof.
  induction properties as [| property rest IH]; intros Hall.
  - reflexivity.
  - rewrite forProperties_cons. rewrite (Hall property (or_introl eq_refl)).
    apply IH. intros p Hin. apply Hall. right. exact Hin.
Qed.

Lemma generate_entered (fuel : nat) (targetType : ClassDeclaration.t) (instance : loc)
    (parameters : Parameters) (s : State) :
  generate (S fuel) targetType instance parameters s =
  match forProperties (visitClassDeclaration fuel) (Some instance)
          (ClassDeclaration.getProperties targetType) parameters
          (mkState (stack s) (heap s) (world s)) with
  | Returned _ s' => Returned (VObject instance) s'
  | Thrown e s' => Thrown e s'
  | OutOfFuel => OutOfFuel
  end.
Proof.
  unfold generate. unfold bind at 1. unfold stack_push. unfold visit, visit_.
  rewrite (visitClassDeclaration_entered fuel targetType parameters instance (stack s));
    [| reflexivity].
  simpl. unfold bind, ret.
  destruct (forProperties _ _ _ _ _) as [[] s' | |]; reflexivity.
Qed.

Lemma State_eta (s : State) : mkState (stack s) (heap s) (world s) = s.
Proof. destruct s; reflexivity. Qed.

(** C2. Generation only assigns absent properties.  A property of the
    instance that holds a value which is neither null nor unset, declared or
    not, holds the same value when [generate] is over, however it ends, and
    every other object that was in the store is untouched.  On an instance
    whose declared properties all hold a value, [generate] returns the
    instance and changes nothing at all. *)
Theorem populated_properties_unchanged (fuel : nat) (targetType : ClassDeclaration.t)
    (instance : loc) (parameters : Parameters) (s : State) (o : Instance) :
  heap s !! instance = Some o ->
  match generate fuel targetType instance parameters s with
  | Returned _ s' | Thrown _ s' =>
      (exists o',
         heap s' !! instance = Some o' /\
         forall name v,
           inst_properties o !! name = Some v -> isNull v = false ->
           inst_properties o' !! name = Some v) /\
      (forall (l : loc) other,
         l <> instance -> heap s !! l = Some other -> heap s' !! l = Some other)
  | OutOfFuel => True
  end /\
  ((forall property, In property (ClassDeclaration.getProperties targetType) ->
      isNull (Instance_get o (Property_getName property)) = false) ->
   generate (S fuel) targetType instance parameters s = Returned (VObject instance) s).
Proof.
  intros Hinstance. split.
  - unfold generate. unfold bind at 1. unfold stack_push. unfold visit, visit_.
    set (s0 := mkState (instance :: stack s) (heap s) (world s)).
    pose proof (fillsTop_visitClassDeclaration fuel targetType parameters s0 instance
                  (stack s) eq_refl (ex_intro _ o Hinstance)) as Hrun.
    assert (Hgoal : forall s', fills instance s0 s' ->
              (exists o',
                 heap s' !! instance = Some o' /\
                 forall name v,
                   inst_properties o !! name = Some v -> isNull v = false ->
                   inst_properties o' !! name = Some v) /\
              (forall (l : loc) other,
                 l <> instance -> heap s !! l = Some other -> heap s' !! l = Some other)).
    { intros s' Hs'. split.
      - destruct (Hs' instance o Hinstance) as (o' & Ho' & _ & Hsame).
        exists o'. split; [exact Ho' |]. apply (Hsame eq_refl).
      - intros l other Hne Hl.
        destruct (Hs' l other Hl) as (o' & Ho' & Hother & _).
        rewrite Ho'. f_equal. apply Hother, Hne. }
    destruct (visitClassDeclaration fuel targetType parameters s0); auto.
  - intros Hall. rewrite generate_entered. rewrite State_eta.
    rewrite forProperties_populated; [reflexivity |].
    intros property Hin. unfold readProperty. rewrite Hinstance. apply Hall, Hin.
Qed.

(** *** Abstract types without a concrete direct subclass *)

Lemma visitField_Thrown (fuel : nat) (field : Field.t) (parameters : Parameters)
    (s s' : State) (e : exn) :
  getFieldValue fuel field parameters s = Thrown e s' ->
  visitField fuel field parameters s = Thrown e s'.
Proof.
  intros Hthrown. unfold visitField, visitField_. unfold getFieldValue in Hthrown.
  destruct (Field.isArray field); [| exact Hthrown].
  simpl repeatM. unfold bind. rewrite Hthrown. reflexivity.
Qed.

(** C5. A field whose type is an abstract class that no class of the schema
    both extends directly and is not abstract makes generation fail: the
    error carries the message built from the abstract type's fully-qualified
    name, it is thrown before anything is built for the field, and
    [generate] ends with that throw and returns nothing, as soon as the
    loop reaches the field and finds it absent. *)
Theorem no_concrete_subtype_aborts (fuel : nat) (field : Field.t)
    (parameters : Parameters) (abstractType : ClassDeclaration.t) :
  let type := Field.getFullyQualifiedTypeName field in
  let fqn := ClassDeclaration.getFullyQualifiedName abstractType in
  let failure :=
    Error (messageFormatter "instancegenerator-newinstance-noconcreteclass" fqn) in
  isPrimitiveType type = false ->
  ModelManager.getType (modelManager parameters) type = Some (DeclClass abstractType) ->
  ClassDeclaration.isAbstract abstractType = true ->
  (forall c, In c (ModelManager.getClassDeclarations (modelManager parameters)) ->
     ClassDeclaration.getSuperType c = Some fqn ->
     ClassDeclaration.isAbstract c = true) ->
  (forall s, getFieldValue fuel field parameters s = Thrown failure s) /\
  (forall s, visitField fuel field parameters s = Thrown failure s) /\
  (forall targetType instance before after s s1,
     ClassDeclaration.getProperties targetType = before ++ PropField field :: after ->
     forProperties (visitClassDeclaration fuel) (Some instance) before parameters s
       = Returned tt s1 ->
     isNull (readProperty s1 instance (Field.getName field)) = true ->
     generate (S fuel) targetType instance parameters s = Thrown failure s1).
Proof.
  intros type fqn failure Hprim Htype Habs Hnone.
  assert (Hvalue : forall s, getFieldValue fuel field parameters s = Thrown failure s).
  { intros s.
    rewrite (getFieldValue_class fuel field parameters abstractType s Hprim Htype).
    rewrite (findExtendingLeafType_none _ _ Habs Hnone). reflexivity. }
  split; [exact Hvalue |]. split.
  - intros s. apply visitField_Thrown, Hvalue.
  - intros targetType instance before after s s1 Hprops Hbefore Hnull.
    rewrite generate_entered, State_eta, Hprops, forProperties_app.
    unfold bind at 1. rewrite Hbefore. rewrite forProperties_cons.
    simpl Property_getName. rewrite Hnull. simpl Property_accept.
    fold (visitField fuel field parameters s1).
    rewrite (visitField_Thrown fuel field parameters s1 s1 failure (Hvalue s1)).
    reflexivity.
Qed.

(** *** Relationship-typed properties *)

(** [v] names an object of the store of [s], other than [owner], that is a
    Relationship to [target] and carries no property. *)
Definition isRelationshipTo (s : State) (owner : loc) (target : ClassDeclaration.t)
    (v : value) : Prop :=
  exists (pointer : loc) (r : binary64),
    v = VObject pointer /\ pointer <> owner /\
    heap s !! pointer = Some (relationshipTo target r).

(** The value of a relationship-typed property: a pointer, or three of them. *)
Definition relationshipValue (s : State) (owner : loc) (target : ClassDeclaration.t)
    (isArray : bool) (v : value) : Prop :=
  if isArray then
    exists v1 v2 v3,
      v = VArray [v1; v2; v3] /\
      isRelationshipTo s owner target v1 /\
      isRelationshipTo s owner target v2 /\
      isRelationshipTo s owner target v3
  else isRelationshipTo s owner target v.

Lemma isRelationshipTo_fills (s s' : State) (owner : loc) (target : ClassDeclaration.t)
    (v : value) :
  fills owner s s' -> isRelationshipTo s owner target v -> isRelationshipTo s' owner target v.
Proof.
  intros Hfills (pointer & r & -> & Hne & Hpointer).
  exists pointer, r. split; [reflexivity |]. split; [exact Hne |].
  destruct (Hfills pointer _ Hpointer) as (o' & Ho' & Hother & _).
  rewrite Ho'. f_equal. apply Hother, Hne.
Qed.

Lemma relationshipValue_fills (s s' : State) (owner : loc) (target : ClassDeclaration.t)
    (isArray : bool) (v : value) :
  fills owner s s' ->
  relationshipValue s owner target isArray v -> relationshipValue s' owner target isArray v.
Proof.
  intros Hfills. unfold relationshipValue. destruct isArray.
  - intros (v1 & v2 & v3 & -> & H1 & H2 & H3). exists v1, v2, v3.
    repeat split; try reflexivity; eapply isRelationshipTo_fills; eassumption.
  - apply isRelationshipTo_fills, Hfills.
Qed.

Lemma relationshipValue_not_null (s : State) (owner : loc) (target : ClassDeclaration.t)
    (isArray : bool) (v : value) :
  relationshipValue s owner target isArray v -> isNull v = false.
Proof.
  unfold relationshipValue. destruct isArray.
  - intros (v1 & v2 & v3 & -> & _). reflexivity.
  - intros (pointer & r & -> & _). reflexivity.
Qed.

Lemma readProperty_written_same (s : State) (l : loc) (name : string) (v : value) :
  is_Some (heap s !! l) -> readProperty (written l name v s) l name = v.
Proof.
  intros [o Hl]. unfold readProperty, written; simpl.
  rewrite list_lookup_alter_eq, Hl. simpl. unfold Instance_get, Instance_set; simpl.
  rewrite lookup_insert_eq. reflexivity.
Qed.

Lemma readProperty_written_other (s : State) (l : loc) (name name' : string) (v : value) :
  name <> name' -> readProperty (written l name v s) l name' = readProperty s l name'.
Proof.
  intros Hne. unfold readProperty, written; simpl.
  rewrite list_lookup_alter_eq. destruct (heap s !! l) as [o |]; [| reflexivity].
  simpl. unfold Instance_get, Instance_set; simpl.
  rewrite lookup_insert_ne by exact Hne. reflexivity.
Qed.

Lemma fills_readProperty (s s' : State) (l : loc) (name : string) :
  fills l s s' -> isNull (readProperty s l name) = false ->
  readProperty s' l name = readProperty s l name.
Proof.
  intros Hfills Hvalue. unfold readProperty in *.
  destruct (heap s !! l) as [o |] eqn:Hl; [| discriminate].
  destruct (Hfills l o Hl) as (o' & Ho' & _ & Hsame).
  rewrite Ho'. destruct (Hsame eq_refl) as (_ & _ & _ & _ & Hprops).
  unfold Instance_get in *.
  destruct (inst_properties o !! name) as [v |] eqn:Hv; [| discriminate].
  rewrite (Hprops name v Hv Hvalue). reflexivity.
Qed.

(** What one visit of a relationship declaration leaves behind. *)
Lemma visitRelationshipDeclaration_value
    (relationshipDeclaration : RelationshipDeclaration.t) (parameters : Parameters)
    (target : ClassDeclaration.t) (owner : loc) (s : State) :
  ModelManager.getType (modelManager parameters)
    (RelationshipDeclaration.getFullyQualifiedTypeName relationshipDeclaration)
    = Some (DeclClass target) ->
  Factory_declares (factory parameters)
    (ClassDeclaration.getNamespace target) (ClassDeclaration.getName target) = true ->
  is_Some (heap s !! owner) ->
  exists v s1,
    visitRelationshipDeclaration relationshipDeclaration parameters s = Returned v s1 /\
    stack s1 = stack s /\
    relationshipValue s1 owner target
      (RelationshipDeclaration.isArray relationshipDeclaration) v.
Proof.
  intros Htype Hknown Hvalid.
  assert (Howner : (owner < length (heap s))%nat) by (apply lookup_lt_is_Some, Hvalid).
  unfold relationshipValue.
  destruct (RelationshipDeclaration.isArray relationshipDeclaration) eqn:Harr.
  - pose proof (visitRelationshipDeclaration_array relationshipDeclaration parameters
                  target s Harr Htype Hknown) as Hrun. simpl in Hrun.
    eexists. eexists. split; [exact Hrun |]. split; [reflexivity |].
    eexists. eexists. eexists. split; [reflexivity |].
    unfold isRelationshipTo, afterRelationship; simpl.
    repeat split.
    + eexists. eexists. split; [reflexivity |]. split; [lia |].
      rewrite <- !app_assoc. rewrite lookup_app_r by lia.
      rewrite Nat.sub_diag. reflexivity.
    + eexists. eexists. split; [reflexivity |]. split; [lia |].
      rewrite <- !app_assoc. rewrite lookup_app_r by lia.
      replace (S (length (heap s)) - length (heap s))%nat with 1%nat by lia.
      reflexivity.
    + eexists. eexists. split; [reflexivity |]. split; [lia |].
      rewrite <- !app_assoc. rewrite lookup_app_r by lia.
      replace (S (S (length (heap s))) - length (heap s))%nat with 2%nat by lia.
      reflexivity.
  - pose proof (visitRelationshipDeclaration_single relationshipDeclaration parameters
                  target s Harr Htype Hknown) as Hrun.
    eexists. eexists. split; [exact Hrun |]. split; [reflexivity |].
    eexists. eexists. split; [reflexivity |]. split; [lia |].
    unfold afterRelationship; simpl. rewrite lookup_app_r by lia.
    rewrite Nat.sub_diag. reflexivity.
Qed.

(** When the loop returns, a relationship-typed property that was absent
    holds pointers and nothing else. *)
Lemma forProperties_relationship (visitClass : ClassDeclaration.t -> Parameters -> M value)
    (l : loc) (parameters : Parameters)
    (relationshipDeclaration : RelationshipDeclaration.t) (target : ClassDeclaration.t) :
  fillsTop visitClass ->
  ModelManager.getType (modelManager parameters)
    (RelationshipDeclaration.getFullyQualifiedTypeName relationshipDeclaration)
    = Some (DeclClass target) ->
  Factory_declares (factory parameters)
    (ClassDeclaration.getNamespace target) (ClassDeclaration.getName target) = true ->
  forall properties s s',
    NoDup (map Property_getName properties) ->
    In (PropRelationship relationshipDeclaration) properties ->
    is_Some (heap s !! l) ->
    isNull (readProperty s l (RelationshipDeclaration.getName relationshipDeclaration)) = true ->
    forProperties visitClass (Some l) properties parameters s = Returned tt s' ->
    relationshipValue s' l target
      (RelationshipDeclaration.isArray relationshipDeclaration)
      (readProperty s' l (RelationshipDeclaration.getName relationshipDeclaration)).
Proof.
  intros Hfills Htype Hknown.
  induction properties as [| property rest IH]; intros s s' Hnodup Hin Hvalid Hnull Hrun.
  - destruct Hin.
  - rewrite forProperties_cons in Hrun. simpl in Hnodup.
    apply NoDup_cons in Hnodup as [Hfresh Hnodup].
    destruct Hin as [-> | Hin].
    + simpl Property_getName in Hrun. rewrite Hnull in Hrun. simpl Property_accept in Hrun.
      destruct (visitRelationshipDeclaration_value relationshipDeclaration parameters
                  target l s Htype Hknown Hvalid) as (v & s1 & Hvisit & _ & Hvalue).
      rewrite Hvisit in Hrun.
      set (name := RelationshipDeclaration.getName relationshipDeclaration) in *.
      set (s2 := written l name v s1) in *.
      pose proof (framed_visitRelationshipDeclaration relationshipDeclaration
                    parameters s) as Hframed.
      rewrite Hvisit in Hframed.
      assert (Hvalid1 : is_Some (heap s1 !! l)) by (eapply framed_valid; eassumption).
      assert (H12 : fills l s1 s2).
      { apply written_fills. rewrite (framed_readProperty s s1); assumption. }
      assert (Hvalid2 : is_Some (heap s2 !! l)) by (eapply fills_valid; eassumption).
      pose proof (forProperties_fills visitClass l rest parameters Hfills s2 Hvalid2)
        as H2'.
      rewrite Hrun in H2'.
      assert (Hread2 : readProperty s2 l name = v)
        by (apply readProperty_written_same, Hvalid1).
      assert (Hread' : readProperty s' l name = v).
      { rewrite (fills_readProperty s2 s' l name H2'); [exact Hread2 |].
        rewrite Hread2. eapply relationshipValue_not_null, Hvalue. }
      rewrite Hread'.
      eapply relationshipValue_fills; [exact H2' |].
      eapply relationshipValue_fills; [exact H12 | exact Hvalue].
    + assert (Hname : Property_getName property
                      <> RelationshipDeclaration.getName relationshipDeclaration).
      { intros Heq. apply Hfresh. rewrite Heq. apply list_elem_of_In.
        exact (in_map Property_getName _ _ Hin). }
      destruct (isNull (readProperty s l (Property_getName property))) eqn:Hhead;
        [| eapply IH; eassumption].
      pose proof (framed_Property_accept visitClass property parameters Hfills s)
        as Hframed.
      destruct (Property_accept visitClass property parameters s) as [v s1 | |];
        try discriminate.
      assert (Hvalid1 : is_Some (heap s1 !! l)) by (eapply framed_valid; eassumption).
      apply (IH (written l (Property_getName property) v s1) s' Hnodup Hin);
        [| | exact Hrun].
      * apply (fills_valid l l s1); [| exact Hvalid1].
        apply written_fills. rewrite (framed_readProperty s s1); assumption.
      * rewrite readProperty_written_other by exact Hname.
        rewrite (framed_readProperty s s1); assumption.
Qed.

Lemma primitiveValue_returns (generator : ValueGenerator World) (type : string) (s : State) :
  exists v w, primitiveValue generator type s = Returned v (mkState (stack s) (heap s) w).
Proof.
  unfold primitiveValue.
  repeat match goal with |- context [if ?b then _ else _] => destruct b end;
    rewrite lift_world_called; unfold called; eauto.
Qed.

(** *** Termination *)

Lemma forProperties_returns (visitClass : ClassDeclaration.t -> Parameters -> M value)
    (l : loc) (parameters : Parameters) (properties : list Property) :
  (forall property, In property properties ->
     forall s, exists v s1,
       Property_accept visitClass property parameters s = Returned v s1 /\
       stack s1 = stack s) ->
  forall s,
    exists s', forProperties visitClass (Some l) properties parameters s = Returned tt s' /\
               stack s' = stack s.
Proof.
  induction properties as [| property rest IH]; intros Haccept s.
  - exists s. split; reflexivity.
  - assert (Hrest : forall p, In p rest ->
              forall s0, exists v s1,
                Property_accept visitClass p parameters s0 = Returned v s1 /\
                stack s1 = stack s0)
      by (intros p Hin; apply Haccept; right; exact Hin).
    rewrite forProperties_cons.
    destruct (isNull (readProperty s l (Property_getName property)));
      [| apply IH, Hrest].
    destruct (Haccept property (or_introl eq_refl) s) as (v & s1 & -> & Hstack).
    destruct (IH Hrest (written l (Property_getName property) v s1)) as (s' & Hrun & Hstack').
    exists s'. split; [exact Hrun |]. rewrite Hstack'. exact Hstack.
Qed.

Lemma repeatM_returns {A} (n : nat) (c : M A) :
  (forall s, exists a s1, c s = Returned a s1 /\ stack s1 = stack s) ->
  forall s, exists result s1, repeatM n c s = Returned result s1 /\ stack s1 = stack s.
Proof.
  intros Hc. induction n as [| n IH]; intros s; simpl.
  - exists [], s. split; reflexivity.
  - unfold bind, ret. destruct (Hc s) as (a & s1 & -> & Hstack1).
    destruct (IH s1) as (result & s2 & -> & Hstack2).
    eexists. eexists. split; [reflexivity |]. rewrite Hstack2. exact Hstack1.
Qed.

Section Termination.

Variable parameters : Parameters.

(** A measure of by-value nesting: it has to decrease from a class to the
    classes its concept- and resource-typed fields are built from, and it
    is not asked anything about relationships. *)
Variable rank : ClassDeclaration.t -> nat.

(** The property can be generated inside [owner]: a relationship points to
    a class that the schema and the factory know; a field is primitive, or
    an enum, or a class that resolves to a declaration which the factory
    knows and which ranks below [owner]. *)
Definition generable (owner : ClassDeclaration.t) (property : Property) : bool :=
  match property with
  | PropRelationship r =>
      match ModelManager.getType (modelManager parameters)
              (RelationshipDeclaration.getFullyQualifiedTypeName r) with
      | Some (DeclClass target) =>
          Factory_declares (factory parameters)
            (ClassDeclaration.getNamespace target) (ClassDeclaration.getName target)
      | _ => false
      end
  | PropField f =>
      let type := Field.getFullyQualifiedTypeName f in
      if isPrimitiveType type then true
      else
        match ModelManager.getType (modelManager parameters) type with
        | Some (DeclEnum _) => true
        | Some (DeclClass d) =>
            match findExtendingLeafType (modelManager parameters) d with
            | Ok (Some c) =>
                Factory_declares (factory parameters)
                  (ClassDeclaration.getNamespace c) (ClassDeclaration.getName c)
                && (rank c <? rank owner)%nat
            | _ => false
            end
        | None => false
        end
  end.

(** [owner] nests [nested] by value: one of its fields is of a class type
    that resolves to [nested], so that line 137 or 145 builds an instance of
    [nested] and line 138 or 146 enters its class declaration. *)
Definition nests (owner nested : ClassDeclaration.t) : Prop :=
  exists field declared,
    In (PropField field) (ClassDeclaration.getProperties owner) /\
    isPrimitiveType (Field.getFullyQualifiedTypeName field) = false /\
    ModelManager.getType (modelManager parameters) (Field.getFullyQualifiedTypeName field)
      = Some (DeclClass declared) /\
    findExtendingLeafType (modelManager parameters) declared = Ok (Some nested).

(** The classes that generation from [root] reaches by value: [root], and
    what a reached class nests.  Relationships lead nowhere. *)
Inductive reachedByValue (root : ClassDeclaration.t) : ClassDeclaration.t -> Prop :=
| reached_root : reachedByValue root root
| reached_nested (owner nested : ClassDeclaration.t) :
    reachedByValue root owner -> nests owner nested -> reachedByValue root nested.

Variable root : ClassDeclaration.t.

(** The classes reached from [root] have generable properties only. *)
Hypothesis reached_generable :
  forall c, reachedByValue root c ->
    forallb (generable c) (ClassDeclaration.getProperties c) = true.

(** The value generator picks a literal for their enum-typed fields. *)
Hypothesis getEnum_answers :
  forall c field e w,
    reachedByValue root c ->
    In (PropField field) (ClassDeclaration.getProperties c) ->
    ModelManager.getType (modelManager parameters) (Field.getFullyQualifiedTypeName field)
      = Some (DeclEnum e) ->
    is_Some (fst (getEnum (default ValueGeneratorFactory_sample (valueGenerator parameters))
                    (EnumDeclaration.getOwnProperties e) w)).

(** With fuel [n], every reached class that ranks below [n] is visited to
    the end. *)
Definition visitsBelow (n : nat) : Prop :=
  forall c, reachedByValue root c ->
    (rank c < n)%nat ->
    forall s top rest,
      stack s = top :: rest ->
      exists s', visitClassDeclaration n c parameters s = Returned (VObject top) s' /\
                 stack s' = rest.

Lemma getFieldValue_returns (n : nat) (owner : ClassDeclaration.t) (field : Field.t) :
  visitsBelow n -> (rank owner <= n)%nat ->
  reachedByValue root owner ->
  In (PropField field) (ClassDeclaration.getProperties owner) ->
  generable owner (PropField field) = true ->
  forall s, exists v s1,
    getFieldValue n field parameters s = Returned v s1 /\ stack s1 = stack s.
Proof.
  intros Hbelow Hrank Hreached Hfield Hgen s. simpl in Hgen.
  destruct (isPrimitiveType (Field.getFullyQualifiedTypeName field)) eqn:Hprim.
  - unfold getFieldValue, getFieldValue_. rewrite Hprim.
    destruct (primitiveValue_returns
                (default ValueGeneratorFactory_sample (valueGenerator parameters))
                (Field.getFullyQualifiedTypeName field) s) as (v & w & ->).
    eexists. eexists. split; reflexivity.
  - destruct (ModelManager.getType _ _) as [[d | e] |] eqn:Htype; try discriminate.
    + rewrite (getFieldValue_class n field parameters d s Hprim Htype).
      destruct (findExtendingLeafType _ d) as [[c |] | err] eqn:Hleaf; try discriminate.
      apply andb_true_iff in Hgen as [Hknown Hlt]. apply Nat.ltb_lt in Hlt.
      destruct (newInstance_descends (visitClassDeclaration n) c parameters s Hknown)
        as (created & w & _ & _ & _ & ->).
      assert (Hc : reachedByValue root c).
      { apply (reached_nested root owner c Hreached).
        exists field, d. repeat split; assumption. }
      destruct (Hbelow c Hc ltac:(lia)
                  (mkState (length (heap s) :: stack s) (heap s ++ [created]) w)
                  (length (heap s)) (stack s) eq_refl)
        as (s' & -> & Hstack).
      eexists. eexists. split; [reflexivity | exact Hstack].
    + rewrite (getFieldValue_enum n field parameters e s Hprim Htype).
      destruct (getEnum_answers owner field e (world s) Hreached Hfield Htype)
        as [literal Hpick].
      rewrite Hpick. eexists. eexists. split; reflexivity.
Qed.

Lemma Property_accept_returns (n : nat) (owner : ClassDeclaration.t) (property : Property) :
  visitsBelow n -> (rank owner <= n)%nat ->
  reachedByValue root owner ->
  In property (ClassDeclaration.getProperties owner) ->
  generable owner property = true ->
  forall s, exists v s1,
    Property_accept (visitClassDeclaration n) property parameters s = Returned v s1 /\
    stack s1 = stack s.
Proof.
  intros Hbelow Hrank Hreached Hin Hgen s. destruct property as [f | r].
  - simpl Property_accept. unfold visitField_.
    pose proof (getFieldValue_returns n owner f Hbelow Hrank Hreached Hin Hgen) as Hone.
    unfold getFieldValue in Hone.
    destruct (Field.isArray f); [| apply Hone].
    unfold bind, ret.
    destruct (repeatM_returns 3 _ Hone s) as (result & s1 & -> & Hstack).
    eexists. eexists. split; [reflexivity | exact Hstack].
  - simpl in Hgen |- *.
    destruct (ModelManager.getType _ _) as [[target | e] |] eqn:Htype; try discriminate.
    destruct (RelationshipDeclaration.isArray r) eqn:Harr.
    + rewrite (visitRelationshipDeclaration_array r parameters target s Harr Htype Hgen).
      eexists. eexists. split; reflexivity.
    + rewrite (visitRelationshipDeclaration_single r parameters target s Harr Htype Hgen).
      eexists. eexists. split; reflexivity.
Qed.

Lemma visitClassDeclaration_returns (n : nat) : visitsBelow n.
Proof.
  induction n as [| n IH]; intros c Hc Hrank s top rest Hstack; [lia |].
  rewrite (visitClassDeclaration_entered n c parameters top rest s Hstack).
  pose proof (reached_generable c Hc) as Hprops.
  rewrite forallb_forall in Hprops.
  destruct (forProperties_returns (visitClassDeclaration n) top parameters
              (ClassDeclaration.getProperties c)
              (fun property Hin =>
                 Property_accept_returns n c property IH ltac:(lia) Hc Hin
                   (Hprops property Hin))
              (mkState rest (heap s) (world s))) as (s' & Hrun & Hstack').
  unfold bind, ret. rewrite Hrun. exists s'. split; [reflexivity | exact Hstack'].
Qed.

End Termination.


(** *** The entry point [visit] *)

(** [c] never stops for lack of fuel. *)
Definition settles {A} (c : M A) : Prop := forall s, c s <> OutOfFuel.

Lemma settles_bind {A B} (c : M A) (k : A -> M B) :
  settles c -> (forall a, settles (k a)) -> settles (bind c k).
Proof.
  intros Hc Hk s. unfold bind. specialize (Hc s).
  destruct (c s) as [a s1 | e s1 |]; [apply Hk | discriminate | contradiction].
Qed.

Lemma settles_ret {A} (a : A) : settles (ret a : M A).
Proof. intros s. discriminate. Qed.

Lemma settles_throw {A} (e : exn) : settles (throw e : M A).
Proof. intros s. discriminate. Qed.

Lemma settles_lift_world {A} (f : World -> A * World) : settles (lift_world f).
Proof. intros s. rewrite lift_world_called. discriminate. Qed.

Lemma settles_repeatM {A} (n : nat) (c : M A) : settles c -> settles (repeatM n c).
Proof.
  intros Hc. induction n as [| n IH]; simpl.
  - apply settles_ret.
  - apply settles_bind; [exact Hc |]. intros x.
    apply settles_bind; [exact IH |]. intros rest. apply settles_ret.
Qed.

Lemma settles_visitRelationshipDeclaration
    (relationshipDeclaration : RelationshipDeclaration.t) (parameters : Parameters) :
  settles (visitRelationshipDeclaration relationshipDeclaration parameters).
Proof.
  assert (Hid : forall f, settles (newIdentifier f)).
  { intros f. unfold newIdentifier. apply settles_bind; [apply settles_lift_world |].
    intros r. apply settles_ret. }
  assert (Hnew : forall f ns type id, settles (newRelationship f ns type id)).
  { intros f ns type id. unfold newRelationship, Factory_validate.
    apply settles_bind.
    - destruct (Factory_declares f ns type); [apply settles_ret | apply settles_throw].
    - intros _ s. discriminate. }
  unfold visitRelationshipDeclaration. apply settles_bind.
  - unfold getType. destruct (ModelManager.getType _ _);
      [apply settles_ret | apply settles_throw].
  - intros [target | e]; [| apply settles_throw].
    assert (Hone : settles
              (id <- newIdentifier (ClassDeclaration.getIdentifierFieldName target) ;;
               relationship <- newRelationship (factory parameters)
                                 (ClassDeclaration.getNamespace target)
                                 (ClassDeclaration.getName target) id ;;
               ret (VObject relationship))).
    { apply settles_bind; [apply Hid |]. intros id.
      apply settles_bind; [apply Hnew |]. intros l. apply settles_ret. }
    destruct (RelationshipDeclaration.isArray relationshipDeclaration); [| exact Hone].
    apply settles_bind; [apply settles_repeatM, Hone |]. intros result. apply settles_ret.
Qed.

(** X1. What [visit] does to the stack and to the store, by kind of node: a
    class declaration has the top of the stack popped; a field or a
    relationship declaration leaves the stack as it was and every object
    that was in the store untouched; a relationship declaration is visited
    to the end without any recursion budget; anything else is refused
    with the error Unrecognised and nothing changes. *)
Theorem visit_effect (fuel : nat) (thing : Thing) (parameters : Parameters) (s : State) :
  match thing with
  | ThingClassDeclaration _ =>
      match visit fuel thing parameters s with
      | Returned _ s' | Thrown _ s' => stack s' = tail (stack s)
      | OutOfFuel => True
      end
  | ThingField _ =>
      match visit fuel thing parameters s with
      | Returned _ s' | Thrown _ s' =>
          stack s' = stack s /\
          forall (l : loc) o, heap s !! l = Some o -> heap s' !! l = Some o
      | OutOfFuel => True
      end
  | ThingRelationshipDeclaration _ =>
      match visit fuel thing parameters s with
      | Returned _ s' | Thrown _ s' =>
          stack s' = stack s /\
          forall (l : loc) o, heap s !! l = Some o -> heap s' !! l = Some o
      | OutOfFuel => False
      end
  | ThingOther json =>
      visit fuel thing parameters s = Thrown (Error ("Unrecognised " +:+ json)) s
  end.
Proof.
  destruct thing as [c | r | f | json]; unfold visit, visit_.
  - exact (popsStack_visitClassDeclaration fuel c parameters s).
  - pose proof (keepsStack_visitRelationshipDeclaration r parameters s) as Hstack.
    pose proof (framed_visitRelationshipDeclaration r parameters s) as Hstore.
    pose proof (settles_visitRelationshipDeclaration r parameters s) as Hsettles.
    destruct (visitRelationshipDeclaration r parameters s); auto.
  - pose proof (keepsStack_visitField_ (visitClassDeclaration fuel) f parameters
                  (popsStack_visitClassDeclaration fuel) s) as Hstack.
    pose proof (framed_visitField_ (visitClassDeclaration fuel) f parameters
                  (fillsTop_visitClassDeclaration fuel) s) as Hstore.
    destruct (visitField_ (visitClassDeclaration fuel) f parameters s); auto.
  - reflexivity.
Qed.

(** *** Failure inside the loop *)

(** X2. The loop of [visitClassDeclaration] has no handler: when the visit
    of a property throws, whatever the error, [generate] ends with that
    very throw in the state the failing visit left; the stack is as
    [generate] found it and the instance holds exactly what the properties
    before the failing one gave it. *)
Theorem first_throw_aborts (fuel : nat) (targetType : ClassDeclaration.t)
    (instance : loc) (parameters : Parameters)
    (before after : list Property) (property : Property)
    (s s1 s2 : State) (e : exn) :
  ClassDeclaration.getProperties targetType = before ++ property :: after ->
  is_Some (heap s !! instance) ->
  forProperties (visitClassDeclaration fuel) (Some instance) before parameters s
    = Returned tt s1 ->
  isNull (readProperty s1 instance (Property_getName property)) = true ->
  Property_accept (visitClassDeclaration fuel) property parameters s1 = Thrown e s2 ->
  generate (S fuel) targetType instance parameters s = Thrown e s2 /\
  stack s2 = stack s /\
  heap s2 !! instance = heap s1 !! instance.
Proof.
  intros Hprops Hvalid Hbefore Hnull Hthrow.
  split; [| split].
  - rewrite generate_entered, State_eta, Hprops, forProperties_app.
    unfold bind at 1. rewrite Hbefore. rewrite forProperties_cons, Hnull, Hthrow.
    reflexivity.
  - pose proof (keepsStack_forProperties (visitClassDeclaration fuel) (Some instance)
                  before parameters (popsStack_visitClassDeclaration fuel) s) as H01.
    rewrite Hbefore in H01.
    pose proof (keepsStack_Property_accept (visitClassDeclaration fuel) property
                  parameters (popsStack_visitClassDeclaration fuel) s1) as H12.
    rewrite Hthrow in H12. simpl in H01, H12. congruence.
  - pose proof (forProperties_fills (visitClassDeclaration fuel) instance before
                  parameters (fillsTop_visitClassDeclaration fuel) s Hvalid) as H01.
    rewrite Hbefore in H01.
    destruct (fills_valid instance instance s s1 H01 Hvalid) as [o1 Ho1].
    pose proof (framed_Property_accept (visitClassDeclaration fuel) property
                  parameters (fillsTop_visitClassDeclaration fuel) s1) as H12.
    rewrite Hthrow in H12. rewrite (H12 instance o1 Ho1), Ho1. reflexivity.
Qed.

(** *** What a returned instance looks like *)

(** The primitive methods of [g] never answer null or undefined. *)
Definition answersValues (g : ValueGenerator World) : Prop :=
  forall w,
    isNull (fst (getDateTime g w)) = false /\
    isNull (fst (getInteger g w)) = false /\
    isNull (fst (getLong g w)) = false /\
    isNull (fst (getDouble g w)) = false /\
    isNull (fst (getBoolean g w)) = false /\
    isNull (fst (getString g w)) = false.

(** The instance that lines 135-147 have the factory build for
    [classDeclaration] in state [s], and the state in which its class
    declaration is entered. *)
Definition builtInstance (parameters : Parameters) (classDeclaration : ClassDeclaration.t)
    (s : State) : Instance :=
  if ClassDeclaration.isConcept classDeclaration then
    mkInstance Concept
      (ClassDeclaration.getNamespace classDeclaration)
      (ClassDeclaration.getName classDeclaration) None ∅
  else
    Factory_resource (factory parameters)
      (ClassDeclaration.getNamespace classDeclaration)
      (ClassDeclaration.getName classDeclaration)
      (identifier_of_sample
         (ClassDeclaration.getIdentifierFieldName classDeclaration)
         (fst (Math_random (world s)))).

Definition descended (parameters : Parameters) (classDeclaration : ClassDeclaration.t)
    (s : State) : State :=
  mkState (length (heap s) :: stack s)
          (heap s ++ [builtInstance parameters classDeclaration s])
          (if ClassDeclaration.isConcept classDeclaration then world s
           else snd (Math_random (world s))).

Lemma newInstance_run (visitClass : ClassDeclaration.t -> Parameters -> M value)
    (classDeclaration : ClassDeclaration.t) (parameters : Parameters) (s : State) :
  newInstance visitClass classDeclaration parameters s =
  if Factory_declares (factory parameters)
       (ClassDeclaration.getNamespace classDeclaration)
       (ClassDeclaration.getName classDeclaration)
  then visitClass classDeclaration parameters (descended parameters classDeclaration s)
  else Thrown (TypeNotFound (ClassDeclaration.getNamespace classDeclaration +:+ "."
                             +:+ ClassDeclaration.getName classDeclaration))
              (mkState (stack s) (heap s)
                 (if ClassDeclaration.isConcept classDeclaration then world s
                  else snd (Math_random (world s)))).
Proof.
  unfold newInstance, descended, builtInstance.
  destruct (ClassDeclaration.isConcept classDeclaration).
  - unfold bind at 1. unfold newConcept. unfold bind at 1. unfold Factory_validate.
    destruct (Factory_declares _ _ _); [reflexivity |].
    unfold throw. destruct s; reflexivity.
  - unfold bind at 1. rewrite newIdentifier_run. unfold bind at 1.
    unfold newResource. unfold bind at 1. unfold Factory_validate.
    destruct (Factory_declares _ _ _); reflexivity.
Qed.

Lemma visitClassDeclaration_returns_top (n : nat) (classDeclaration : ClassDeclaration.t)
    (parameters : Parameters) (s s' : State) (top : loc) (rest : list loc) (v : value) :
  stack s = top :: rest ->
  visitClassDeclaration n classDeclaration parameters s = Returned v s' ->
  v = VObject top.
Proof.
  intros Hstack Hrun. destruct n as [| n]; [discriminate Hrun |].
  rewrite (visitClassDeclaration_entered n classDeclaration parameters top rest s Hstack)
    in Hrun.
  unfold bind, ret in Hrun.
  destruct (forProperties _ _ _ _ _) as [[] s1 | |]; inversion Hrun. reflexivity.
Qed.

(** A class-typed field comes back as the object that was built for it. *)
Lemma newInstance_Returned (n : nat) (classDeclaration : ClassDeclaration.t)
    (parameters : Parameters) (s s' : State) (v : value) :
  newInstance (visitClassDeclaration n) classDeclaration parameters s = Returned v s' ->
  v = VObject (length (heap s)) /\
  exists o, heap s' !! length (heap s) = Some o /\
            Instance_filled (builtInstance parameters classDeclaration s) o.
Proof.
  rewrite newInstance_run. destruct (Factory_declares _ _ _); [| discriminate].
  intros Hrun.
  assert (Hstack : stack (descended parameters classDeclaration s) = length (heap s) :: stack s)
    by reflexivity.
  split; [exact (visitClassDeclaration_returns_top n _ _ _ _ _ _ _ Hstack Hrun) |].
  assert (Hbuilt : heap (descended parameters classDeclaration s) !! length (heap s)
                   = Some (builtInstance parameters classDeclaration s)).
  { unfold descended; simpl. rewrite lookup_app_r by lia.
    rewrite Nat.sub_diag. reflexivity. }
  pose proof (fillsTop_visitClassDeclaration n classDeclaration parameters
                (descended parameters classDeclaration s) (length (heap s)) (stack s) Hstack
                (ex_intro _ _ Hbuilt)) as Hfills.
  rewrite Hrun in Hfills.
  destruct (Hfills _ _ Hbuilt) as (o & Ho & _ & Hsame).
  exists o. split; [exact Ho | exact (Hsame eq_refl)].
Qed.

Lemma primitiveValue_Returned (g : ValueGenerator World) (type : string)
    (s s' : State) (v : value) :
  answersValues g -> primitiveValue g type s = Returned v s' -> isNull v = false.
Proof.
  intros Hg. destruct (Hg (world s)) as (H1 & H2 & H3 & H4 & H5 & H6).
  unfold primitiveValue.
  repeat match goal with |- context [if ?b then _ else _] => destruct b end;
    rewrite lift_world_called; unfold called; intros Hrun; inversion Hrun; assumption.
Qed.

Lemma getFieldValue_not_null (n : nat) (field : Field.t) (parameters : Parameters)
    (s s' : State) (v : value) :
  answersValues (default ValueGeneratorFactory_sample (valueGenerator parameters)) ->
  getFieldValue n field parameters s = Returned v s' -> isNull v = false.
Proof.
  intros Hg.
  destruct (isPrimitiveType (Field.getFullyQualifiedTypeName field)) eqn:Hprim.
  - unfold getFieldValue, getFieldValue_. rewrite Hprim.
    apply primitiveValue_Returned, Hg.
  - destruct (ModelManager.getType (modelManager parameters)
                (Field.getFullyQualifiedTypeName field)) as [[d | e] |] eqn:Htype.
    + rewrite (getFieldValue_class n field parameters d s Hprim Htype).
      destruct (findExtendingLeafType _ d) as [[c |] | err]; try discriminate;
        intros Hrun; apply newInstance_Returned in Hrun as [-> _]; reflexivity.
    + rewrite (getFieldValue_enum n field parameters e s Hprim Htype).
      destruct (fst _); intros Hrun; inversion Hrun. reflexivity.
    + unfold getFieldValue, getFieldValue_. rewrite Hprim. unfold getType.
      rewrite Htype. discriminate.
Qed.

Lemma Property_accept_not_null (n : nat) (property : Property) (parameters : Parameters)
    (s s' : State) (v : value) :
  answersValues (default ValueGeneratorFactory_sample (valueGenerator parameters)) ->
  Property_accept (visitClassDeclaration n) property parameters s = Returned v s' ->
  isNull v = false.
Proof.
  intros Hg. destruct property as [f | r]; simpl.
  - unfold visitField_. destruct (Field.isArray f).
    + unfold bind, ret. destruct (repeatM 3 _ s); intros Hrun; inversion Hrun.
      reflexivity.
    + apply (getFieldValue_not_null n f parameters s s' v Hg).
  - unfold visitRelationshipDeclaration. unfold bind at 1. unfold getType.
    destruct (ModelManager.getType _ _) as [[target | e] |]; try discriminate.
    unfold ret at 1. destruct (RelationshipDeclaration.isArray r).
    + unfold bind at 1. unfold ret. destruct (repeatM 3 _ s); intros Hrun; inversion Hrun.
      reflexivity.
    + unfold bind, ret.
      destruct (newIdentifier _ s) as [id s1 | |]; try discriminate.
      destruct (newRelationship _ _ _ _ s1); intros Hrun; inversion Hrun. reflexivity.
Qed.

Lemma forProperties_populates (n : nat) (l : loc) (parameters : Parameters)
    (properties : list Property) :
  answersValues (default ValueGeneratorFactory_sample (valueGenerator parameters)) ->
  forall s s',
    is_Some (heap s !! l) ->
    forProperties (visitClassDeclaration n) (Some l) properties parameters s
      = Returned tt s' ->
    forall property, In property properties ->
      isNull (readProperty s' l (Property_getName property)) = false.
Proof.
  intros Hg. induction properties as [| head rest IH]; intros s s' Hvalid Hrun property Hin.
  - destruct Hin.
  - rewrite forProperties_cons in Hrun.
    pose proof (fillsTop_visitClassDeclaration n) as Hfills.
    destruct (isNull (readProperty s l (Property_getName head))) eqn:Hhead.
    + pose proof (framed_Property_accept _ head parameters Hfills s) as Hframed.
      destruct (Property_accept (visitClassDeclaration n) head parameters s)
        as [generated s1 | |] eqn:Haccept; try discriminate.
      assert (Hvalid1 : is_Some (heap s1 !! l)) by (eapply framed_valid; eassumption).
      set (s2 := written l (Property_getName head) generated s1) in *.
      assert (Hvalid2 : is_Some (heap s2 !! l)).
      { apply (fills_valid l l s1); [| exact Hvalid1].
        apply written_fills. rewrite (framed_readProperty s s1); assumption. }
      destruct Hin as [<- | Hin]; [| exact (IH s2 s' Hvalid2 Hrun property Hin)].
      pose proof (forProperties_fills _ l rest parameters Hfills s2 Hvalid2) as Hrest.
      rewrite Hrun in Hrest.
      assert (Hread : readProperty s2 l (Property_getName head) = generated)
        by (apply readProperty_written_same, Hvalid1).
      assert (Hgenerated : isNull generated = false)
        by (eapply Property_accept_not_null; eassumption).
      rewrite (fills_readProperty s2 s' l _ Hrest); rewrite Hread; exact Hgenerated.
    + destruct Hin as [<- | Hin]; [| exact (IH s s' Hvalid Hrun property Hin)].
      pose proof (forProperties_fills _ l rest parameters Hfills s Hvalid) as Hrest.
      rewrite Hrun in Hrest.
      rewrite (fills_readProperty s s' l _ Hrest); exact Hhead.
Qed.

(** X3. When [generate] returns, it returns the instance it was given, and
    every property that the class declares holds a value on it that is
    neither null nor unset, as long as the primitive methods of the value
    generator in use answer such values. *)
Theorem generated_instance_populated (fuel : nat) (targetType : ClassDeclaration.t)
    (instance : loc) (parameters : Parameters) (s s' : State) (v : value) :
  answersValues (default ValueGeneratorFactory_sample (valueGenerator parameters)) ->
  is_Some (heap s !! instance) ->
  generate fuel targetType instance parameters s = Returned v s' ->
  v = VObject instance /\
  forall property, In property (ClassDeclaration.getProperties targetType) ->
    isNull (readProperty s' instance (Property_getName property)) = false.
Proof.
  intros Hg Hvalid Hrun. destruct fuel as [| n]; [discriminate Hrun |].
  rewrite generate_entered, State_eta in Hrun.
  destruct (forProperties (visitClassDeclaration n) (Some instance)
              (ClassDeclaration.getProperties targetType) parameters s)
    as [[] s1 | |] eqn:Hloop; inversion Hrun; subst.
  split; [reflexivity |].
  exact (forProperties_populates n instance parameters _ Hg s s' Hvalid Hloop).
Qed.

(** X4. The value generated for a field of class type is an object of its
    own: it sits at a location that was free before, it is a Concept when
    the resolved declaration is a concept and otherwise a Resource with a
    new identifier, which it also holds in its identifier field; it
    carries the namespace and the name of the resolved declaration, and
    every property that declaration declares holds a value on it (as long
    as the primitive methods of the value generator answer values). *)
Theorem class_field_is_new_instance (fuel : nat) (field : Field.t)
    (parameters : Parameters) (declared resolved : ClassDeclaration.t)
    (s s' : State) (v : value) :
  isPrimitiveType (Field.getFullyQualifiedTypeName field) = false ->
  ModelManager.getType (modelManager parameters) (Field.getFullyQualifiedTypeName field)
    = Some (DeclClass declared) ->
  findExtendingLeafType (modelManager parameters) declared = Ok (Some resolved) ->
  getFieldValue fuel field parameters s = Returned v s' ->
  v = VObject (length (heap s)) /\
  heap s !! length (heap s) = None /\
  exists o,
    heap s' !! length (heap s) = Some o /\
    inst_kind o = (if ClassDeclaration.isConcept resolved then Concept else Resource) /\
    inst_namespace o = ClassDeclaration.getNamespace resolved /\
    inst_type o = ClassDeclaration.getName resolved /\
    inst_identifier o
      = (if ClassDeclaration.isConcept resolved then None
         else Some (identifier_of_sample
                      (ClassDeclaration.getIdentifierFieldName resolved)
                      (fst (Math_random (world s))))) /\
    (forall idField,
       ClassDeclaration.isConcept resolved = false ->
       Factory_identifierFieldName (factory parameters)
         (ClassDeclaration.getNamespace resolved) (ClassDeclaration.getName resolved)
         = Some idField ->
       Instance_get o idField
         = VString (identifier_of_sample
                      (ClassDeclaration.getIdentifierFieldName resolved)
                      (fst (Math_random (world s))))) /\
    (answersValues (default ValueGeneratorFactory_sample (valueGenerator parameters)) ->
     forall property, In property (ClassDeclaration.getProperties resolved) ->
       isNull (Instance_get o (Property_getName property)) = false).
Proof.
  intros Hprim Htype Hleaf Hrun.
  rewrite (getFieldValue_class fuel field parameters declared s Hprim Htype) in Hrun.
  rewrite Hleaf in Hrun.
  destruct (newInstance_Returned fuel resolved parameters s s' v Hrun)
    as (Hv & o & Ho & Hk & Hn & Ht & Hi & Hkept).
  split; [exact Hv |]. split; [apply lookup_ge_None; lia |].
  exists o. split; [exact Ho |].
  assert (Hfilled : answersValues
                      (default ValueGeneratorFactory_sample (valueGenerator parameters)) ->
                    forall property, In property (ClassDeclaration.getProperties resolved) ->
                      isNull (Instance_get o (Property_getName property)) = false).
  { intros Hg property Hin.
    rewrite newInstance_run in Hrun.
    destruct (Factory_declares _ _ _); [| discriminate Hrun].
    destruct fuel as [| n]; [discriminate Hrun |].
    rewrite (visitClassDeclaration_entered n resolved parameters (length (heap s))
               (stack s) (descended parameters resolved s) eq_refl) in Hrun.
    unfold bind, ret in Hrun.
    destruct (forProperties (visitClassDeclaration n) (Some (length (heap s)))
                (ClassDeclaration.getProperties resolved) parameters _)
      as [[] s1 | |] eqn:Hloop; inversion Hrun; subst s1.
    assert (Hvalid : is_Some (heap (mkState (stack s)
                                 (heap (descended parameters resolved s))
                                 (world (descended parameters resolved s)))
                              !! length (heap s)))
      by (simpl; apply lookup_lt_is_Some; rewrite length_app; simpl; lia).
    pose proof (forProperties_populates n (length (heap s)) parameters _ Hg _ s'
                  Hvalid Hloop property Hin) as Hpop.
    unfold readProperty in Hpop. rewrite Ho in Hpop. exact Hpop. }
  unfold builtInstance in Hk, Hn, Ht, Hi, Hkept.
  destruct (ClassDeclaration.isConcept resolved) eqn:Hconcept;
    simpl in Hk, Hn, Ht, Hi, Hkept.
  - repeat split; try assumption. intros idField Hno. discriminate Hno.
  - repeat split; try assumption. intros idField _ Hfield.
    rewrite Hfield in Hkept. unfold Instance_get.
    rewrite (Hkept idField _ (lookup_insert_eq _ _ _) eq_refl). reflexivity.
Qed.

(** X8. The three elements generated for an array field of class type are
    three different objects, none of which was in the store before. *)
Theorem array_elements_are_distinct_instances (fuel : nat) (field : Field.t)
    (parameters : Parameters) (declared : ClassDeclaration.t)
    (s s' : State) (v : value) :
  Field.isArray field = true ->
  isPrimitiveType (Field.getFullyQualifiedTypeName field) = false ->
  ModelManager.getType (modelManager parameters) (Field.getFullyQualifiedTypeName field)
    = Some (DeclClass declared) ->
  visitField fuel field parameters s = Returned v s' ->
  exists a b c : loc,
    v = VArray [VObject a; VObject b; VObject c] /\
    (length (heap s) <= a)%nat /\ (a < b)%nat /\ (b < c)%nat /\
    (c < length (heap s'))%nat.
Proof.
  intros Harr Hprim Htype Hrun.
  assert (Hone : forall s0 s1 v0,
            getFieldValue fuel field parameters s0 = Returned v0 s1 ->
            v0 = VObject (length (heap s0)) /\ (length (heap s0) < length (heap s1))%nat).
  { intros s0 s1 v0 Hvalue.
    rewrite (getFieldValue_class fuel field parameters declared s0 Hprim Htype) in Hvalue.
    destruct (findExtendingLeafType _ declared) as [[c |] | err]; try discriminate;
      apply newInstance_Returned in Hvalue as (-> & o & Ho & _);
      (split; [reflexivity | apply lookup_lt_Some in Ho; exact Ho]). }
  unfold visitField, visitField_ in Hrun. rewrite Harr in Hrun.
  unfold bind at 1 in Hrun.
  destruct (repeatM 3 _ s) as [result s0 | |] eqn:Hthree; try discriminate.
  unfold ret in Hrun. inversion Hrun; subst.
  apply repeatM_three_Returned in Hthree.
  destruct Hthree as (v1 & v2 & v3 & s1 & s2 & H1 & H2 & H3 & ->).
  destruct (Hone _ _ _ H1) as [-> Hlt1].
  destruct (Hone _ _ _ H2) as [-> Hlt2].
  destruct (Hone _ _ _ H3) as [-> Hlt3].
  exists (length (heap s)), (length (heap s1)), (length (heap s2)).
  repeat split; [lia | exact Hlt1 | exact Hlt2 | exact Hlt3].
Qed.

(** *** When two identifiers coincide *)

Lemma digit_injective (a b : Z) :
  0 <= a < 10 -> 0 <= b < 10 -> digit a = digit b -> a = b.
Proof.
  intros Ha Hb Heq. apply (f_equal nat_of_ascii) in Heq. unfold digit in Heq.
  rewrite !nat_ascii_embedding in Heq by lia. lia.
Qed.

Lemma fourDigits_injective (n m : Z) :
  0 <= n <= 9999 -> 0 <= m <= 9999 -> fourDigits n = fourDigits m -> n = m.
Proof.
  intros Hn Hm Heq. unfold fourDigits in Heq.
  inversion Heq as [[H3 H2 H1 H0']].
  assert (Hn3 : 0 <= n / 1000 < 10)
    by (split; [apply Z.div_pos | apply Z.div_lt_upper_bound]; lia).
  assert (Hm3 : 0 <= m / 1000 < 10)
    by (split; [apply Z.div_pos | apply Z.div_lt_upper_bound]; lia).
  apply digit_injective in H3; [| assumption | assumption].
  apply digit_injective in H2; [| apply Z.mod_pos_bound; lia | apply Z.mod_pos_bound; lia].
  apply digit_injective in H1; [| apply Z.mod_pos_bound; lia | apply Z.mod_pos_bound; lia].
  apply digit_injective in H0'; [| apply Z.mod_pos_bound; lia | apply Z.mod_pos_bound; lia].
  assert (Hsplit : forall k, k = 10 * (10 * (10 * (k / 1000) + k / 100 mod 10)
                                       + k / 10 mod 10) + k mod 10).
  { intros k.
    assert (E2 : k / 100 = k / 10 / 10) by (rewrite Z.div_div by lia; reflexivity).
    assert (E3 : k / 1000 = k / 10 / 10 / 10) by (rewrite !Z.div_div by lia; reflexivity).
    rewrite E3, E2.
    rewrite <- (Z.div_mod (k / 10 / 10) 10) by lia.
    rewrite <- (Z.div_mod (k / 10) 10) by lia.
    apply Z.div_mod. lia. }
  rewrite (Hsplit n), (Hsplit m). congruence.
Qed.

Lemma append_cancel (prefix a b : string) : prefix +:+ a = prefix +:+ b -> a = b.
Proof.
  induction prefix as [| ch prefix IH]; simpl; intros Heq; [exact Heq |].
  inversion Heq. apply IH. assumption.
Qed.

Lemma append_length (a b : string) :
  String.length (a +:+ b) = (String.length a + String.length b)%nat.
Proof. induction a as [| ch a IH]; simpl; [reflexivity | rewrite IH; reflexivity]. Qed.

(** X7. Two identifiers built for the same identifier field from samples of
    the random source are the same string exactly when [Math.round] makes
    the same integer of the two binary64 products with 9999, whether or not
    the samples are the same; and an identifier is five characters longer
    than the name of the identifier field. *)
Theorem identifier_collision (identifierFieldName : option string) (r1 r2 : binary64) :
  isSample r1 = true -> isSample r2 = true ->
  (identifier_of_sample identifierFieldName r1
     = identifier_of_sample identifierFieldName r2 <->
   Math_round (Number_multiply r1 (Number_of_Z 9999))
     = Math_round (Number_multiply r2 (Number_of_Z 9999))) /\
  String.length (identifier_of_sample identifierFieldName r1)
    = (String.length (template_string identifierFieldName) + 5)%nat.
Proof.
  intros Hr1 Hr2.
  destruct (identifier_of_sample_format identifierFieldName r1 Hr1)
    as (n1 & Hn1 & Hround1 & Hid1).
  destruct (identifier_of_sample_format identifierFieldName r2 Hr2)
    as (n2 & Hn2 & Hround2 & Hid2).
  rewrite Hid1, Hid2, Hround1, Hround2.
  split.
  - split.
    + intros Heq. apply append_cancel in Heq. apply append_cancel in Heq.
      f_equal. apply fourDigits_injective; assumption.
    + intros Heq. inversion Heq. reflexivity.
  - rewrite !append_length. reflexivity.
Qed.

(** X13. Generating again on an instance that [generate] has returned is a
    no-op: with any budget it returns the same instance and leaves the
    stack, the store and the random source exactly as they are (as long as
    the primitive methods of the value generator answer values). *)
Theorem regeneration_changes_nothing (fuel again : nat) (targetType : ClassDeclaration.t)
    (instance : loc) (parameters : Parameters) (s s' : State) (v : value) :
  answersValues (default ValueGeneratorFactory_sample (valueGenerator parameters)) ->
  is_Some (heap s !! instance) ->
  generate fuel targetType instance parameters s = Returned v s' ->
  generate (S again) targetType instance parameters s' = Returned v s'.
Proof.
  intros Hg Hvalid Hrun. destruct fuel as [| n]; [discriminate Hrun |].
  rewrite generate_entered, State_eta in Hrun.
  destruct (forProperties (visitClassDeclaration n) (Some instance)
              (ClassDeclaration.getProperties targetType) parameters s)
    as [[] s1 | |] eqn:Hloop; inversion Hrun; subst.
  rewrite generate_entered, State_eta.
  rewrite forProperties_populated; [reflexivity |].
  exact (forProperties_populates n instance parameters _ Hg s s' Hvalid Hloop).
Qed.

(** X14. Leaf resolution never answers null, so the test of line 129 always
    passes.  When the resolution of lines 127-133 goes through, the
    declaration an instance is built from is not abstract, resolving it
    again gives the same declaration, and it is either the declared one or
    a declaration of the schema whose direct supertype is the declared
    one; when it throws, the declared one is abstract.  Either way the
    state is untouched. *)
Theorem resolved_declaration_is_concrete (parameters : Parameters)
    (classDeclaration : ClassDeclaration.t) (s : State) :
  findExtendingLeafType (modelManager parameters) classDeclaration <> Ok None /\
  match resolveClassDeclaration parameters classDeclaration s with
  | Returned c s' =>
      s' = s /\
      ClassDeclaration.isAbstract c = false /\
      resolveClassDeclaration parameters c s = Returned c s /\
      (c = classDeclaration \/
       (ClassDeclaration.isAbstract classDeclaration = true /\
        In c (ModelManager.getClassDeclarations (modelManager parameters)) /\
        ClassDeclaration.getSuperType c
          = Some (ClassDeclaration.getFullyQualifiedName classDeclaration)))
  | Thrown e s' =>
      s' = s /\ ClassDeclaration.isAbstract classDeclaration = true
  | OutOfFuel => False
  end.
Proof.
  split.
  - unfold findExtendingLeafType.
    destruct (ClassDeclaration.isAbstract classDeclaration); [| discriminate].
    destruct (List.filter _ _); discriminate.
  - rewrite resolveClassDeclaration_runs.
    destruct (ClassDeclaration.isAbstract classDeclaration) eqn:Habs.
    + unfold findExtendingLeafType. rewrite Habs.
      destruct (List.filter _ _) as [| first rest] eqn:Hfilter.
      * split; reflexivity.
      * destruct (filter_head _ _ _ _ Hfilter) as (before & after & Hsplit & Hc & _).
        apply isContender_spec in Hc. destruct Hc as [Hsuper Hconcrete].
        split; [reflexivity |]. split; [exact Hconcrete |]. split.
        -- rewrite resolveClassDeclaration_runs.
           rewrite (findExtendingLeafType_concrete _ _ Hconcrete). reflexivity.
        -- right. split; [reflexivity |]. split; [| exact Hsuper].
           rewrite Hsplit. apply in_or_app. right. left. reflexivity.
    + rewrite (findExtendingLeafType_concrete _ _ Habs).
      split; [reflexivity |]. split; [exact Habs |]. split.
      * rewrite resolveClassDeclaration_runs.
        rewrite (findExtendingLeafType_concrete _ _ Habs). reflexivity.
      * left. reflexivity.
Qed.

End Properties.

(** ** The properties at work on the sample schema *)

Import Sample.

(** The DateTime field of the sample schema is generated by one call of
    [getDateTime]. *)
Lemma primitive_field_dispatch_witness :
  Field.isArray founded = false /\
  isPrimitiveType (Field.getFullyQualifiedTypeName founded) = true /\
  visitField 0 founded parameters emptyStore
    = Returned (VDateTime 3) (mkState [] [] 4).
Proof.
  split; [reflexivity |]. split; [reflexivity |].
  exact (proj1 (primitive_field_dispatch 0 founded parameters emptyStore
                  eq_refl eq_refl) eq_refl).
Defined.

(** The Colour field holds the name of a Colour literal. *)
Lemma enum_field_value_witness :
  isPrimitiveType (Field.getFullyQualifiedTypeName paint) = false /\
  ModelManager.getType schema (Field.getFullyQualifiedTypeName paint)
    = Some (DeclEnum Colour) /\
  (forall w, exists literal,
      fst (getEnum emptyGenerator (EnumDeclaration.getOwnProperties Colour) w)
        = Some literal /\
      In literal (EnumDeclaration.getOwnProperties Colour)) /\
  exists literal s',
    In literal (EnumDeclaration.getOwnProperties Colour) /\
    getFieldValue 0 paint emptyParameters emptyStore
      = Returned (VString (EnumValueDeclaration.getName literal)) s' /\
    (Field.isArray paint = false ->
     visitField 0 paint emptyParameters emptyStore
       = Returned (VString (EnumValueDeclaration.getName literal)) s').
Proof.
  assert (Hmember : forall w : Z, exists literal,
            fst (getEnum emptyGenerator (EnumDeclaration.getOwnProperties Colour) w)
              = Some literal /\
            In literal (EnumDeclaration.getOwnProperties Colour)).
  { intros w. exists (EnumValueDeclaration.mk "RED"). split; [reflexivity |].
    left. reflexivity. }
  split; [reflexivity |]. split; [reflexivity |]. split; [exact Hmember |].
  exact (proj1 (enum_field_value 0 paint emptyParameters Colour emptyStore
                  eq_refl eq_refl Hmember)).
Defined.

(** The vehicles of a Person are three new Relationships, each with its own
    identifier. *)
Lemma array_property_three_elements_witness :
  RelationshipDeclaration.isArray vehicles = true /\
  ModelManager.getType schema "org.acme.Vehicle" = Some (DeclClass Vehicle) /\
  Factory_declares (factory parameters) "org.acme" "Vehicle" = true /\
  visitRelationshipDeclaration vehicles parameters personStore
    = Returned (VArray [VObject 1%nat; VObject 2%nat; VObject 3%nat])
        (mkState []
           [emptyResource "Person" "P1";
            mkInstance Relationship "org.acme" "Vehicle" (Some "vin:3757") ∅;
            mkInstance Relationship "org.acme" "Vehicle" (Some "vin:1676") ∅;
            mkInstance Relationship "org.acme" "Vehicle" (Some "vin:9594") ∅] 6).
Proof.
  split; [reflexivity |]. split; [reflexivity |]. split; [reflexivity |].
  exact (proj1 (proj2 (array_property_three_elements 0 parameters personStore)
                  vehicles Vehicle eq_refl eq_refl eq_refl)).
Defined.

(** Animal resolves to Fish, its first direct concrete subclass, and not to
    Dog, which comes earlier in the schema but extends Mammal. *)
Lemma leaf_resolution_first_direct_concrete_witness :
  ClassDeclaration.isAbstract Animal = true /\
  findExtendingLeafType schema Animal = Ok (Some Fish) /\
  firstDirectConcrete (ModelManager.getClassDeclarations schema) "org.acme.Animal" Fish /\
  ClassDeclaration.getSuperType Dog = Some "org.acme.Mammal" /\
  ~ firstDirectConcrete (ModelManager.getClassDeclarations schema) "org.acme.Animal" Dog.
Proof.
  pose proof (leaf_resolution_first_direct_concrete parameters Animal Fish eq_refl)
    as (Hfish & _ & _).
  pose proof (leaf_resolution_first_direct_concrete parameters Animal Dog eq_refl)
    as (Hdog & _ & _).
  split; [reflexivity |]. split; [reflexivity |].
  split; [apply Hfish; reflexivity |]. split; [reflexivity |].
  intros Hfirst. apply Hdog in Hfirst. discriminate Hfirst.
Defined.

(** Generating a Studio fails on its logo, a Shape, which nothing extends. *)
Lemma no_concrete_subtype_aborts_witness :
  isPrimitiveType "org.acme.Shape" = false /\
  ModelManager.getType schema "org.acme.Shape" = Some (DeclClass Shape) /\
  ClassDeclaration.isAbstract Shape = true /\
  (forall c, In c (ModelManager.getClassDeclarations schema) ->
     ClassDeclaration.getSuperType c = Some "org.acme.Shape" ->
     ClassDeclaration.isAbstract c = true) /\
  forProperties (visitClassDeclaration 0) (Some 0%nat) [stringField "studioId"]
    parameters studioStore = Returned tt studioStoreNamed /\
  generate 1 Studio 0%nat parameters studioStore
    = Thrown (Error "No concrete extending type for org.acme.Shape") studioStoreNamed.
Proof.
  assert (Hnone : forall c, In c (ModelManager.getClassDeclarations schema) ->
            ClassDeclaration.getSuperType c = Some "org.acme.Shape" ->
            ClassDeclaration.isAbstract c = true).
  { intros c Hin Hsuper. simpl in Hin.
    repeat (destruct Hin as [<- | Hin]; [first [reflexivity | discriminate Hsuper] |]).
    destruct Hin. }
  assert (Hbefore : forProperties (visitClassDeclaration 0) (Some 0%nat)
                      [stringField "studioId"] parameters studioStore
                    = Returned tt studioStoreNamed)
    by (vm_compute; reflexivity).
  split; [reflexivity |]. split; [reflexivity |]. split; [reflexivity |].
  split; [exact Hnone |]. split; [exact Hbefore |].
  exact (proj2 (proj2 (no_concrete_subtype_aborts 0 logo parameters Shape
                         eq_refl eq_refl eq_refl Hnone))
           Studio 0%nat [stringField "studioId"] [stringField "motto"]
           studioStore studioStoreNamed eq_refl Hbefore eq_refl).
Defined.

(** An identifier drawn for a Vehicle from a sample whose binary64 product
    with 9999 is halfway between 4098 and 4099. *)
Lemma identifier_format_witness :
  isSample (fst (Math_random (Runtime := MoreSamples.halfwayRuntime) (world emptyStore)))
    = true /\
  newIdentifier (H0 := MoreSamples.halfwayRuntime) (Some "vin") emptyStore
    = Returned "vin:4099" (mkState [] [] 4).
Proof.
  assert (Hsample : isSample (fst (Math_random (Runtime := MoreSamples.halfwayRuntime)
                                     (world emptyStore))) = true)
    by (vm_compute; reflexivity).
  split; [exact Hsample |].
  destruct (identifier_format (H0 := MoreSamples.halfwayRuntime) (Some "vin") emptyStore
              Hsample) as (n & Hn & Hround & Hlen & Hid & _).
  assert (Hn4099 : n = 4099) by (vm_compute in Hround; congruence).
  subst n. exact Hid.
Defined.

(** Generating the Address of a Farm leaves the stack as it was; visiting
    the Farm pops it. *)
Lemma stack_balance_witness :
  (exists v s', getFieldValue 1 address parameters farmStore = Returned v s') /\
  match getFieldValue 1 address parameters farmStore with
  | Returned _ s' | Thrown _ s' => stack s' = [0%nat]
  | OutOfFuel => True
  end /\
  match visitClassDeclaration 2 Farm parameters farmStore with
  | Returned v s' => v = VObject 0%nat /\ stack s' = []
  | Thrown _ s' => stack s' = []
  | OutOfFuel => True
  end.
Proof.
  pose proof (stack_balance 1 parameters farmStore) as (Hvalue & _ & Hclass & _).
  specialize (Hvalue address). specialize (Hclass Farm 0%nat [] eq_refl).
  destruct Hclass as [_ Hclass].
  split; [eexists; eexists; vm_compute; reflexivity |].
  split; [exact Hvalue | exact Hclass].
Defined.

(** A field of the concrete type Fish is built from Fish itself. *)
Lemma leaf_resolution_identity_on_concrete_witness :
  ClassDeclaration.isAbstract Fish = false /\
  findExtendingLeafType schema Fish = Ok (Some Fish) /\
  getFieldValue 1 pet parameters emptyStore
    = newInstance (visitClassDeclaration 1) Fish parameters emptyStore.
Proof.
  pose proof (leaf_resolution_identity_on_concrete 1 pet parameters Fish emptyStore
                eq_refl)
    as (_ & _ & Hsame & Hvalue).
  split; [reflexivity |]. split; [exact Hsame |].
  exact (Hvalue eq_refl eq_refl).
Defined.

(** A Vehicle keeps the colour its caller chose, and one that is fully
    populated is left as it is. *)
Lemma populated_properties_unchanged_witness :
  heap vehicleStore !! 0%nat = Some blueVehicle /\
  heap vehicleStore !! 1%nat = Some fullVehicle /\
  (exists s' o',
     generate 1 Vehicle 0%nat parameters vehicleStore = Returned (VObject 0%nat) s' /\
     heap s' !! 0%nat = Some o' /\
     inst_properties o' !! "colour" = Some (VString "BLUE") /\
     heap s' !! 1%nat = Some fullVehicle) /\
  generate 1 Vehicle 1%nat parameters vehicleStore
    = Returned (VObject 1%nat) vehicleStore.
Proof.
  pose proof (populated_properties_unchanged 1 Vehicle 0%nat parameters vehicleStore
                blueVehicle eq_refl) as (Hkept & _).
  pose proof (populated_properties_unchanged 0 Vehicle 1%nat parameters vehicleStore
                fullVehicle eq_refl) as (_ & Hfull).
  split; [reflexivity |]. split; [reflexivity |]. split.
  - assert (Hrun : exists s', generate 1 Vehicle 0%nat parameters vehicleStore
                               = Returned (VObject 0%nat) s')
      by (eexists; vm_compute; reflexivity).
    destruct Hrun as (s' & Hrun). rewrite Hrun in Hkept.
    destruct Hkept as ((o' & Ho' & Hprops) & Hothers).
    exists s', o'. split; [exact Hrun |]. split; [exact Ho' |]. split.
    + apply (Hprops "colour" (VString "BLUE")); reflexivity.
    + apply (Hothers 1%nat fullVehicle); [discriminate | reflexivity].
  - apply Hfull. intros property Hin. simpl in Hin.
    repeat (destruct Hin as [<- | Hin]; [reflexivity |]). destruct Hin.
Defined.

(** Nothing but Alpha is reached by value from Alpha, and nothing but
    Vehicle from Vehicle. *)
Lemma reachedByValue_Alpha (c : ClassDeclaration.t) :
  reachedByValue MoreSamples.mutualParameters MoreSamples.Alpha c -> c = MoreSamples.Alpha.
Proof.
  induction 1 as [| owner nested _ IH Hnests]; [reflexivity |]. subst owner.
  destruct Hnests as (field & declared & Hin & Hprim & _).
  simpl in Hin. destruct Hin as [Heq | [Heq | []]]; [| discriminate Heq].
  inversion Heq; subst field. discriminate Hprim.
Qed.

Lemma reachedByValue_Vehicle (c : ClassDeclaration.t) :
  reachedByValue parameters Vehicle c -> c = Vehicle.
Proof.
  induction 1 as [| owner nested _ IH Hnests]; [reflexivity |]. subst owner.
  destruct Hnests as (field & declared & Hin & Hprim & _).
  simpl in Hin.
  destruct Hin as [Heq | [Heq | [Heq | [Heq | []]]]];
    try discriminate Heq; inversion Heq; subst field; discriminate Hprim.
Qed.


(** ** The value generator chosen by the caller *)

Section GeneratorOverride.

Context {World : Type} `{Globalize}.

Variable random : World -> binary64 * World.
Variables default1 default2 : ValueGenerator World.

Local Abbreviation R1 := (Build_Runtime World random default1).
Local Abbreviation R2 := (Build_Runtime World random default2).

Lemma bind_pointwise {A B} (c1 c2 : M World A) (k1 k2 : A -> M World B) (s : State World) :
  (forall s0, c1 s0 = c2 s0) -> (forall a s0, k1 a s0 = k2 a s0) ->
  bind c1 k1 s = bind c2 k2 s.
Proof.
  intros Hc Hk. unfold bind. rewrite Hc. destruct (c2 s); [apply Hk | |]; reflexivity.
Qed.

Lemma repeatM_pointwise {A} (n : nat) (c1 c2 : M World A) :
  (forall s, c1 s = c2 s) -> forall s, repeatM n c1 s = repeatM n c2 s.
Proof.
  intros Hc. induction n as [| n IH]; intros s; simpl; [reflexivity |].
  apply bind_pointwise; [exact Hc |]. intros x s0.
  apply bind_pointwise; [exact IH |]. reflexivity.
Qed.

Section WithGenerator.

Variable parameters : Parameters World.
Variable g : ValueGenerator World.
Hypothesis chosen : valueGenerator parameters = Some g.

Variables visitClass1 visitClass2 : ClassDeclaration.t -> Parameters World -> M World value.
Hypothesis visitClass_same :
  forall classDeclaration s,
    visitClass1 classDeclaration parameters s = visitClass2 classDeclaration parameters s.

Lemma newInstance_override (classDeclaration : ClassDeclaration.t) (s : State World) :
  newInstance (H0 := R1) visitClass1 classDeclaration parameters s
  = newInstance (H0 := R2) visitClass2 classDeclaration parameters s.
Proof.
  unfold newInstance. destruct (ClassDeclaration.isConcept classDeclaration).
  - apply bind_pointwise; [reflexivity |]. intros concept s0.
    apply bind_pointwise; [reflexivity |]. intros _ s1. apply visitClass_same.
  - apply bind_pointwise; [reflexivity |]. intros id s0.
    apply bind_pointwise; [reflexivity |]. intros resource s1.
    apply bind_pointwise; [reflexivity |]. intros _ s2. apply visitClass_same.
Qed.

Lemma getFieldValue_override (field : Field.t) (s : State World) :
  getFieldValue_ (H0 := R1) visitClass1 field parameters s
  = getFieldValue_ (H0 := R2) visitClass2 field parameters s.
Proof.
  unfold getFieldValue_. rewrite chosen. simpl default.
  destruct (isPrimitiveType _); [reflexivity |].
  apply bind_pointwise; [reflexivity |]. intros [classDeclaration | e] s0.
  - apply bind_pointwise; [reflexivity |]. intros c s1. apply newInstance_override.
  - reflexivity.
Qed.

Lemma Property_accept_override (property : Property) (s : State World) :
  Property_accept (H0 := R1) visitClass1 property parameters s
  = Property_accept (H0 := R2) visitClass2 property parameters s.
Proof.
  destruct property as [f | r]; simpl; [| reflexivity].
  unfold visitField_. destruct (Field.isArray f); [| apply getFieldValue_override].
  apply bind_pointwise; [| reflexivity].
  apply repeatM_pointwise. apply getFieldValue_override.
Qed.

Lemma forProperties_override (obj : option nat) (properties : list Property)
    (s : State World) :
  forProperties (H0 := R1) visitClass1 obj properties parameters s
  = forProperties (H0 := R2) visitClass2 obj properties parameters s.
Proof.
  revert s. induction properties as [| property rest IH]; intros s; simpl.
  - reflexivity.
  - apply bind_pointwise; [reflexivity |]. intros v s0.
    apply bind_pointwise; [| intros _ s1; apply IH].
    intros s1. destruct (isNull v); [| reflexivity].
    apply bind_pointwise; [apply Property_accept_override | reflexivity].
Qed.

Lemma visitClassDeclaration_override_step (classDeclaration : ClassDeclaration.t)
    (s : State World) :
  visitClassDeclaration_ (H0 := R1) visitClass1 classDeclaration parameters s
  = visitClassDeclaration_ (H0 := R2) visitClass2 classDeclaration parameters s.
Proof.
  unfold visitClassDeclaration_.
  apply bind_pointwise; [reflexivity |]. intros obj s0.
  apply bind_pointwise; [apply forProperties_override | reflexivity].
Qed.

End WithGenerator.

Lemma visitClassDeclaration_override (parameters : Parameters World)
    (g : ValueGenerator World) (fuel : nat) :
  valueGenerator parameters = Some g ->
  forall classDeclaration s,
    visitClassDeclaration (H0 := R1) fuel classDeclaration parameters s
    = visitClassDeclaration (H0 := R2) fuel classDeclaration parameters s.
Proof.
  intros Hchosen. induction fuel as [| fuel IH]; intros classDeclaration s.
  - reflexivity.
  - simpl. apply (visitClassDeclaration_override_step parameters g Hchosen _ _ IH).
Qed.

(** X6. A value generator passed in [parameters] replaces the default one
    for the whole call, nested instances included: with it, generation does
    the same whatever [ValueGeneratorFactory.sample()] would have answered. *)
Theorem explicit_generator_overrides_default (parameters : Parameters World)
    (g : ValueGenerator World) (fuel : nat) (s : State World) :
  valueGenerator parameters = Some g ->
  (forall targetType instance,
     generate (H0 := R1) fuel targetType instance parameters s
     = generate (H0 := R2) fuel targetType instance parameters s) /\
  (forall field,
     visitField (H0 := R1) fuel field parameters s
     = visitField (H0 := R2) fuel field parameters s).
Proof.
  intros Hchosen.
  pose proof (visitClassDeclaration_override parameters g fuel Hchosen) as Hvisit.
  split.
  - intros targetType instance. unfold generate, bind, stack_push, visit, visit_.
    apply Hvisit.
  - intros field.
    exact (Property_accept_override parameters g Hchosen _ _ Hvisit (PropField field) s).
Qed.

End GeneratorOverride.

(** ** Properties of the issue-identity dialogue *)

Section IssueIdentityProperties.

Import IssueIdentity.

Context `{RegExpEngine}.

Lemma filterMatching_valid (term : string) (re : RegExp) (participantFQIs : list string) :
  RegExp_new term "gi" = Some re ->
  filterMatching term participantFQIs = Some (List.filter (RegExp_test re) participantFQIs).
Proof.
  intros Hre. induction participantFQIs as [| v rest IH]; simpl; [reflexivity |].
  rewrite Hre, IH. reflexivity.
Qed.

Lemma firstn_filter_sublist {A} (f : A -> bool) (n : nat) (l : list A) :
  sublist (firstn n (List.filter f l)) l.
Proof.
  transitivity (List.filter f l).
  - apply sublist_take.
  - induction l as [| a l IH]; simpl; [constructor |].
    destruct (f a); [apply sublist_skip | apply sublist_cons]; exact IH.
Qed.

(** X9. For a term that is not empty and is a valid expression, [search]
    answers with the first ten participants, in the order of the list, whose
    identifier the expression matches: never more than ten, nothing that
    is not in the list or does not match, and all the matching ones when
    they are ten or fewer. *)
Theorem search_first_ten_matches (participantFQIs : list string) (term : string)
    (re : RegExp) :
  term <> "" ->
  RegExp_new term "gi" = Some re ->
  exists results,
    search participantFQIs term = Some results /\
    results = firstn 10 (List.filter (RegExp_test re) participantFQIs) /\
    (length results <= 10)%nat /\
    sublist results participantFQIs /\
    (forall v, In v results -> In v participantFQIs /\ RegExp_test re v = true) /\
    ((length (List.filter (RegExp_test re) participantFQIs) <= 10)%nat ->
     forall v, In v participantFQIs -> RegExp_test re v = true -> In v results).
Proof.
  intros Hterm Hre.
  exists (firstn 10 (List.filter (RegExp_test re) participantFQIs)).
  assert (Hin_take : forall v,
            In v (firstn 10 (List.filter (RegExp_test re) participantFQIs)) ->
            In v (List.filter (RegExp_test re) participantFQIs)).
  { intros v Hin.
    rewrite <- (firstn_skipn 10 (List.filter (RegExp_test re) participantFQIs)).
    apply in_or_app. left. exact Hin. }
  split; [| split; [| split; [| split; [| split]]]].
  - unfold search. destruct (String.eqb_spec term "") as [Hempty | _]; [contradiction |].
    rewrite (filterMatching_valid term re participantFQIs Hre). reflexivity.
  - reflexivity.
  - rewrite length_take. lia.
  - apply firstn_filter_sublist.
  - intros v Hin. apply filter_In. apply Hin_take, Hin.
  - intros Hfew v Hin Hmatch. rewrite firstn_all2 by exact Hfew.
    apply filter_In. split; assumption.
Qed.

(** X10. Two edges of [search].  The empty term answers with no result at
    all, without any expression being built, although the empty expression
    matches every identifier.  A term that is not a valid expression makes
    [search] throw only when there is a participant to test it on: on an
    empty list it answers with the empty list. *)
Theorem search_edges (participantFQIs : list string) (term : string) :
  search participantFQIs "" = Some [] /\
  (term <> "" -> RegExp_new term "gi" = None ->
   (search [] term = Some [] /\
    (participantFQIs <> [] -> search participantFQIs term = None))).
Proof.
  split; [reflexivity |]. intros Hterm Hre. unfold search.
  destruct (String.eqb_spec term "") as [Hempty | _]; [contradiction |].
  split; [reflexivity |]. intros Hsome.
  destruct participantFQIs as [| v rest]; [contradiction |].
  simpl. rewrite Hre. reflexivity.
Qed.

Lemma startsWith_spec (prefix s : string) :
  startsWith prefix s = true <-> exists rest, s = prefix +:+ rest.
Proof.
  revert s. induction prefix as [| a prefix IH]; intros s; simpl.
  - split; [intros _; exists s; reflexivity | reflexivity].
  - destruct s as [| b s].
    + split; [discriminate | intros [rest Hrest]; discriminate].
    + rewrite andb_true_iff, Ascii.eqb_eq, IH. split.
      * intros [-> [rest ->]]. exists rest. reflexivity.
      * intros [rest Hrest]. inversion Hrest. split; [reflexivity | exists rest; reflexivity].
Qed.

Lemma includes_spec (needle hay : string) :
  includes needle hay = true <-> exists before after, hay = before +:+ needle +:+ after.
Proof.
  induction hay as [| b hay IH].
  - simpl. rewrite orb_false_r, startsWith_spec. split.
    + intros [rest Hrest]. exists "", rest. exact Hrest.
    + intros [before [after Heq]]. destruct before as [| c before]; [| discriminate].
      exists after. exact Heq.
  - simpl. rewrite orb_true_iff, startsWith_spec, IH. split.
    + intros [[rest Hrest] | [before [after ->]]].
      * exists "", rest. exact Hrest.
      * exists (String b before), after. reflexivity.
    + intros [before [after Heq]]. destruct before as [| c before].
      * left. exists after. exact Heq.
      * right. inversion Heq. exists before, after. reflexivity.
Qed.

(** What [connectionProfile[url]] can hold for the options to be built:
    nothing, a falsy value, or a string. *)
Definition wellFormedUrl (connectionProfile : gmap string value) (url : string) : Prop :=
  match connectionProfile !! url with
  | Some v => truthy v = true -> exists str, v = VString str
  | None => True
  end.

(** The value under [url] is a string in which [.blockchain.ibm.com] occurs. *)
Definition pointsToBluemix (connectionProfile : gmap string value) (url : string) : Prop :=
  exists before after,
    connectionProfile !! url = Some (VString (before +:+ ".blockchain.ibm.com" +:+ after)).

Lemma checkUrl_wellFormed (connectionProfile : gmap string value) (options : Options)
    (url : string) :
  wellFormedUrl connectionProfile url ->
  (pointsToBluemix connectionProfile url /\
   checkUrl connectionProfile options url = Ok (mkOptions (issuer options) (Some "group1")))
  \/ (~ pointsToBluemix connectionProfile url /\
      checkUrl connectionProfile options url = Ok options).
Proof.
  unfold wellFormedUrl, pointsToBluemix, checkUrl.
  destruct (connectionProfile !! url) as [v |] eqn:Hv; simpl.
  - intros Hstring. destruct (truthy v) eqn:Htruthy.
    + destruct (Hstring eq_refl) as [str ->].
      unfold matchesBluemix. destruct (includes _ str) eqn:Hincludes.
      * left. split; [| reflexivity]. apply includes_spec in Hincludes.
        destruct Hincludes as (before & after & ->). exists before, after. reflexivity.
      * right. split; [| reflexivity]. intros (before & after & Heq).
        inversion Heq; subst str.
        assert (Hyes : includes ".blockchain.ibm.com"
                         (before +:+ ".blockchain.ibm.com" +:+ after) = true)
          by (apply includes_spec; exists before, after; reflexivity).
        rewrite Hyes in Hincludes. discriminate.
    + right. split; [| reflexivity]. intros (before & after & Heq).
      inversion Heq; subst v.
      destruct before; discriminate Htruthy.
  - intros _. right. split; [| reflexivity]. intros (before & after & Heq). discriminate.
Qed.

Lemma pointsToBluemix_somewhere (connectionProfile : gmap string value)
    (urls : list string) :
  (forall url, In url urls -> wellFormedUrl connectionProfile url) ->
  (exists url, In url urls /\ pointsToBluemix connectionProfile url)
  \/ (forall url, In url urls -> ~ pointsToBluemix connectionProfile url).
Proof.
  induction urls as [| url rest IH]; intros Hurls.
  - right. intros url [].
  - destruct (checkUrl_wellFormed connectionProfile (mkOptions false None) url
                (Hurls url (or_introl eq_refl))) as [[Hyes _] | [Hno _]].
    + left. exists url. split; [left; reflexivity | exact Hyes].
    + destruct IH as [(u & Hu & Hpoints) | Hnone].
      * intros u Hu. apply Hurls. right. exact Hu.
      * left. exists u. split; [right; exact Hu | exact Hpoints].
      * right. intros u [<- | Hu]; [exact Hno | apply Hnone, Hu].
Qed.

Lemma forEachUrl_wellFormed (connectionProfile : gmap string value) (urls : list string) :
  (forall url, In url urls -> wellFormedUrl connectionProfile url) ->
  forall options,
    exists options',
      forEachUrl connectionProfile urls options = Ok options' /\
      issuer options' = issuer options /\
      (affiliation options = Some "group1" -> affiliation options' = Some "group1") /\
      ((exists url, In url urls /\ pointsToBluemix connectionProfile url) ->
       affiliation options' = Some "group1") /\
      ((forall url, In url urls -> ~ pointsToBluemix connectionProfile url) ->
       affiliation options' = affiliation options).
Proof.
  induction urls as [| url rest IH]; intros Hurls options.
  - exists options. simpl. repeat split; try reflexivity; try tauto.
    intros (url & [] & _).
  - assert (Hrest : forall u, In u rest -> wellFormedUrl connectionProfile u)
      by (intros u Hu; apply Hurls; right; exact Hu).
    simpl.
    destruct (checkUrl_wellFormed connectionProfile options url
                (Hurls url (or_introl eq_refl))) as [[Hyes ->] | [Hno ->]].
    + destruct (IH Hrest (mkOptions (issuer options) (Some "group1")))
        as (options' & Hrun & Hissuer & Hkeep & _ & _).
      exists options'. split; [exact Hrun |]. split; [exact Hissuer |].
      split; [intros _; apply Hkeep; reflexivity |].
      split; [intros _; apply Hkeep; reflexivity |].
      intros Hall. exfalso. apply (Hall url (or_introl eq_refl)), Hyes.
    + destruct (IH Hrest options) as (options' & Hrun & Hissuer & Hkeep & Hsome & Hnone).
      exists options'. split; [exact Hrun |]. split; [exact Hissuer |].
      split; [exact Hkeep |]. split.
      * intros (u & [<- | Hu] & Hpoints); [contradiction |].
        apply Hsome. exists u. split; assumption.
      * intros Hall. apply Hnone. intros u Hu. apply Hall. right. exact Hu.
Qed.

Lemma forEachUrl_same_urls (connectionProfile other : gmap string value)
    (urls : list string) :
  (forall url, In url urls -> other !! url = connectionProfile !! url) ->
  forall options, forEachUrl other urls options = forEachUrl connectionProfile urls options.
Proof.
  induction urls as [| url rest IH]; intros Hsame options; simpl; [reflexivity |].
  unfold checkUrl. rewrite (Hsame url (or_introl eq_refl)).
  destruct (if truthy _ then _ else _) as [options' | e]; [| reflexivity].
  apply IH. intros u Hu. apply Hsame. right. exact Hu.
Qed.

(** X11. On a connection profile whose three URLs are strings, or absent,
    the options handed to [issueIdentity] carry the issuer flag as it is,
    and the affiliation group1 exactly when [.blockchain.ibm.com] occurs in
    at least one of membershipServicesURL, peerURL and eventHubURL;
    otherwise the affiliation stays undefined.  No other property of the
    profile plays a part. *)
Theorem affiliation_rule (issuerFlag : bool) (connectionProfile : gmap string value) :
  (forall url, In url urlKeys -> wellFormedUrl connectionProfile url) ->
  exists options,
    issueOptions issuerFlag connectionProfile = Ok options /\
    issuer options = issuerFlag /\
    (affiliation options = Some "group1" <->
     exists url, In url urlKeys /\ pointsToBluemix connectionProfile url) /\
    (affiliation options = None <->
     forall url, In url urlKeys -> ~ pointsToBluemix connectionProfile url) /\
    (forall other : gmap string value,
       (forall url, In url urlKeys -> other !! url = connectionProfile !! url) ->
       issueOptions issuerFlag other = Ok options).
Proof.
  intros Hwell. unfold issueOptions.
  destruct (forEachUrl_wellFormed connectionProfile urlKeys Hwell
              (mkOptions issuerFlag None))
    as (options & Hrun & Hissuer & _ & Hsome & Hnone).
  simpl in Hissuer, Hnone.
  exists options. split; [exact Hrun |]. split; [exact Hissuer |].
  destruct (pointsToBluemix_somewhere connectionProfile urlKeys Hwell) as [Hex | Hall].
  - pose proof (Hsome Hex) as Hgroup. split; [| split].
    + split; [intros _; exact Hex | intros _; exact Hgroup].
    + split.
      * intros Hnot. rewrite Hgroup in Hnot. discriminate.
      * intros Hno. destruct Hex as (u & Hu & Hpoints). exfalso. exact (Hno u Hu Hpoints).
    + intros other Hsame. rewrite (forEachUrl_same_urls _ _ _ Hsame). exact Hrun.
  - pose proof (Hnone Hall) as Hundefined. split; [| split].
    + split.
      * intros Hgroup. rewrite Hundefined in Hgroup. discriminate.
      * intros (u & Hu & Hpoints). exfalso. exact (Hall u Hu Hpoints).
    + split; [intros _; exact Hall | intros _; exact Hundefined].
    + intros other Hsame. rewrite (forEachUrl_same_urls _ _ _ Hsame). exact Hrun.
Qed.

(** X12. A URL of the profile that holds something truthy other than a
    string makes the building of the options throw a TypeError: no options
    are produced, whatever the other URLs hold. *)
Theorem malformed_url_throws (issuerFlag : bool) (connectionProfile : gmap string value)
    (url : string) (v : value) :
  In url urlKeys ->
  connectionProfile !! url = Some v ->
  truthy v = true ->
  (forall str, v <> VString str) ->
  issueOptions issuerFlag connectionProfile = Raise TypeError.
Proof.
  intros Hin Hv Htruthy Hnot. unfold issueOptions.
  assert (Hthrows : forall options, checkUrl connectionProfile options url = Raise TypeError).
  { intros options. unfold checkUrl. rewrite Hv. simpl. rewrite Htruthy.
    destruct v; try reflexivity. exfalso. exact (Hnot s eq_refl). }
  assert (Honly : forall options u,
            (exists o, checkUrl connectionProfile options u = Ok o)
            \/ checkUrl connectionProfile options u = Raise TypeError).
  { intros options u. unfold checkUrl.
    destruct (default VUndefined (connectionProfile !! u)) as [| | b | q | str | | | |];
      simpl; try (left; eexists; reflexivity); try (right; reflexivity).
    - destruct b; [right; reflexivity | left; eexists; reflexivity].
    - destruct (negb (Qeq_bool q 0)); [right; reflexivity | left; eexists; reflexivity].
    - destruct (negb (String.eqb str "")); [| left; eexists; reflexivity].
      destruct (matchesBluemix str); left; eexists; reflexivity. }
  assert (Hloop : forall urls options,
            In url urls -> forEachUrl connectionProfile urls options = Raise TypeError).
  { induction urls as [| u rest IH]; intros options Hu; [destruct Hu |].
    simpl. destruct Hu as [-> | Hu]; [rewrite Hthrows; reflexivity |].
    destruct (Honly options u) as [[o ->] | ->]; [apply IH, Hu | reflexivity]. }
  apply Hloop, Hin.
Qed.

End IssueIdentityProperties.

(** ** More properties at work *)

Import MoreSamples.

(** A node that is none of the three kinds is refused and nothing changes. *)
Lemma visit_effect_witness :
  visit 1 (ThingOther "{}") parameters farmStore
    = Thrown (Error "Unrecognised {}") farmStore.
Proof. exact (visit_effect 1 (ThingOther "{}") parameters farmStore). Defined.

(** Generating a Haunted ends with the failed lookup of the type of its
    second property; the first property stays generated. *)
Lemma first_throw_aborts_witness :
  is_Some (heap MoreSamples.hauntedStore !! 0%nat) /\
  forProperties (visitClassDeclaration 0) (Some 0%nat) [stringField "hid"] parameters
    MoreSamples.hauntedStore = Returned tt MoreSamples.hauntedStoreNamed /\
  isNull (readProperty MoreSamples.hauntedStoreNamed 0%nat "ghost") = true /\
  generate 1 MoreSamples.Haunted 0%nat parameters MoreSamples.hauntedStore
    = Thrown (TypeNotFound "org.acme.Ghost") MoreSamples.hauntedStoreNamed.
Proof.
  assert (Hlive : is_Some (heap MoreSamples.hauntedStore !! 0%nat))
    by (eexists; reflexivity).
  assert (Hbefore : forProperties (visitClassDeclaration 0) (Some 0%nat)
                      [stringField "hid"] parameters MoreSamples.hauntedStore
                    = Returned tt MoreSamples.hauntedStoreNamed)
    by (vm_compute; reflexivity).
  pose proof (first_throw_aborts 0 MoreSamples.Haunted 0%nat parameters
                [stringField "hid"] [stringField "motto"]
                (PropRelationship (RelationshipDeclaration.mk "ghost" "org.acme.Ghost" false))
                MoreSamples.hauntedStore MoreSamples.hauntedStoreNamed
                MoreSamples.hauntedStoreNamed (TypeNotFound "org.acme.Ghost")
                eq_refl Hlive Hbefore eq_refl eq_refl) as (Hthrown & _).
  split; [exact Hlive |]. split; [exact Hbefore |]. split; [reflexivity | exact Hthrown].
Defined.

(** A generated Farm holds a value in each property it declares. *)
Lemma generated_instance_populated_witness :
  is_Some (heap MoreSamples.farmOnly !! 0%nat) /\
  exists v s',
    generate 2 Farm 0%nat farmParameters MoreSamples.farmOnly = Returned v s' /\
    v = VObject 0%nat /\
    forall property, In property (ClassDeclaration.getProperties Farm) ->
      isNull (readProperty s' 0%nat (Property_getName property)) = false.
Proof.
  assert (Hlive : is_Some (heap MoreSamples.farmOnly !! 0%nat)) by (eexists; reflexivity).
  assert (Hvalues : answersValues
            (default ValueGeneratorFactory_sample (valueGenerator farmParameters)))
    by (intros w; repeat split; reflexivity).
  assert (Hrun : exists v s',
            generate 2 Farm 0%nat farmParameters MoreSamples.farmOnly = Returned v s')
    by (eexists; eexists; vm_compute; reflexivity).
  destruct Hrun as (v & s' & Hrun).
  pose proof (generated_instance_populated 2 Farm 0%nat farmParameters
                MoreSamples.farmOnly s' v Hvalues Hlive Hrun) as (Hv & Hall).
  split; [exact Hlive |]. exists v, s'.
  split; [exact Hrun |]. split; [exact Hv | exact Hall].
Defined.

(** The pet of a Farm is a new Fish that holds its identifier in its tag. *)
Lemma class_field_is_new_instance_witness :
  isPrimitiveType (Field.getFullyQualifiedTypeName pet) = false /\
  ModelManager.getType schema (Field.getFullyQualifiedTypeName pet)
    = Some (DeclClass Fish) /\
  findExtendingLeafType schema Fish = Ok (Some Fish) /\
  exists v s' o,
    getFieldValue 1 pet parameters MoreSamples.farmOnly = Returned v s' /\
    v = VObject 1%nat /\
    heap s' !! 1%nat = Some o /\
    inst_kind o = Resource /\ inst_type o = "Fish" /\
    inst_identifier o = Some "tag:3757" /\
    Instance_get o "tag" = VString "tag:3757".
Proof.
  assert (Hrun : exists v s',
            getFieldValue 1 pet parameters MoreSamples.farmOnly = Returned v s')
    by (eexists; eexists; vm_compute; reflexivity).
  destruct Hrun as (v & s' & Hrun).
  pose proof (class_field_is_new_instance 1 pet parameters Fish Fish
                MoreSamples.farmOnly s' v eq_refl eq_refl eq_refl Hrun)
    as (Hv & _ & o & Ho & Hkind & _ & Htype & Hid & Hheld & _).
  specialize (Hheld "tag" eq_refl eq_refl).
  split; [reflexivity |]. split; [reflexivity |]. split; [reflexivity |].
  exists v, s', o. split; [exact Hrun |]. split; [exact Hv |]. split; [exact Ho |].
  split; [exact Hkind |]. split; [exact Htype |]. split; [exact Hid | exact Hheld].
Defined.

(** The pets of a Farm are three different new objects. *)
Lemma array_elements_are_distinct_instances_witness :
  Field.isArray MoreSamples.pets = true /\
  isPrimitiveType (Field.getFullyQualifiedTypeName MoreSamples.pets) = false /\
  ModelManager.getType schema (Field.getFullyQualifiedTypeName MoreSamples.pets)
    = Some (DeclClass Animal) /\
  exists v s' (a b c : nat),
    visitField 1 MoreSamples.pets parameters MoreSamples.farmOnly = Returned v s' /\
    v = VArray [VObject a; VObject b; VObject c] /\
    (1 <= a)%nat /\ (a < b)%nat /\ (b < c)%nat.
Proof.
  assert (Hrun : exists v s',
            visitField 1 MoreSamples.pets parameters MoreSamples.farmOnly = Returned v s')
    by (eexists; eexists; vm_compute; reflexivity).
  destruct Hrun as (v & s' & Hrun).
  pose proof (array_elements_are_distinct_instances 1 MoreSamples.pets parameters Animal
                MoreSamples.farmOnly s' v eq_refl eq_refl eq_refl Hrun)
    as (a & b & c & Hv & Ha & Hab & Hbc & _).
  split; [reflexivity |]. split; [reflexivity |]. split; [reflexivity |].
  exists v, s', a, b, c. split; [exact Hrun |]. split; [exact Hv |].
  split; [exact Ha |]. split; [exact Hab | exact Hbc].
Defined.

(** Two different samples whose binary64 products with 9999 round to 4099
    give the same identifier. *)
Lemma identifier_collision_witness :
  isSample MoreSamples.halfway = true /\
  isSample MoreSamples.aboveHalfway = true /\
  MoreSamples.halfway <> MoreSamples.aboveHalfway /\
  identifier_of_sample (Some "vin") MoreSamples.halfway = "vin:4099" /\
  identifier_of_sample (Some "vin") MoreSamples.aboveHalfway = "vin:4099" /\
  String.length (identifier_of_sample (Some "vin") MoreSamples.halfway) = 8%nat.
Proof.
  assert (H1 : isSample MoreSamples.halfway = true) by (vm_compute; reflexivity).
  assert (H2 : isSample MoreSamples.aboveHalfway = true) by (vm_compute; reflexivity).
  assert (Hfirst : identifier_of_sample (Some "vin") MoreSamples.halfway = "vin:4099")
    by (vm_compute; reflexivity).
  pose proof (identifier_collision (Some "vin") MoreSamples.halfway MoreSamples.aboveHalfway
                H1 H2) as (Hsame & Hlength).
  split; [exact H1 |]. split; [exact H2 |].
  split; [vm_compute; discriminate |]. split; [exact Hfirst |].
  split; [| exact Hlength].
  rewrite <- Hfirst. symmetry. apply Hsame. vm_compute. reflexivity.
Defined.

(** With the "empty" generator passed in, the default generator plays no part. *)
Lemma explicit_generator_overrides_default_witness :
  valueGenerator farmParameters = Some emptyGenerator /\
  generate (H0 := Build_Runtime Z random sampleGenerator) 2 Farm 0%nat farmParameters
    MoreSamples.farmOnly
  = generate (H0 := Build_Runtime Z random emptyGenerator) 2 Farm 0%nat farmParameters
      MoreSamples.farmOnly.
Proof.
  split; [reflexivity |].
  pose proof (explicit_generator_overrides_default random sampleGenerator emptyGenerator
                farmParameters emptyGenerator 2 MoreSamples.farmOnly eq_refl)
    as (Hgenerate & _).
  exact (Hgenerate Farm 0%nat).
Defined.

(** Looking for Person among the participants. *)
Lemma search_first_ten_matches_witness :
  "Person" <> "" /\
  IssueIdentity.RegExp_new (RegExpEngine := literalEngine) "Person" "gi" = Some "Person" /\
  IssueIdentity.search MoreSamples.participants "Person"
    = Some ["org.acme.Person#alice"; "org.acme.Person#bob"].
Proof.
  assert (Hterm : "Person" <> "") by discriminate.
  destruct (search_first_ten_matches (H := literalEngine) MoreSamples.participants "Person" "Person"
              Hterm eq_refl) as (results & Hrun & Hresults & _).
  split; [exact Hterm |]. split; [reflexivity |].
  rewrite Hrun, Hresults. reflexivity.
Defined.

(** A lone parenthesis throws on a list of participants, not on an empty one. *)
Lemma search_edges_witness :
  "(" <> "" /\
  IssueIdentity.RegExp_new "(" "gi" = None /\
  MoreSamples.participants <> [] /\
  IssueIdentity.search MoreSamples.participants "" = Some [] /\
  IssueIdentity.search [] "(" = Some [] /\
  IssueIdentity.search MoreSamples.participants "(" = None.
Proof.
  assert (Hterm : "(" <> "") by discriminate.
  assert (Hsome : MoreSamples.participants <> []) by discriminate.
  destruct (search_edges (H := literalEngine) MoreSamples.participants "(") as (Hempty & Hinvalid).
  destruct (Hinvalid Hterm eq_refl) as (Hnone & Hthrows).
  split; [exact Hterm |]. split; [reflexivity |]. split; [exact Hsome |].
  split; [exact Hempty |]. split; [exact Hnone | exact (Hthrows Hsome)].
Defined.

(** The hosted profile gets the affiliation group1. *)
Lemma affiliation_rule_witness :
  (forall url, In url IssueIdentity.urlKeys ->
     wellFormedUrl MoreSamples.hostedProfile url) /\
  exists options,
    IssueIdentity.issueOptions true MoreSamples.hostedProfile = Ok options /\
    IssueIdentity.issuer options = true /\
    IssueIdentity.affiliation options = Some "group1".
Proof.
  assert (Hwell : forall url, In url IssueIdentity.urlKeys ->
            wellFormedUrl MoreSamples.hostedProfile url).
  { intros url Hin. simpl in Hin.
    repeat (destruct Hin as [<- | Hin];
            [vm_compute; first [exact I | intros _; eexists; reflexivity] |]).
    destruct Hin. }
  destruct (affiliation_rule true MoreSamples.hostedProfile Hwell)
    as (options & Hrun & Hissuer & Hgroup & _).
  split; [exact Hwell |]. exists options.
  split; [exact Hrun |]. split; [exact Hissuer |].
  apply Hgroup. exists "peerURL". split; [right; left; reflexivity |].
  exists "grpc://vp0.us", ":30303". reflexivity.
Defined.

(** A port number under peerURL makes the options throw. *)
Lemma malformed_url_throws_witness :
  In "peerURL" IssueIdentity.urlKeys /\
  MoreSamples.brokenProfile !! "peerURL" = Some (VNumber 7051) /\
  truthy (VNumber 7051) = true /\
  IssueIdentity.issueOptions false MoreSamples.brokenProfile = Raise TypeError.
Proof.
  assert (Hin : In "peerURL" IssueIdentity.urlKeys) by (right; left; reflexivity).
  split; [exact Hin |]. split; [reflexivity |]. split; [reflexivity |].
  apply (malformed_url_throws false MoreSamples.brokenProfile "peerURL" (VNumber 7051)
           Hin eq_refl eq_refl).
  intros str. discriminate.
Defined.

(** Generating a Farm a second time changes nothing. *)
Lemma regeneration_changes_nothing_witness :
  is_Some (heap MoreSamples.farmOnly !! 0%nat) /\
  exists v s',
    generate 2 Farm 0%nat farmParameters MoreSamples.farmOnly = Returned v s' /\
    generate 1 Farm 0%nat farmParameters s' = Returned v s'.
Proof.
  assert (Hlive : is_Some (heap MoreSamples.farmOnly !! 0%nat)) by (eexists; reflexivity).
  assert (Hvalues : answersValues
            (default ValueGeneratorFactory_sample (valueGenerator farmParameters)))
    by (intros w; repeat split; reflexivity).
  assert (Hrun : exists v s',
            generate 2 Farm 0%nat farmParameters MoreSamples.farmOnly = Returned v s')
    by (eexists; eexists; vm_compute; reflexivity).
  destruct Hrun as (v & s' & Hrun).
  split; [exact Hlive |]. exists v, s'. split; [exact Hrun |].
  exact (regeneration_changes_nothing 2 0 Farm 0%nat farmParameters
           MoreSamples.farmOnly s' v Hvalues Hlive Hrun).
Defined.
